(** * Project Sentinel: detectors, correlation engine, severity scorer
      and event assembler

    A shallow embedding of the analysis core of the repository:

    - [Team01_sentinel/src/analysis_inventory_snapshots.py]:
      [InventoryShrinkageDetector.detect_shrinkage_events], and the frame
      that [generate_inventory_report] hands to it after
      [analyze_inventory_trends]
    - [analysis_pos_transactions.py]:
      [WeightDiscrepancyDetector.detect_weight_discrepancies],
      [BarcodeSwappingDetector.detect_barcode_swapping],
      [CustomerBehaviorAnalyzer.analyze_customer_patterns] and the row
      that [load_pos_transactions] builds from a record
    - [Team01_sentinel/src/analysis_product_recognition.py]:
      [LowConfidenceDetector.detect_low_confidence_predictions] and
      [ScannerAvoidanceDetector.detect_scanner_avoidance]
    - [analysis_queue_monitoring.py]:
      [DwellTimeAnomalyDetector.detect_dwell_anomalies]
    - [analysis_rfid_readings.py]:
      [RFIDCoverageAnalyzer.analyze_rfid_coverage]
    - [master_analysis.py]: [CrossCorrelationAnalyzer.correlate_events],
      [FraudSeverityScorer.calculate_severity_score] and
      [generate_events_jsonl]

    Conventions of the embedding.

    - Python floats are exact rationals ([Q]); every comparison of the
      source is the same comparison on [Q].  NaN cells of a pandas frame are
      [None]: every comparison with NaN is false, as in the source.
    - A dict with a fixed set of keys built by the code is a record; a dict
      that is inspected by key ([event.get('evidence', {})]) is a [pyval].
    - An exception of the source is [None] in the option monad.
    - The detectors work on loaded frames and record lists: file reading,
      the statistics and plots of the report generators (of a report only
      the detector calls and their thresholds are modelled) and the runner
      [run_all_analyses] are not modelled.  The reports read by the master
      analysis carry ISO-8601 timestamp strings, which is what its calls
      of [datetime.fromisoformat] accept; the POS frame carries
      [datetime64[ns]] instants.
    - [datetime.fromisoformat] is a parameter of the correlation engine;
      [Iso.iso_micros] is a reference parser for the basic
      [YYYY-MM-DDTHH:MM:SS] form, used to run the code on concrete input. *)

From stdpp Require Import base option list strings gmap pretty.
From Stdlib Require Import QArith Qabs Qround Lia Lqa Ascii Sorted.
From Stdlib Require Import Floats.PrimFloat.

Local Open Scope Q_scope.
Local Open Scope string_scope.
Local Open Scope list_scope.

(** * Part I: the embedding *)

(** ** Rational arithmetic as the source compares floats *)

Module Num.

(** [a < b] and [a <= b] on floats *)
Definition ltb (a b : Q) : bool := negb (Qle_bool b a).
Definition leb (a b : Q) : bool := Qle_bool a b.

(** Python's [min(a, b)]: the first argument unless the second is
    strictly smaller. *)
Definition min (a b : Q) : Q := if ltb b a then b else a.

(** [np.mean] and [Series.sum] *)
Definition sum (l : list Q) : Q := foldr Qplus 0 l.
Definition mean (l : list Q) : Q := sum l / inject_Z (Z.of_nat (length l)).

(** Rounding to the nearest integer, ties to even, as the float
    formatting of Python rounds. *)
Definition round_half_even (x : Q) : Z :=
  let f := Qfloor x in
  let r := x - inject_Z f in
  if ltb r (1 # 2) then f
  else if ltb (1 # 2) r then (f + 1)%Z
  else if Z.even f then f else (f + 1)%Z.

End Num.

(** ** Strings as the source uses them *)

Module Str.

Definition is_upper (c : ascii) : bool :=
  (65 <=? nat_of_ascii c)%nat && (nat_of_ascii c <=? 90)%nat.

Definition lower_char (c : ascii) : ascii :=
  if is_upper c then ascii_of_nat (nat_of_ascii c + 32) else c.

Fixpoint map_chars (f : ascii -> ascii) (s : string) : string :=
  match s with
  | EmptyString => EmptyString
  | String c s' => String (f c) (map_chars f s')
  end.

(** [s.lower()] on ASCII text *)
Definition lower : string -> string := map_chars lower_char.

(** [s.replace(a, b)] for one-character [a] and [b] *)
Definition replace (a b : ascii) : string -> string :=
  map_chars (fun c => if Ascii.eqb c a then b else c).

(** [k in s] for strings: [k] occurs in [s] *)
Fixpoint occurs (k s : string) : bool :=
  String.prefix k s ||
  match s with
  | EmptyString => false
  | String _ s' => occurs k s'
  end.

(** [s] contains [k] as a substring *)
Definition contains (k s : string) : Prop :=
  exists pre post, s = pre +:+ k +:+ post.

(** The last [d] decimal digits of [n], zero padded *)
Fixpoint frac_digits (d : nat) (n : Z) : string :=
  match d with
  | O => EmptyString
  | S d' => frac_digits d' (n / 10) +:+ pretty (n mod 10)%Z
  end.

(** [f"{x:.<d>f}"] for [d >= 1]: sign, integer part, point and [d]
    digits of the value rounded half to even *)
Definition format_fixed (d : nat) (x : Q) : string :=
  let n := Num.round_half_even (Qabs x * inject_Z (10 ^ Z.of_nat d)) in
  (if Num.ltb x 0 then "-" else "")
  +:+ pretty (n / 10 ^ Z.of_nat d)%Z +:+ "." +:+ frac_digits d n.

End Str.

(** ** Stable sort by key: [list.sort(key=...)], [sort_values] *)

Fixpoint insert_by {A K : Type} (le : K -> K -> bool) (key : A -> K)
    (x : A) (l : list A) : list A :=
  match l with
  | [] => [x]
  | y :: l' =>
    if le (key x) (key y) then x :: l else y :: insert_by le key x l'
  end.

(** Elements with equal keys keep their order: an element is put in
    front of the first later element whose key is not smaller. *)
Definition sort_by {A K : Type} (le : K -> K -> bool) (key : A -> K)
    (l : list A) : list A :=
  foldr (insert_by le key) [] l.

Definition key_le {A K : Type} (le : K -> K -> bool) (key : A -> K)
    (a b : A) : Prop :=
  le (key a) (key b) = true.

(** ** Python values that the code inspects dynamically *)

#[warnings="-register-all"] Inductive pyval : Type :=
  | PNone
  | PNum (q : Q)
  | PStr (s : string)
  | PList (l : list pyval)
  | PTuple (l : list pyval)
  | PDict (d : list (string * pyval)).

(** A dict literal, in insertion order *)
Abbreviation pydict := (list (string * pyval)).

Module Py.

Fixpoint dict_get (k : string) (d : pydict) : option pyval :=
  match d with
  | [] => None
  | (k', v) :: d' => if String.eqb k k' then Some v else dict_get k d'
  end.

(** [d.get(k, default)] *)
Definition get (d : pydict) (k : string) (default : pyval) : pyval :=
  from_option id default (dict_get k d).

Definition is_str (k : string) (v : pyval) : bool :=
  match v with PStr s => String.eqb s k | _ => false end.

(** [k in x] for a string [k]: key membership in a dict, element
    membership in a list or tuple, substring of a string, [TypeError]
    on [None] and numbers. *)
Definition contains (k : string) (x : pyval) : option bool :=
  match x with
  | PDict d => Some (bool_decide (is_Some (dict_get k d)))
  | PList l | PTuple l => Some (existsb (is_str k) l)
  | PStr s => Some (Str.occurs k s)
  | PNone | PNum _ => None
  end.

(** [x[k]] for a string [k]: [KeyError] on a missing key, [TypeError]
    on anything that is not a dict. *)
Definition getitem (x : pyval) (k : string) : option pyval :=
  match x with
  | PDict d => dict_get k d
  | _ => None
  end.

(** A value used as a float operand *)
Definition as_num (v : pyval) : option Q :=
  match v with PNum q => Some q | _ => None end.

Definition of_station (o : option string) : pyval :=
  match o with Some s => PStr s | None => PNone end.

End Py.

(** ** A reference [datetime.fromisoformat]

    The basic form [YYYY-MM-DD?HH:MM:SS] to microseconds since
    1970-01-01T00:00:00 (naive); anything else is a [ValueError].  Only
    used to run the master analysis on concrete timestamps. *)

Module Iso.

Definition num2 (a b : ascii) : option Z :=
  x ← Ascii.is_nat a; y ← Ascii.is_nat b;
  Some (Z.of_nat (10 * x + y)).

Definition num4 (a b c d : ascii) : option Z :=
  x ← num2 a b; y ← num2 c d; Some (100 * x + y)%Z.

Definition is_leap (y : Z) : bool :=
  ((y mod 4 =? 0) && negb (y mod 100 =? 0) || (y mod 400 =? 0))%Z.

Definition days_in_month (y m : Z) : Z :=
  if (m =? 2)%Z then (if is_leap y then 29 else 28)%Z
  else if ((m =? 4) || (m =? 6) || (m =? 9) || (m =? 11))%Z then 30%Z
  else 31%Z.

(** Days since 1970-01-01 of a proleptic Gregorian date *)
Definition days_from_civil (y m d : Z) : Z :=
  let y' := (if m <=? 2 then y - 1 else y)%Z in
  let era := (y' / 400)%Z in
  let yoe := (y' - era * 400)%Z in
  let mp := (if m <=? 2 then m + 9 else m - 3)%Z in
  let doy := ((153 * mp + 2) / 5 + d - 1)%Z in
  let doe := (yoe * 365 + yoe / 4 - yoe / 100 + doy)%Z in
  (era * 146097 + doe - 719468)%Z.

Definition iso_micros (s : string) : option Z :=
  match String.list_ascii_of_string s with
  | [y1; y2; y3; y4; "-"; m1; m2; "-"; d1; d2; _;
     h1; h2; ":"; n1; n2; ":"; s1; s2]%char =>
    y ← num4 y1 y2 y3 y4; m ← num2 m1 m2; d ← num2 d1 d2;
    h ← num2 h1 h2; n ← num2 n1 n2; sec ← num2 s1 s2;
    if ((1 <=? y) && (1 <=? m) && (m <=? 12) && (1 <=? d)
        && (d <=? days_in_month y m)
        && (h <? 24) && (n <? 60) && (sec <? 60))%Z
    then Some (((days_from_civil y m d * 86400
                 + h * 3600 + n * 60 + sec) * 1000000)%Z)
    else None
  | _ => None
  end.

End Iso.

(** ** Candidate events: the dicts the detectors append *)

(** [InventoryShrinkageDetector.detect_shrinkage_events] *)
Record shrinkage_event := {
  se_timestamp : string;
  se_product : string;
  se_previous_qty : Z;
  se_current_qty : Z;
  se_decrease_percentage : Q;
  se_severity : string
}.

(** [WeightDiscrepancyDetector.detect_weight_discrepancies]; the
    timestamp is whatever the transaction carries ([T]). *)
Record weight_discrepancy (T : Type) := {
  wd_timestamp : T;
  wd_customer_id : string;
  wd_station_id : option string;
  wd_sku : string;
  wd_product_name : string;
  wd_expected_weight : Q;
  wd_actual_weight : Q;
  wd_weight_difference_pct : Q;
  wd_price : Q;
  wd_severity : string
}.
Arguments wd_timestamp {T}.
Arguments wd_customer_id {T}.
Arguments wd_station_id {T}.
Arguments wd_sku {T}.
Arguments wd_product_name {T}.
Arguments wd_expected_weight {T}.
Arguments wd_actual_weight {T}.
Arguments wd_weight_difference_pct {T}.
Arguments wd_price {T}.
Arguments wd_severity {T}.

(** [BarcodeSwappingDetector.detect_barcode_swapping] *)
Record barcode_event (T : Type) := {
  bs_timestamp : T;
  bs_customer_id : string;
  bs_station_id : option string;
  bs_sku : string;
  bs_product_name : string;
  bs_price : Q;
  bs_actual_weight : Q;
  bs_current_price_per_gram : Q;
  bs_expected_price_per_gram : Q;
  bs_price_ratio : Q;
  bs_suspicion_reason : string
}.
Arguments bs_timestamp {T}.
Arguments bs_customer_id {T}.
Arguments bs_station_id {T}.
Arguments bs_sku {T}.
Arguments bs_product_name {T}.
Arguments bs_price {T}.
Arguments bs_actual_weight {T}.
Arguments bs_current_price_per_gram {T}.
Arguments bs_expected_price_per_gram {T}.
Arguments bs_price_ratio {T}.
Arguments bs_suspicion_reason {T}.

(** [LowConfidenceDetector.detect_low_confidence_predictions] *)
Record low_confidence_event := {
  lc_timestamp : string;
  lc_station_id : option string;
  lc_predicted_product : string;
  lc_confidence : Q;
  lc_severity : string
}.

(** [DwellTimeAnomalyDetector.detect_dwell_anomalies] *)
Record dwell_anomaly := {
  da_timestamp : string;
  da_station_id : option string;
  da_customer_count : Z;
  da_dwell_time : Q;
  da_anomaly_type : string;
  da_severity : string;
  da_potential_causes : list string
}.

(** ** Stream reports: the dicts [generate_*_report] return, restricted
    to the keys the master analysis reads.  A key read with
    [.get(key, [])] may be absent ([None]). *)

Record inventory_report := {
  shrinkage_events : option (list shrinkage_event)
}.

Record pos_report := {
  weight_discrepancies : option (list (weight_discrepancy string));
  suspected_barcode_swapping : option (list (barcode_event string))
}.

Record recognition_report := {
  low_confidence_events : option (list low_confidence_event)
}.

Record queue_report := {
  dwell_time_anomalies : option (list dwell_anomaly)
}.

Record rfid_report := {
  rfid_detection_rate : Q;
  security_incidents : Z
}.

(** [all_reports]: a stream whose analysis failed has no key. *)
Record all_reports := {
  inventory : option inventory_report;
  pos : option pos_report;
  recognition : option recognition_report;
  queue : option queue_report;
  rfid : option rfid_report
}.

(** ** Inventory shrinkage detector
    [Team01_sentinel/src/analysis_inventory_snapshots.py] *)

Module Inventory.

(** One row of the frame built by [load_inventory_data]: the timestamp as
    [strftime('%Y-%m-%dT%H:%M:%S')] renders it and the quantity cells; a
    product missing from the record is a NaN cell. *)
Record snapshot := {
  snap_timestamp : string;
  snap_data : gmap string Z
}.

(** The frame the detector receives: column labels in frame order (the
    ['timestamp'] column among them) and the rows in index order.
    [generate_inventory_report] runs [analyze_inventory_trends] on the
    frame first, which adds a ['total_inventory'] column to it; the
    detector scans that column like any product column. *)
Record DataFrame := {
  columns : list string;
  rows : list snapshot
}.

Definition decrease_pct (prev curr : Z) : Q :=
  ((inject_Z prev - inject_Z curr) / inject_Z prev) * 100.

(** The same expression on binary64 floats, as NumPy evaluates it *)
Definition decrease_pct_binary64 (prev curr : PrimFloat.float)
    : PrimFloat.float :=
  PrimFloat.mul (PrimFloat.div (PrimFloat.sub prev curr) prev) 100%float.

(** The body of the inner loop at index [i] *)
Definition shrinkage_at (threshold : Q) (df : DataFrame)
    (product : string) (i : nat) : list shrinkage_event :=
  match rows df !! (i - 1)%nat, rows df !! i with
  | Some rp, Some rc =>
    match snap_data rp !! product with
    | Some prev =>
      if (0 <? prev)%Z then
        match snap_data rc !! product with
        | Some curr =>
          if Num.ltb threshold (decrease_pct prev curr) then
            [ {| se_timestamp := snap_timestamp rc;
                 se_product := product;
                 se_previous_qty := prev;
                 se_current_qty := curr;
                 se_decrease_percentage := decrease_pct prev curr;
                 se_severity :=
                   if Num.ltb 10 (decrease_pct prev curr)
                   then "HIGH" else "MEDIUM" |} ]
          else []
        | None => []
        end
      else []
    | None => []
    end
  | _, _ => []
  end.

Definition detect_shrinkage_events (threshold : Q) (df : DataFrame)
    : list shrinkage_event :=
  flat_map (fun product =>
    if String.eqb product "timestamp" then []
    else flat_map (shrinkage_at threshold df product)
                  (seq 1 (length (rows df) - 1)))
    (columns df).

(** The constructor default of [InventoryShrinkageDetector], and the
    [threshold_percentage=3.0] that [generate_inventory_report] builds its
    detector with *)
Definition default_threshold : Q := 5.
Definition report_threshold : Q := 3.

(** The frame of the two records [{p: a0}] and [{p: a1}] *)
Definition two_snapshots (p : string) (a0 a1 : Z) : DataFrame :=
  {| columns := ["timestamp"; p];
     rows := [ {| snap_timestamp := "2025-08-13T17:00:00";
                  snap_data := {[ p := a0 ]} |};
               {| snap_timestamp := "2025-08-13T17:10:00";
                  snap_data := {[ p := a1 ]} |} ] |}.

End Inventory.

(** ** POS transaction detectors  [analysis_pos_transactions.py] *)

Module Pos.

(** One row of the frame built by [load_pos_transactions]; the timestamp
    is the [datetime64[ns]] value, NaN weights are [None]. *)
Record transaction := {
  tx_timestamp : Z;
  tx_station_id : option string;
  tx_status : string;
  tx_customer_id : string;
  tx_sku : string;
  tx_product_name : string;
  tx_barcode : string;
  tx_price : Q;
  tx_expected_weight : option Q;
  tx_actual_weight : option Q
}.

Abbreviation DataFrame := (list transaction).

(** *** [WeightDiscrepancyDetector] *)

Definition default_tolerance : Q := 15.

Definition weight_diff_pct (actual expected : Q) : Q :=
  Qabs ((actual - expected) / expected) * 100.

Definition weight_discrepancy_at (tolerance : Q) (t : transaction)
    : list (weight_discrepancy Z) :=
  match tx_actual_weight t, tx_expected_weight t with
  | Some actual, Some expected =>
    if Num.ltb 0 expected then
      if Num.ltb tolerance (weight_diff_pct actual expected) then
        [ {| wd_timestamp := tx_timestamp t;
             wd_customer_id := tx_customer_id t;
             wd_station_id := tx_station_id t;
             wd_sku := tx_sku t;
             wd_product_name := tx_product_name t;
             wd_expected_weight := expected;
             wd_actual_weight := actual;
             wd_weight_difference_pct := weight_diff_pct actual expected;
             wd_price := tx_price t;
             wd_severity :=
               if Num.ltb 50 (weight_diff_pct actual expected)
               then "HIGH" else "MEDIUM" |} ]
      else []
    else []
  | _, _ => []
  end.

Definition detect_weight_discrepancies (tolerance : Q) (df : DataFrame)
    : list (weight_discrepancy Z) :=
  flat_map (weight_discrepancy_at tolerance) df.

(** *** [BarcodeSwappingDetector] *)

(** First pass: the [price_per_gram] dict, price over expected weight *)
Definition price_per_gram_step (m : gmap string (list Q)) (t : transaction)
    : gmap string (list Q) :=
  match tx_expected_weight t with
  | Some expected =>
    if Num.ltb 0 expected then
      <[ tx_sku t := default [] (m !! tx_sku t) ++ [tx_price t / expected] ]> m
    else m
  | None => m
  end.

Definition price_per_gram (df : DataFrame) : gmap string (list Q) :=
  foldl price_per_gram_step ∅ df.

Definition avg_price_per_gram (df : DataFrame) : gmap string Q :=
  Num.mean <$> price_per_gram df.

(** Second pass: price over actual weight against the average *)
Definition current_ppg (t : transaction) (actual_weight : Q) : Q :=
  tx_price t / actual_weight.

Definition expected_ppg (avg : gmap string Q) (t : transaction)
    (actual_weight : Q) : Q :=
  default (current_ppg t actual_weight) (avg !! tx_sku t).

Definition barcode_flag (avg : gmap string Q) (t : transaction) : bool :=
  match tx_actual_weight t with
  | None => false
  | Some actual_weight =>
    if Qeq_bool actual_weight 0 then false
    else Num.ltb 0 (expected_ppg avg t actual_weight)
         && Num.ltb (current_ppg t actual_weight)
                    (expected_ppg avg t actual_weight * (1 # 2))
  end.

Definition barcode_event_of (avg : gmap string Q) (t : transaction)
    : barcode_event Z :=
  let actual_weight := default 0 (tx_actual_weight t) in
  {| bs_timestamp := tx_timestamp t;
     bs_customer_id := tx_customer_id t;
     bs_station_id := tx_station_id t;
     bs_sku := tx_sku t;
     bs_product_name := tx_product_name t;
     bs_price := tx_price t;
     bs_actual_weight := actual_weight;
     bs_current_price_per_gram := current_ppg t actual_weight;
     bs_expected_price_per_gram := expected_ppg avg t actual_weight;
     bs_price_ratio :=
       current_ppg t actual_weight / expected_ppg avg t actual_weight;
     bs_suspicion_reason := "LOW_PRICE_PER_WEIGHT" |}.

Definition detect_barcode_swapping (df : DataFrame) : list (barcode_event Z) :=
  let avg := avg_price_per_gram df in
  flat_map (fun t => if barcode_flag avg t then [barcode_event_of avg t]
                     else []) df.

(** *** [CustomerBehaviorAnalyzer]: the rapid-transaction check *)

Record rapid_customer := {
  rc_customer_id : string;
  rc_total_items : nat;
  rc_avg_seconds_between_items : Q;
  rc_total_value : Q;
  rc_session_start : Z;
  rc_session_end : Z
}.

(** [Timedelta.total_seconds] of a difference in nanoseconds *)
Definition total_seconds (ns : Z) : Q := ns # 1000000000.

(** [time_diffs]: differences of consecutive timestamps, in seconds *)
Fixpoint time_diffs (timestamps : list Z) : list Q :=
  match timestamps with
  | t0 :: ((t1 :: _) as rest) => total_seconds (t1 - t0) :: time_diffs rest
  | _ => []
  end.

(** [groupby('customer_id')]: group labels in sorted order, each group in
    frame order *)
Definition customer_ids (df : DataFrame) : list string :=
  sort_by String.leb id (remove_dups (tx_customer_id <$> df)).

Definition customer_group (df : DataFrame) (customer_id : string)
    : DataFrame :=
  filter (fun t => tx_customer_id t = customer_id) df.

(** The rapid-transaction part of the loop body, on the group sorted by
    timestamp *)
Definition rapid_check (customer_id : string)
    (customer_transactions : DataFrame) : list rapid_customer :=
  if (1 <? length customer_transactions)%nat then
    let timestamps := tx_timestamp <$> customer_transactions in
    let diffs := time_diffs timestamps in
    let avg_time_between :=
      match diffs with [] => 0 | _ => Num.mean diffs end in
    if Num.ltb avg_time_between 10
       && (5 <? length customer_transactions)%nat
    then [ {| rc_customer_id := customer_id;
              rc_total_items := length customer_transactions;
              rc_avg_seconds_between_items := avg_time_between;
              rc_total_value := Num.sum (tx_price <$> customer_transactions);
              rc_session_start := foldr Z.min (hd 0%Z timestamps) timestamps;
              rc_session_end := foldr Z.max (hd 0%Z timestamps) timestamps |} ]
    else []
  else [].

(** [analyze_customer_patterns(df)['rapid_transaction_customers']] *)
Definition rapid_transaction_customers (df : DataFrame)
    : list rapid_customer :=
  flat_map (fun customer_id =>
    rapid_check customer_id
      (sort_by Z.leb tx_timestamp (customer_group df customer_id)))
    (customer_ids df).

End Pos.

(** ** Master analysis  [master_analysis.py] *)

(** A [for] loop that appends to a result list and whose body may raise *)
Fixpoint for_each {A B : Type} (body : A -> option (list B)) (l : list A)
    : option (list B) :=
  match l with
  | [] => Some []
  | x :: l' => ys ← body x; zs ← for_each body l'; Some (ys ++ zs)
  end.

(** The dicts [correlate_events] appends *)
Record correlated_event := {
  ce_event_type : string;
  ce_timestamp : string;
  ce_station_id : option string;
  ce_confidence : string;
  ce_description : string;
  ce_evidence : pydict;
  ce_fraud_indicators : list string
}.

(** The dicts [generate_events_jsonl] appends *)
Record FinalEvent := {
  fe_timestamp : string;
  fe_event_type : string;
  fe_location : option string;
  fe_severity : string;
  fe_confidence : Q;
  fe_description : string;
  fe_metadata : pydict
}.

Module Master.

(** The candidate and correlated dicts as Python values, keys in the
    order of the literals that build them *)
Definition weight_discrepancy_to_py (e : weight_discrepancy string) : pyval :=
  PDict [ ("timestamp", PStr (wd_timestamp e));
          ("customer_id", PStr (wd_customer_id e));
          ("station_id", Py.of_station (wd_station_id e));
          ("sku", PStr (wd_sku e));
          ("product_name", PStr (wd_product_name e));
          ("expected_weight", PNum (wd_expected_weight e));
          ("actual_weight", PNum (wd_actual_weight e));
          ("weight_difference_pct", PNum (wd_weight_difference_pct e));
          ("price", PNum (wd_price e));
          ("severity", PStr (wd_severity e)) ].

Definition low_confidence_to_py (e : low_confidence_event) : pyval :=
  PDict [ ("timestamp", PStr (lc_timestamp e));
          ("station_id", Py.of_station (lc_station_id e));
          ("predicted_product", PStr (lc_predicted_product e));
          ("confidence", PNum (lc_confidence e));
          ("severity", PStr (lc_severity e)) ].

Definition correlated_to_dict (e : correlated_event) : pydict :=
  [ ("event_type", PStr (ce_event_type e));
    ("timestamp", PStr (ce_timestamp e));
    ("station_id", Py.of_station (ce_station_id e));
    ("confidence", PStr (ce_confidence e));
    ("description", PStr (ce_description e));
    ("evidence", PDict (ce_evidence e));
    ("fraud_indicators", PList (PStr <$> ce_fraud_indicators e)) ].

(** [all_reports.get(stream, {}).get(key, [])] *)
Definition inventory_events (r : all_reports) : list shrinkage_event :=
  default [] (inventory r ≫= shrinkage_events).
Definition pos_events (r : all_reports) : list (weight_discrepancy string) :=
  default [] (pos r ≫= weight_discrepancies).
Definition barcode_events (r : all_reports) : list (barcode_event string) :=
  default [] (pos r ≫= suspected_barcode_swapping).
Definition recognition_events (r : all_reports) : list low_confidence_event :=
  default [] (recognition r ≫= low_confidence_events).
Definition queue_events (r : all_reports) : list dwell_anomaly :=
  default [] (queue r ≫= dwell_time_anomalies).

(** [timedelta.total_seconds] of a difference in microseconds *)
Definition total_seconds (us : Z) : Q := us # 1000000.

(** The instant of a timestamp that the parser accepts *)
Definition instant (fromisoformat : string -> option Z) (s : string) : Z :=
  default 0%Z (fromisoformat s).

(** The constructor default of [CrossCorrelationAnalyzer] *)
Definition default_time_window : Q := 300.

Definition same_station (a b : option string) : bool := bool_decide (a = b).

Definition within (time_window : Q) (t1 t2 : Z) : bool :=
  Num.leb (Qabs (total_seconds (t1 - t2))) time_window.

Definition fraud_attempt (pos_event : weight_discrepancy string)
    (recog_event : low_confidence_event) : correlated_event :=
  {| ce_event_type := "CORRELATED_FRAUD_ATTEMPT";
     ce_timestamp := wd_timestamp pos_event;
     ce_station_id := wd_station_id pos_event;
     ce_confidence := "HIGH";
     ce_description :=
       "Weight discrepancy combined with low recognition confidence";
     ce_evidence :=
       [ ("pos_issue",
          PDict [ ("product", PStr (wd_product_name pos_event));
                  ("weight_discrepancy_pct",
                   PNum (wd_weight_difference_pct pos_event));
                  ("customer_id", PStr (wd_customer_id pos_event)) ]);
         ("recognition_issue",
          PDict [ ("predicted_product",
                   PStr (lc_predicted_product recog_event));
                  ("confidence", PNum (lc_confidence recog_event)) ]) ];
     ce_fraud_indicators :=
       ["weight_manipulation"; "barcode_switching"; "product_substitution"]
  |}.

Definition customer_difficulty (queue_event : dwell_anomaly)
    (related_issues : list pyval) : correlated_event :=
  {| ce_event_type := "CUSTOMER_DIFFICULTY_WITH_FRAUD";
     ce_timestamp := da_timestamp queue_event;
     ce_station_id := da_station_id queue_event;
     ce_confidence := "MEDIUM";
     ce_description :=
       "Extended dwell time ("
       +:+ Str.format_fixed 1 (da_dwell_time queue_event)
       +:+ "s) with technical issues";
     ce_evidence :=
       [ ("dwell_time", PNum (da_dwell_time queue_event));
         ("customer_count",
          PNum (inject_Z (da_customer_count queue_event)));
         ("related_issues", PList related_issues) ];
     ce_fraud_indicators :=
       ["checkout_difficulty"; "potential_fraud_complexity"]
  |}.

Section WithParser.

(** [datetime.fromisoformat]: the instant in microseconds, [None] when it
    raises *)
Variable fromisoformat : string -> option Z.

(** *** [CrossCorrelationAnalyzer.correlate_events] *)

(** Body of the inner loop of the first pass *)
Definition correlate_pos_recog (time_window : Q)
    (pos_event : weight_discrepancy string) (pos_time : Z)
    (recog_event : low_confidence_event) : option (list correlated_event) :=
  recog_time ← fromisoformat (lc_timestamp recog_event);
  Some (if same_station (wd_station_id pos_event) (lc_station_id recog_event)
           && within time_window pos_time recog_time
        then [fraud_attempt pos_event recog_event] else []).

(** Body of the outer loop of the first pass *)
Definition correlate_pos (time_window : Q)
    (recognition_events : list low_confidence_event)
    (pos_event : weight_discrepancy string) : option (list correlated_event) :=
  pos_time ← fromisoformat (wd_timestamp pos_event);
  for_each (correlate_pos_recog time_window pos_event pos_time)
           recognition_events.

Definition related_pos (time_window : Q) (queue_station : option string)
    (queue_time : Z) (pos_event : weight_discrepancy string)
    : option (list pyval) :=
  pos_time ← fromisoformat (wd_timestamp pos_event);
  Some (if same_station (wd_station_id pos_event) queue_station
           && within time_window queue_time pos_time
        then [PTuple [PStr "pos_discrepancy";
                      weight_discrepancy_to_py pos_event]]
        else []).

Definition related_recog (time_window : Q) (queue_station : option string)
    (queue_time : Z) (recog_event : low_confidence_event)
    : option (list pyval) :=
  recog_time ← fromisoformat (lc_timestamp recog_event);
  Some (if same_station (lc_station_id recog_event) queue_station
           && within time_window queue_time recog_time
        then [PTuple [PStr "recognition_issue";
                      low_confidence_to_py recog_event]]
        else []).

(** Body of the loop of the second pass *)
Definition correlate_queue (time_window : Q)
    (pos_events : list (weight_discrepancy string))
    (recognition_events : list low_confidence_event)
    (queue_event : dwell_anomaly) : option (list correlated_event) :=
  if String.eqb (da_anomaly_type queue_event) "HIGH_DWELL_TIME" then
    queue_time ← fromisoformat (da_timestamp queue_event);
    rel_pos ← for_each
      (related_pos time_window (da_station_id queue_event) queue_time)
      pos_events;
    rel_recog ← for_each
      (related_recog time_window (da_station_id queue_event) queue_time)
      recognition_events;
    Some (match rel_pos ++ rel_recog with
          | [] => []
          | related_issues => [customer_difficulty queue_event related_issues]
          end)
  else Some [].

Definition correlate_events (time_window : Q) (r : all_reports)
    : option (list correlated_event) :=
  fraud ← for_each (correlate_pos time_window (recognition_events r))
                   (pos_events r);
  difficulty ← for_each
    (correlate_queue time_window (pos_events r) (recognition_events r))
    (queue_events r);
  Some (fraud ++ difficulty).

End WithParser.

(** *** [FraudSeverityScorer] *)

Definition weight_discrepancy_weight : Q := 3 # 10.
Definition recognition_confidence_weight : Q := 25 # 100.
Definition dwell_time_weight : Q := 2 # 10.
Definition inventory_shrinkage_weight : Q := 15 # 100.
Definition cross_correlation_weight : Q := 1 # 10.

(** [event.get('event_type') in [...]] *)
Definition is_correlated_type (event : pydict) : bool :=
  match Py.dict_get "event_type" event with
  | Some v => Py.is_str "CORRELATED_FRAUD_ATTEMPT" v
              || Py.is_str "CUSTOMER_DIFFICULTY_WITH_FRAUD" v
  | None => false
  end.

(** [event['evidence'][key]] used as a float *)
Definition evidence_num (event : pydict) (key : string) : option Q :=
  evidence ← Py.dict_get "evidence" event;
  v ← Py.getitem evidence key;
  Py.as_num v.

Definition calculate_severity_score (event : pydict) : option Q :=
  let score := 0 in
  has_weight ← Py.contains "weight_difference_pct"
                           (Py.get event "evidence" (PDict []));
  score ← (if has_weight : bool then
             weight_pct ← evidence_num event "weight_difference_pct";
             let weight_score := Num.min (weight_pct / 100) 1 in
             Some (score + weight_score * weight_discrepancy_weight)
           else Some score);
  has_confidence ← Py.contains "confidence"
                               (Py.get event "evidence" (PDict []));
  score ← (if has_confidence : bool then
             confidence ← evidence_num event "confidence";
             let confidence_score := 1 - confidence in
             Some (score + confidence_score * recognition_confidence_weight)
           else Some score);
  let score := if is_correlated_type event
               then score + cross_correlation_weight else score in
  Some (Num.min score 1).

(** *** [generate_events_jsonl] *)

Definition inventory_final (shrinkage : shrinkage_event) : FinalEvent :=
  {| fe_timestamp := se_timestamp shrinkage;
     fe_event_type := "INVENTORY_SHRINKAGE";
     fe_location := Some "STORE_FLOOR";
     fe_severity := Str.lower (se_severity shrinkage);
     fe_confidence := 8 # 10;
     fe_description :=
       "Inventory decrease of "
       +:+ Str.format_fixed 1 (se_decrease_percentage shrinkage)
       +:+ "% for " +:+ se_product shrinkage;
     fe_metadata :=
       [ ("product_sku", PStr (se_product shrinkage));
         ("quantity_change",
          PNum (inject_Z (se_current_qty shrinkage
                          - se_previous_qty shrinkage)));
         ("percentage_decrease", PNum (se_decrease_percentage shrinkage)) ]
  |}.

Definition weight_final (weight_disc : weight_discrepancy string)
    : FinalEvent :=
  {| fe_timestamp := wd_timestamp weight_disc;
     fe_event_type := "WEIGHT_DISCREPANCY";
     fe_location := wd_station_id weight_disc;
     fe_severity := Str.lower (wd_severity weight_disc);
     fe_confidence := 85 # 100;
     fe_description :=
       "Weight discrepancy of "
       +:+ Str.format_fixed 1 (wd_weight_difference_pct weight_disc)
       +:+ "% for " +:+ wd_product_name weight_disc;
     fe_metadata :=
       [ ("customer_id", PStr (wd_customer_id weight_disc));
         ("product_sku", PStr (wd_sku weight_disc));
         ("expected_weight", PNum (wd_expected_weight weight_disc));
         ("actual_weight", PNum (wd_actual_weight weight_disc));
         ("price", PNum (wd_price weight_disc)) ]
  |}.

Definition barcode_final (barcode_event : barcode_event string)
    : FinalEvent :=
  {| fe_timestamp := bs_timestamp barcode_event;
     fe_event_type := "BARCODE_SWITCHING";
     fe_location := bs_station_id barcode_event;
     fe_severity := "high";
     fe_confidence := 75 # 100;
     fe_description :=
       "Suspected barcode switching - unusually low price per weight";
     fe_metadata :=
       [ ("customer_id", PStr (bs_customer_id barcode_event));
         ("product_sku", PStr (bs_sku barcode_event));
         ("price_ratio", PNum (bs_price_ratio barcode_event)) ]
  |}.

Definition recognition_final (low_conf : low_confidence_event)
    : list FinalEvent :=
  if String.eqb (lc_severity low_conf) "HIGH" then
    [ {| fe_timestamp := lc_timestamp low_conf;
         fe_event_type := "SCANNER_AVOIDANCE";
         fe_location := lc_station_id low_conf;
         fe_severity := "medium";
         fe_confidence := 6 # 10;
         fe_description :=
           "Very low product recognition confidence ("
           +:+ Str.format_fixed 2 (lc_confidence low_conf) +:+ ")";
         fe_metadata :=
           [ ("predicted_product", PStr (lc_predicted_product low_conf));
             ("recognition_confidence", PNum (lc_confidence low_conf)) ]
      |} ]
  else [].

Definition queue_final (dwell_anomaly : dwell_anomaly) : list FinalEvent :=
  if String.eqb (da_severity dwell_anomaly) "HIGH" then
    [ {| fe_timestamp := da_timestamp dwell_anomaly;
         fe_event_type := "CHECKOUT_DIFFICULTY";
         fe_location := da_station_id dwell_anomaly;
         fe_severity := "medium";
         fe_confidence := 5 # 10;
         fe_description :=
           "Unusually "
           +:+ Str.replace "_" " " (Str.lower (da_anomaly_type dwell_anomaly))
           +:+ ": " +:+ Str.format_fixed 1 (da_dwell_time dwell_anomaly)
           +:+ "s";
         fe_metadata :=
           [ ("dwell_time", PNum (da_dwell_time dwell_anomaly));
             ("customer_count",
              PNum (inject_Z (da_customer_count dwell_anomaly)));
             ("anomaly_type", PStr (da_anomaly_type dwell_anomaly)) ]
      |} ]
  else [].

(** The severity bucket of a correlated event *)
Definition final_severity (severity_score : Q) : string :=
  if Num.ltb (7 # 10) severity_score then "high" else "medium".

Definition correlated_final (corr_event : correlated_event)
    : option (list FinalEvent) :=
  severity_score ← calculate_severity_score (correlated_to_dict corr_event);
  Some [ {| fe_timestamp := ce_timestamp corr_event;
            fe_event_type := ce_event_type corr_event;
            fe_location := ce_station_id corr_event;
            fe_severity := final_severity severity_score;
            fe_confidence :=
              if String.eqb (ce_confidence corr_event) "HIGH"
              then 9 # 10 else 7 # 10;
            fe_description := ce_description corr_event;
            fe_metadata := ce_evidence corr_event |} ].

(** The events of the five per-stream blocks, in append order *)
Definition stream_events (r : all_reports) : list FinalEvent :=
  (inventory_final <$> inventory_events r)
  ++ (weight_final <$> pos_events r)
  ++ (barcode_final <$> barcode_events r)
  ++ flat_map recognition_final (recognition_events r)
  ++ flat_map queue_final (queue_events r).

Definition generate_events_jsonl (fromisoformat : string -> option Z)
    (time_window : Q) (r : all_reports) : option (list FinalEvent) :=
  let events := stream_events r in
  correlated_events ← correlate_events fromisoformat time_window r;
  correlated ← for_each correlated_final correlated_events;
  Some (sort_by String.leb fe_timestamp (events ++ correlated)).

End Master.

(** ** Partial input: which stream reports are present *)

Inductive stream : Type :=
  | SInventory | SPos | SRecognition | SQueue | SRfid.

(** The reports of the streams in [keep]; the others have no key. *)
Definition restrict (keep : stream -> bool) (r : all_reports) : all_reports :=
  {| inventory := if keep SInventory then inventory r else None;
     pos := if keep SPos then pos r else None;
     recognition := if keep SRecognition then recognition r else None;
     queue := if keep SQueue then queue r else None;
     rfid := if keep SRfid then rfid r else None |}.

(** The same run with every stream outside [keep] present and its
    candidate lists empty. *)
Definition blank (keep : stream -> bool) (r : all_reports) : all_reports :=
  {| inventory :=
       if keep SInventory then inventory r
       else Some {| shrinkage_events := Some [] |};
     pos :=
       if keep SPos then pos r
       else Some {| weight_discrepancies := Some [];
                    suspected_barcode_swapping := Some [] |};
     recognition :=
       if keep SRecognition then recognition r
       else Some {| low_confidence_events := Some [] |};
     queue :=
       if keep SQueue then queue r
       else Some {| dwell_time_anomalies := Some [] |};
     rfid :=
       if keep SRfid then rfid r
       else Some {| rfid_detection_rate := 0; security_incidents := 0 |} |}.

(** Every candidate timestamp the correlation engine may parse is
    accepted by the parser. *)
Definition timestamps_parse (fromisoformat : string -> option Z)
    (r : all_reports) : Prop :=
  Forall (fun e => is_Some (fromisoformat (wd_timestamp e)))
         (Master.pos_events r)
  /\ Forall (fun e => is_Some (fromisoformat (lc_timestamp e)))
            (Master.recognition_events r)
  /\ Forall (fun e => is_Some (fromisoformat (da_timestamp e)))
            (Master.queue_events r).

(** ** The specification's wording, for comparison with the code *)

Module Spec.

(** The median of a list: the middle of the sorted values, the mean of the
    two middle ones for an even count. *)
Definition median (l : list Q) : Q :=
  let s := sort_by Num.leb id l in
  let n := length s in
  if Nat.even n
  then (nth (n / 2 - 1) s 0 + nth (n / 2) s 0) / 2
  else nth (n / 2) s 0.

(** The inter-item times of a customer: differences of the consecutive
    timestamps of the customer's transactions in timestamp order. *)
Definition inter_item_times (df : Pos.DataFrame) (customer_id : string)
    : list Q :=
  Pos.time_diffs
    (Pos.tx_timestamp
       <$> sort_by Z.leb Pos.tx_timestamp (Pos.customer_group df customer_id)).



(** Price per gram of the transactions of one SKU, for a choice [weight]
    of the weight column used on both sides of the comparison. *)
Definition sku_ppg (weight : Pos.transaction -> option Q)
    (df : Pos.DataFrame) (sku : string) : list Q :=
  omap (fun t =>
    if decide (Pos.tx_sku t = sku) then
      w ← weight t;
      if Num.ltb 0 w then Some (Pos.tx_price t / w) else None
    else None) df.


(** The correlation rule as the specification words it: every pair of a
    POS weight discrepancy and a low-confidence recognition at the same
    station and at most [time_window] seconds apart yields its own event. *)
Definition pair_events (fromisoformat : string -> option Z) (time_window : Q)
    (p : weight_discrepancy string) (c : low_confidence_event)
    : list correlated_event :=
  if Master.same_station (wd_station_id p) (lc_station_id c)
     && Master.within time_window
          (Master.instant fromisoformat (wd_timestamp p))
          (Master.instant fromisoformat (lc_timestamp c))
  then [Master.fraud_attempt p c] else [].

Definition matching_pairs (fromisoformat : string -> option Z)
    (time_window : Q) (r : all_reports) : list correlated_event :=
  flat_map (fun p =>
    flat_map (pair_events fromisoformat time_window p)
             (Master.recognition_events r))
    (Master.pos_events r).

(** The contribution of one evidence feature to the score; a missing
    feature contributes zero. *)
Definition weight_contribution (evidence : pydict) : Q :=
  match Py.dict_get "weight_difference_pct" evidence with
  | Some (PNum weight_pct) => Num.min (weight_pct / 100) 1 * (3 # 10)
  | _ => 0
  end.

Definition confidence_contribution (evidence : pydict) : Q :=
  match Py.dict_get "confidence" evidence with
  | Some (PNum accuracy) => (1 - accuracy) * (25 # 100)
  | _ => 0
  end.

Definition correlation_bonus (event : pydict) : Q :=
  if Master.is_correlated_type event then 1 # 10 else 0.

(** The features of an evidence mapping are in range: the weight
    discrepancy percentage, when present, is a number [>= 0] and the
    recognition confidence, when present, a number in [[0,1]]. *)
Definition features_in_range (evidence : pydict) : Prop :=
  (forall v, Py.dict_get "weight_difference_pct" evidence = Some v ->
             exists q, v = PNum q /\ 0 <= q)
  /\ (forall v, Py.dict_get "confidence" evidence = Some v ->
                exists q, v = PNum q /\ 0 <= q /\ q <= 1).

(** The evidence mapping of an event: empty when the key is missing,
    none when the value is not a mapping. *)
Definition evidence_of (event : pydict) : option pydict :=
  match Py.dict_get "evidence" event with
  | None => Some []
  | Some (PDict evidence) => Some evidence
  | Some _ => None
  end.

End Spec.

(** ** Concrete inputs *)

Module Scenario.

Definition tx (customer_id sku : string) (timestamp : Z)
    (price expected actual : Q) : Pos.transaction :=
  {| Pos.tx_timestamp := timestamp;
     Pos.tx_station_id := Some "SCC1";
     Pos.tx_status := "Active";
     Pos.tx_customer_id := customer_id;
     Pos.tx_sku := sku;
     Pos.tx_product_name := "Coca-Cola (1.5L)";
     Pos.tx_barcode := "4792024011348";
     Pos.tx_price := price;
     Pos.tx_expected_weight := Some expected;
     Pos.tx_actual_weight := Some actual |}.

Definition second : Z := 1000000000.

(** Six items of one customer: four gaps of one second and one of 100 *)
Definition slow_last_item : Pos.DataFrame :=
  (fun s => tx "C001" "PRD_F_01" (s * second) 100 400 400)
    <$> [0; 1; 2; 3; 4; 104]%Z.


(** One transaction of a SKU: priced 10 for 100 g, 300 g on the scale *)
Definition heavy_item : Pos.DataFrame :=
  [tx "C001" "PRD_F_01" 0 10 100 300].

Definition pos_1700 : weight_discrepancy string :=
  {| wd_timestamp := "2025-08-13T17:00:00";
     wd_customer_id := "C001";
     wd_station_id := Some "SCC1";
     wd_sku := "PRD_B_01";
     wd_product_name := "Coca-Cola (1.5L)";
     wd_expected_weight := 1500;
     wd_actual_weight := 2000;
     wd_weight_difference_pct := 100 # 3;
     wd_price := 250;
     wd_severity := "MEDIUM" |}.

Definition recog_at (timestamp : string) : low_confidence_event :=
  {| lc_timestamp := timestamp;
     lc_station_id := Some "SCC1";
     lc_predicted_product := "PRD_B_02";
     lc_confidence := 45 # 100;
     lc_severity := "HIGH" |}.

Definition dwell_1702 : dwell_anomaly :=
  {| da_timestamp := "2025-08-13T17:02:00";
     da_station_id := Some "SCC1";
     da_customer_count := 3;
     da_dwell_time := 650;
     da_anomaly_type := "HIGH_DWELL_TIME";
     da_severity := "HIGH";
     da_potential_causes :=
       ["checkout_difficulty"; "scanner_issues"; "suspicious_activity"] |}.

(** A weight discrepancy at 17:00:00 and low-confidence recognitions 300
    and 301 seconds later, at the same station *)
Definition reports_boundary : all_reports :=
  {| inventory := None;
     pos := Some {| weight_discrepancies := Some [pos_1700];
                    suspected_barcode_swapping := None |};
     recognition :=
       Some {| low_confidence_events :=
                 Some [recog_at "2025-08-13T17:05:00";
                       recog_at "2025-08-13T17:05:01"] |};
     queue := None;
     rfid := None |}.

(** An inventory report that carries the shrinkage events of a frame *)
Definition inventory_of (df : Inventory.DataFrame) : inventory_report :=
  {| shrinkage_events :=
       Some (Inventory.detect_shrinkage_events Inventory.report_threshold df)
  |}.

(** Only the inventory stream, with two snapshots of PRD_T_04: 35, 32 *)
Definition reports_inventory_only : all_reports :=
  {| inventory := Some (inventory_of (Inventory.two_snapshots "PRD_T_04" 35 32));
     pos := None; recognition := None; queue := None; rfid := None |}.

(** All four streams the assembler reads *)
Definition reports_full : all_reports :=
  {| inventory := Some (inventory_of (Inventory.two_snapshots "PRD_T_04" 35 32));
     pos := Some {| weight_discrepancies := Some [pos_1700];
                    suspected_barcode_swapping := Some [] |};
     recognition :=
       Some {| low_confidence_events :=
                 Some [recog_at "2025-08-13T17:05:00";
                       recog_at "2025-08-13T16:58:20"] |};
     queue := Some {| dwell_time_anomalies := Some [dwell_1702] |};
     rfid := None |}.

(** An event dict with both evidence features at the top level *)
Definition scored_event : pydict :=
  [ ("event_type", PStr "CORRELATED_FRAUD_ATTEMPT");
    ("evidence", PDict [ ("weight_difference_pct", PNum 40);
                         ("confidence", PNum (3 # 10)) ]) ].

End Scenario.

(** ** The frame after [analyze_inventory_trends]
    [Team01_sentinel/src/analysis_inventory_snapshots.py] *)

Module Trends.





End Trends.

(** ** More of [analysis_pos_transactions.py] *)

Module Behavior.
Import Pos.

(** *** [load_pos_transactions]: one parsed line to one row *)

(** The fields of a line that the loader reads; [weight_g] may be [null],
    the key ['actual_weight_g'] may be absent. *)
Record pos_record := {
  pr_timestamp : string;
  pr_station_id : option string;
  pr_status : string;
  pr_customer_id : string;
  pr_sku : string;
  pr_product_name : string;
  pr_barcode : string;
  pr_price : Q;
  pr_weight_g : option Q;
  pr_actual_weight_g : option (option Q)
}.

(** The [transaction] dict of the loop body, with its timestamp as
    [pd.to_datetime] converts it ([instant]). *)
Definition flatten_record (record : pos_record) (instant : Z) : transaction :=
  {| tx_timestamp := instant;
     tx_station_id := pr_station_id record;
     tx_status := pr_status record;
     tx_customer_id := pr_customer_id record;
     tx_sku := pr_sku record;
     tx_product_name := pr_product_name record;
     tx_barcode := pr_barcode record;
     tx_price := pr_price record;
     tx_expected_weight := pr_weight_g record;
     tx_actual_weight :=
       match pr_actual_weight_g record with
       | Some actual => actual
       | None => pr_weight_g record
       end |}.

(** *** [CustomerBehaviorAnalyzer]: the other two checks *)

Record frequent_customer := {
  fc_customer_id : string;
  fc_total_transactions : nat;
  fc_discrepancy_count : nat;
  fc_discrepancy_rate : Q;
  fc_total_value : Q
}.

Record high_value_transaction := {
  hv_customer_id : string;
  hv_timestamp : Z;
  hv_sku : string;
  hv_product_name : string;
  hv_price : Q;
  hv_weight_discrepancy_pct : Q;
  hv_station_id : option string
}.

(** The nested test on a row: both weights present, expected weight
    positive, and the weight difference above [threshold] percent *)
Definition weight_diff_above (threshold : Q) (t : transaction) : bool :=
  match tx_actual_weight t, tx_expected_weight t with
  | Some actual, Some expected =>
    Num.ltb 0 expected && Num.ltb threshold (weight_diff_pct actual expected)
  | _, _ => false
  end.

Definition rate (count total : nat) : Q :=
  inject_Z (Z.of_nat count) / inject_Z (Z.of_nat total).

(** The frequent-discrepancy part of the loop body *)
Definition frequent_check (customer_id : string)
    (customer_transactions : DataFrame) : list frequent_customer :=
  let discrepancy_count :=
    length (filter (fun t => weight_diff_above 15 t = true)
                   customer_transactions) in
  let total_transactions := length customer_transactions in
  if (3 <? total_transactions)%nat
     && Num.ltb (1 # 2) (rate discrepancy_count total_transactions)
  then [ {| fc_customer_id := customer_id;
            fc_total_transactions := total_transactions;
            fc_discrepancy_count := discrepancy_count;
            fc_discrepancy_rate := rate discrepancy_count total_transactions;
            fc_total_value := Num.sum (tx_price <$> customer_transactions) |} ]
  else [].

(** The high-value part of the loop body *)
Definition high_value_at (customer_id : string) (t : transaction)
    : list high_value_transaction :=
  if Num.ltb 500 (tx_price t) then
    match tx_actual_weight t, tx_expected_weight t with
    | Some actual, Some expected =>
      if Num.ltb 0 expected then
        if Num.ltb 25 (weight_diff_pct actual expected) then
          [ {| hv_customer_id := customer_id;
               hv_timestamp := tx_timestamp t;
               hv_sku := tx_sku t;
               hv_product_name := tx_product_name t;
               hv_price := tx_price t;
               hv_weight_discrepancy_pct := weight_diff_pct actual expected;
               hv_station_id := tx_station_id t |} ]
        else []
      else []
    | _, _ => []
    end
  else [].

(** A customer's group after [sort_values('timestamp')].  The model keeps
    rows of equal timestamp in frame order; pandas leaves their order
    open. *)
Definition sorted_group (df : DataFrame) (customer_id : string) : DataFrame :=
  sort_by Z.leb tx_timestamp (customer_group df customer_id).

Definition frequent_discrepancy_customers (df : DataFrame)
    : list frequent_customer :=
  flat_map (fun customer_id =>
    frequent_check customer_id (sorted_group df customer_id))
    (customer_ids df).

Definition high_value_suspicious_transactions (df : DataFrame)
    : list high_value_transaction :=
  flat_map (fun customer_id =>
    flat_map (high_value_at customer_id) (sorted_group df customer_id))
    (customer_ids df).

(** The [results] dict of [analyze_customer_patterns] *)
Record customer_patterns := {
  cp_frequent_discrepancy_customers : list frequent_customer;
  cp_high_value_suspicious_transactions : list high_value_transaction;
  cp_rapid_transaction_customers : list rapid_customer
}.

Definition analyze_customer_patterns (df : DataFrame) : customer_patterns :=
  {| cp_frequent_discrepancy_customers := frequent_discrepancy_customers df;
     cp_high_value_suspicious_transactions :=
       high_value_suspicious_transactions df;
     cp_rapid_transaction_customers := rapid_transaction_customers df |}.

End Behavior.

(** ** Low-confidence and scanner-avoidance detectors
    [Team01_sentinel/src/analysis_product_recognition.py] *)



Module Recognition.

(** A flattened record of [load_product_recognition_data] *)
Record recognition_event := {
  re_timestamp : string;
  re_station_id : option string;
  re_status : string;
  re_predicted_product : string;
  re_accuracy : Q
}.

(** *** [LowConfidenceDetector] *)

Definition default_confidence_threshold : Q := 7 # 10.

Definition low_confidence_at (threshold : Q) (record : recognition_event)
    : list low_confidence_event :=
  if Num.ltb (re_accuracy record) threshold then
    [ {| lc_timestamp := re_timestamp record;
         lc_station_id := re_station_id record;
         lc_predicted_product := re_predicted_product record;
         lc_confidence := re_accuracy record;
         lc_severity := if Num.ltb (re_accuracy record) (1 # 2)
                        then "HIGH" else "MEDIUM" |} ]
  else [].

Definition detect_low_confidence_predictions (threshold : Q)
    (recognition_data : list recognition_event) : list low_confidence_event :=
  flat_map (low_confidence_at threshold) recognition_data.

(** *** [ScannerAvoidanceDetector] *)









End Recognition.

(** ** Dwell-time anomaly detector  [analysis_queue_monitoring.py] *)

Module Queue.

(** A flattened record of [load_queue_monitoring_data] *)
Record queue_observation := {
  qo_timestamp : string;
  qo_station_id : option string;
  qo_status : string;
  qo_customer_count : Z;
  qo_average_dwell_time : Q
}.

Definition default_high_dwell_threshold : Q := 300.
Definition default_low_dwell_threshold : Q := 10.

Definition dwell_anomaly_at (high_threshold low_threshold : Q)
    (record : queue_observation) : list dwell_anomaly :=
  let dwell_time := qo_average_dwell_time record in
  let customer_count := qo_customer_count record in
  if (customer_count =? 0)%Z then []
  else if Num.ltb high_threshold dwell_time then
    [ {| da_timestamp := qo_timestamp record;
         da_station_id := qo_station_id record;
         da_customer_count := customer_count;
         da_dwell_time := dwell_time;
         da_anomaly_type := "HIGH_DWELL_TIME";
         da_severity := if Num.ltb 600 dwell_time then "HIGH" else "MEDIUM";
         da_potential_causes :=
           ["checkout_difficulty"; "scanner_issues"; "suspicious_activity"]
      |} ]
  else if Num.ltb dwell_time low_threshold && (0 <? customer_count)%Z then
    [ {| da_timestamp := qo_timestamp record;
         da_station_id := qo_station_id record;
         da_customer_count := customer_count;
         da_dwell_time := dwell_time;
         da_anomaly_type := "LOW_DWELL_TIME";
         da_severity := "MEDIUM";
         da_potential_causes :=
           ["scanner_avoidance"; "quick_pass_through"; "system_error"] |} ]
  else [].

Definition detect_dwell_anomalies (high_threshold low_threshold : Q)
    (queue_data : list queue_observation) : list dwell_anomaly :=
  flat_map (dwell_anomaly_at high_threshold low_threshold) queue_data.

End Queue.

(** ** RFID coverage analyzer  [analysis_rfid_readings.py] *)

Module Rfid.

(** A flattened record of [load_rfid_readings_data]; [null] is [None]. *)
Record rfid_reading := {
  rf_timestamp : string;
  rf_station_id : option string;
  rf_status : string;
  rf_epc : option string;
  rf_location : option string;
  rf_sku : option string
}.

Record coverage_statistics := {
  cs_total_rfid_readings : nat;
  cs_valid_tag_readings : nat;
  cs_null_readings : nat;
  cs_coverage_rate : Q;
  cs_missing_tag_rate : Q
}.

(** The counters of [station_data[station]] *)
Record station_counts := {
  sc_total : nat;
  sc_valid : nat;
  sc_null : nat
}.

Record station_coverage_entry := {
  sce_total_readings : nat;
  sce_valid_readings : nat;
  sce_null_readings : nat;
  sce_coverage_rate : Q
}.

(** A run of null readings; ['end_time'] is only set from the second
    reading of the run on. *)
Record null_streak := {
  ns_start_time : string;
  ns_station_id : option string;
  ns_count : nat;
  ns_end_time : option string
}.

Record coverage_analysis := {
  ca_coverage_statistics : coverage_statistics;
  ca_missing_tag_events : list null_streak;
  ca_station_coverage : gmap (option string) station_coverage_entry
}.

Definition is_null (r : rfid_reading) : bool :=
  match rf_epc r with None => true | Some _ => false end.

(** [a / b if b > 0 else 0] on counters *)
Definition ratio (a b : nat) : Q :=
  if (0 <? b)%nat then inject_Z (Z.of_nat a) / inject_Z (Z.of_nat b) else 0.

Definition statistics_of (rfid_data : list rfid_reading)
    : coverage_statistics :=
  let total_readings := length rfid_data in
  let null_readings := length (filter (fun r => is_null r = true) rfid_data) in
  let valid_readings := (total_readings - null_readings)%nat in
  {| cs_total_rfid_readings := total_readings;
     cs_valid_tag_readings := valid_readings;
     cs_null_readings := null_readings;
     cs_coverage_rate := ratio valid_readings total_readings;
     cs_missing_tag_rate := ratio null_readings total_readings |}.

(** One step of the loop that fills [station_data] *)
Definition count_step (m : gmap (option string) station_counts)
    (record : rfid_reading) : gmap (option string) station_counts :=
  let c := default {| sc_total := 0; sc_valid := 0; sc_null := 0 |}
                   (m !! rf_station_id record) in
  <[ rf_station_id record :=
       if is_null record
       then {| sc_total := S (sc_total c); sc_valid := sc_valid c;
               sc_null := S (sc_null c) |}
       else {| sc_total := S (sc_total c); sc_valid := S (sc_valid c);
               sc_null := sc_null c |} ]> m.

Definition station_data (rfid_data : list rfid_reading)
    : gmap (option string) station_counts :=
  foldl count_step ∅ rfid_data.

Definition entry_of (c : station_counts) : station_coverage_entry :=
  {| sce_total_readings := sc_total c;
     sce_valid_readings := sc_valid c;
     sce_null_readings := sc_null c;
     sce_coverage_rate := ratio (sc_valid c) (sc_total c) |}.

(** The state of the streak loop: the open streak and the events so far *)
Definition streak_state : Type := (option null_streak * list null_streak)%type.

(** An open streak is reported when it is closed with 10 or more readings *)
Definition close_streak (current : option null_streak)
    (events : list null_streak) : list null_streak :=
  match current with
  | Some s => if (10 <=? ns_count s)%nat then events ++ [s] else events
  | None => events
  end.

Definition streak_step (st : streak_state) (record : rfid_reading)
    : streak_state :=
  let '(current, events) := st in
  if is_null record then
    match current with
    | None =>
      (Some {| ns_start_time := rf_timestamp record;
               ns_station_id := rf_station_id record;
               ns_count := 1;
               ns_end_time := None |}, events)
    | Some s =>
      (Some {| ns_start_time := ns_start_time s;
               ns_station_id := ns_station_id s;
               ns_count := S (ns_count s);
               ns_end_time := Some (rf_timestamp record) |}, events)
    end
  else (None, close_streak current events).

Definition missing_tag_events (rfid_data : list rfid_reading)
    : list null_streak :=
  let '(current, events) :=
    foldl streak_step (None, [])
          (sort_by String.leb rf_timestamp rfid_data) in
  close_streak current events.

(** [RFIDCoverageAnalyzer.analyze_rfid_coverage]; its ['tag_performance']
    entry stays the empty dict. *)
Definition analyze_rfid_coverage (rfid_data : list rfid_reading)
    : coverage_analysis :=
  {| ca_coverage_statistics := statistics_of rfid_data;
     ca_missing_tag_events := missing_tag_events rfid_data;
     ca_station_coverage := entry_of <$> station_data rfid_data |}.

End Rfid.

(** ** The second pass of the correlation engine, as a comprehension *)

Module Related.

(** The candidates related to a queue anomaly: the weight discrepancies,
    then the low-confidence recognitions, of the same station and at most
    [time_window] seconds from it, each tagged with its kind *)
Definition related_issues (fromisoformat : string -> option Z)
    (time_window : Q) (r : all_reports) (q : dwell_anomaly) : list pyval :=
  flat_map (fun p =>
    if Master.same_station (wd_station_id p) (da_station_id q)
       && Master.within time_window
            (Master.instant fromisoformat (da_timestamp q))
            (Master.instant fromisoformat (wd_timestamp p))
    then [PTuple [PStr "pos_discrepancy"; Master.weight_discrepancy_to_py p]]
    else []) (Master.pos_events r)
  ++ flat_map (fun c =>
    if Master.same_station (lc_station_id c) (da_station_id q)
       && Master.within time_window
            (Master.instant fromisoformat (da_timestamp q))
            (Master.instant fromisoformat (lc_timestamp c))
    then [PTuple [PStr "recognition_issue"; Master.low_confidence_to_py c]]
    else []) (Master.recognition_events r).

Definition difficulty_of (fromisoformat : string -> option Z)
    (time_window : Q) (r : all_reports) (q : dwell_anomaly)
    : list correlated_event :=
  if String.eqb (da_anomaly_type q) "HIGH_DWELL_TIME" then
    match related_issues fromisoformat time_window r q with
    | [] => []
    | issues => [Master.customer_difficulty q issues]
    end
  else [].

Definition difficulty_events (fromisoformat : string -> option Z)
    (time_window : Q) (r : all_reports) : list correlated_event :=
  flat_map (difficulty_of fromisoformat time_window r) (Master.queue_events r).

End Related.

(** ** The stream reports as the report generators fill them *)

Module Pipeline.

(** [generate_recognition_analysis_report] builds its detector with
    [confidence_threshold=0.7], [generate_queue_analysis_report] with
    [high_dwell_threshold=300.0] and [low_dwell_threshold=10.0]; these are
    the keys of their reports that the master analysis reads. *)
Definition recognition_report_of
    (recognition_data : list Recognition.recognition_event)
    : recognition_report :=
  {| low_confidence_events :=
       Some (Recognition.detect_low_confidence_predictions (7 # 10)
               recognition_data) |}.

Definition queue_report_of (queue_data : list Queue.queue_observation)
    : queue_report :=
  {| dwell_time_anomalies :=
       Some (Queue.detect_dwell_anomalies 300 10 queue_data) |}.

(** The final event the assembler builds for a recognition record of very
    low confidence, and for a queue observation of very long dwell *)
Definition scanner_avoidance_of (record : Recognition.recognition_event)
    : FinalEvent :=
  {| fe_timestamp := Recognition.re_timestamp record;
     fe_event_type := "SCANNER_AVOIDANCE";
     fe_location := Recognition.re_station_id record;
     fe_severity := "medium";
     fe_confidence := 6 # 10;
     fe_description :=
       "Very low product recognition confidence ("
       +:+ Str.format_fixed 2 (Recognition.re_accuracy record) +:+ ")";
     fe_metadata :=
       [ ("predicted_product",
          PStr (Recognition.re_predicted_product record));
         ("recognition_confidence", PNum (Recognition.re_accuracy record)) ]
  |}.

Definition checkout_difficulty_of (record : Queue.queue_observation)
    : FinalEvent :=
  {| fe_timestamp := Queue.qo_timestamp record;
     fe_event_type := "CHECKOUT_DIFFICULTY";
     fe_location := Queue.qo_station_id record;
     fe_severity := "medium";
     fe_confidence := 5 # 10;
     fe_description :=
       "Unusually high dwell time: "
       +:+ Str.format_fixed 1 (Queue.qo_average_dwell_time record) +:+ "s";
     fe_metadata :=
       [ ("dwell_time", PNum (Queue.qo_average_dwell_time record));
         ("customer_count", PNum (inject_Z (Queue.qo_customer_count record)));
         ("anomaly_type", PStr "HIGH_DWELL_TIME") ] |}.

(** An event dict with both evidence features at the top level *)
Definition flat_event (event_type : string) (weight_pct confidence : Q)
    : pydict :=
  [ ("event_type", PStr event_type);
    ("evidence", PDict [ ("weight_difference_pct", PNum weight_pct);
                         ("confidence", PNum confidence) ]) ].

(** The ['confidence'] literal of each block of [generate_events_jsonl],
    by the event type the block writes *)
Definition confidence_table : list (string * Q) :=
  [ ("INVENTORY_SHRINKAGE", 8 # 10); ("WEIGHT_DISCREPANCY", 85 # 100);
    ("BARCODE_SWITCHING", 75 # 100); ("SCANNER_AVOIDANCE", 6 # 10);
    ("CHECKOUT_DIFFICULTY", 5 # 10); ("CORRELATED_FRAUD_ATTEMPT", 9 # 10);
    ("CUSTOMER_DIFFICULTY_WITH_FRAUD", 7 # 10) ].

End Pipeline.


(** ** More concrete inputs *)

Module Sample.

(** A parsed POS line whose data has no ['actual_weight_g'] key *)
Definition plain_record : Behavior.pos_record :=
  {| Behavior.pr_timestamp := "2025-08-13T16:00:00";
     Behavior.pr_station_id := Some "SCC1";
     Behavior.pr_status := "Active";
     Behavior.pr_customer_id := "C001";
     Behavior.pr_sku := "PRD_F_01";
     Behavior.pr_product_name := "Item";
     Behavior.pr_barcode := "0000";
     Behavior.pr_price := 280;
     Behavior.pr_weight_g := Some 540;
     Behavior.pr_actual_weight_g := None |}.

(** Four transactions of one customer, each priced 600 and weighing twice
    the expected 1000 g *)
Definition four_heavy : Pos.DataFrame :=
  [ Scenario.tx "C001" "PRD_B_01" 0 600 1000 2000;
    Scenario.tx "C001" "PRD_B_01" (60 * Scenario.second) 600 1000 2000;
    Scenario.tx "C001" "PRD_B_01" (120 * Scenario.second) 600 1000 2000;
    Scenario.tx "C001" "PRD_B_01" (180 * Scenario.second) 600 1000 2000 ].

Definition recog (timestamp : string) (accuracy : Q)
    : Recognition.recognition_event :=
  {| Recognition.re_timestamp := timestamp;
     Recognition.re_station_id := Some "SCC1";
     Recognition.re_status := "Active";
     Recognition.re_predicted_product := "PRD_F_01";
     Recognition.re_accuracy := accuracy |}.

(** Two doubtful recognitions, then nothing for 110 seconds *)
Definition recognition_data : list Recognition.recognition_event :=
  [ recog "2025-08-13T16:00:00" (45 # 100);
    recog "2025-08-13T16:00:10" (55 # 100);
    recog "2025-08-13T16:02:00" (9 # 10) ].

Definition obs (timestamp : string) (customer_count : Z) (dwell : Q)
    : Queue.queue_observation :=
  {| Queue.qo_timestamp := timestamp;
     Queue.qo_station_id := Some "SCC1";
     Queue.qo_status := "Active";
     Queue.qo_customer_count := customer_count;
     Queue.qo_average_dwell_time := dwell |}.

Definition queue_data : list Queue.queue_observation :=
  [ obs "2025-08-13T16:00:00" 3 700;
    obs "2025-08-13T16:00:05" 2 400;
    obs "2025-08-13T16:00:10" 1 5;
    obs "2025-08-13T16:00:15" 0 900 ].

Definition reading (timestamp : string) (station_id : string)
    (epc : option string) : Rfid.rfid_reading :=
  {| Rfid.rf_timestamp := timestamp;
     Rfid.rf_station_id := Some station_id;
     Rfid.rf_status := "Active";
     Rfid.rf_epc := epc;
     Rfid.rf_location := None;
     Rfid.rf_sku := None |}.

(** One tagged reading, then eleven readings without a tag, at two
    stations *)
Definition rfid_data : list Rfid.rfid_reading :=
  [ reading "2025-08-13T16:00:00" "SCC1" (Some "E280");
    reading "2025-08-13T16:00:01" "SCC1" None;
    reading "2025-08-13T16:00:02" "SCC2" None;
    reading "2025-08-13T16:00:03" "SCC1" None;
    reading "2025-08-13T16:00:04" "SCC2" None;
    reading "2025-08-13T16:00:05" "SCC1" None;
    reading "2025-08-13T16:00:06" "SCC2" None;
    reading "2025-08-13T16:00:07" "SCC1" None;
    reading "2025-08-13T16:00:08" "SCC2" None;
    reading "2025-08-13T16:00:09" "SCC1" None;
    reading "2025-08-13T16:00:10" "SCC2" None;
    reading "2025-08-13T16:00:11" "SCC1" None ].


End Sample.
(** * Part II: properties *)

(** ** Comparisons, minimum and rounding *)

Module NumFacts.

Lemma ltb_lt a b : Num.ltb a b = true <-> a < b.
Proof.
  unfold Num.ltb. rewrite negb_true_iff.
  destruct (Qle_bool b a) eqn:E.
  - apply Qle_bool_iff in E. split; [discriminate|].
    intros H. exfalso. eapply Qlt_not_le; eauto.
  - split; [|reflexivity]. intros _.
    apply Qnot_le_lt. intros H. apply Qle_bool_iff in H. congruence.
Qed.

Lemma ltb_ge a b : Num.ltb a b = false <-> b <= a.
Proof. unfold Num.ltb. rewrite negb_false_iff. apply Qle_bool_iff. Qed.

Lemma leb_le a b : Num.leb a b = true <-> a <= b.
Proof. apply Qle_bool_iff. Qed.

Lemma leb_gt a b : Num.leb a b = false <-> b < a.
Proof.
  unfold Num.leb. destruct (Qle_bool a b) eqn:E.
  - apply Qle_bool_iff in E. split; [discriminate|].
    intros H. exfalso. eapply Qlt_not_le; eauto.
  - split; [|reflexivity]. intros _.
    apply Qnot_le_lt. intros H. apply Qle_bool_iff in H. congruence.
Qed.

Lemma min_le_r a b : Num.min a b <= b.
Proof.
  unfold Num.min. destruct (Num.ltb b a) eqn:E.
  - apply Qle_refl.
  - by apply ltb_ge in E.
Qed.

Lemma min_le_l a b : Num.min a b <= a.
Proof.
  unfold Num.min. destruct (Num.ltb b a) eqn:E.
  - apply ltb_lt in E. by apply Qlt_le_weak.
  - apply Qle_refl.
Qed.

Lemma min_l a b : a <= b -> Num.min a b = a.
Proof.
  intros H. unfold Num.min. destruct (Num.ltb b a) eqn:E; [|done].
  apply ltb_lt in E. exfalso. eapply Qlt_not_le; eauto.
Qed.

Lemma min_glb a b c : c <= a -> c <= b -> c <= Num.min a b.
Proof. intros Ha Hb. unfold Num.min. by destruct (Num.ltb b a). Qed.



End NumFacts.

(** ** Strings and number formatting *)

Module StrFacts.

Lemma app_assoc (a b c : string) : (a +:+ b) +:+ c = a +:+ (b +:+ c).
Proof.
  induction a as [|x a IH]; [done|].
  change (String x ((a +:+ b) +:+ c) = String x (a +:+ (b +:+ c))).
  by rewrite IH.
Qed.

Lemma app_nil_r (a : string) : a +:+ "" = a.
Proof.
  induction a as [|x a IH]; [done|].
  change (String x (a +:+ "") = String x a). by rewrite IH.
Qed.

Lemma contains_app_l k s t : Str.contains k s -> Str.contains k (s +:+ t).
Proof.
  intros (pre & post & ->). exists pre, (post +:+ t).
  by rewrite !app_assoc.
Qed.

Lemma contains_app_r k s t : Str.contains k t -> Str.contains k (s +:+ t).
Proof.
  intros (pre & post & ->). exists (s +:+ pre), post.
  by rewrite !app_assoc.
Qed.

Lemma contains_prefix k t : Str.contains k (k +:+ t).
Proof. by exists "", t. Qed.


End StrFacts.

Example lower_HIGH : Str.lower "HIGH" = "high".
Proof. reflexivity. Qed.

Example replace_dwell :
  Str.replace "_" " " (Str.lower "HIGH_DWELL_TIME") = "high dwell time".
Proof. reflexivity. Qed.

Example format_1f_decrease : Str.format_fixed 1 (300 # 35) = "8.6".
Proof. vm_compute. reflexivity. Qed.

Example format_1f_tie : Str.format_fixed 1 (1 # 4) = "0.2".
Proof. vm_compute. reflexivity. Qed.

Example format_2f_conf : Str.format_fixed 2 (45 # 100) = "0.45".
Proof. vm_compute. reflexivity. Qed.

Example format_1f_neg : Str.format_fixed 1 (- (7 # 2)) = "-3.5".
Proof. vm_compute. reflexivity. Qed.

Example iso_micros_demo :
  Iso.iso_micros "2025-08-13T17:10:00" = Some 1755105000000000%Z
  /\ Iso.iso_micros "2025-02-29T00:00:00" = None.
Proof. split; vm_compute; reflexivity. Qed.

(** ** The stable sort returns a sorted permutation *)

Section SortFacts.
Context {A K : Type} (le : K -> K -> bool) (key : A -> K).
Hypothesis le_total : forall a b, le a b = true \/ le b a = true.

Lemma insert_by_HdRel a x l :
  key_le le key a x -> HdRel (key_le le key) a l ->
  HdRel (key_le le key) a (insert_by le key x l).
Proof.
  intros Hax Hal. destruct l as [|y l']; simpl.
  - by constructor.
  - destruct (le (key x) (key y)); constructor; [done|].
    by inversion Hal.
Qed.

Lemma insert_by_Sorted x l :
  Sorted (key_le le key) l -> Sorted (key_le le key) (insert_by le key x l).
Proof.
  induction 1 as [|y l' Hs IH Hhd]; simpl.
  - by repeat constructor.
  - destruct (le (key x) (key y)) eqn:E.
    + constructor; [by constructor|]. by constructor.
    + constructor; [done|]. apply insert_by_HdRel; [|done].
      unfold key_le. destruct (le_total (key x) (key y)); congruence.
Qed.

Lemma sort_by_Sorted l : Sorted (key_le le key) (sort_by le key l).
Proof.
  induction l as [|x l IH]; simpl; [constructor|].
  by apply insert_by_Sorted.
Qed.

End SortFacts.

Section SortPerm.
Context {A K : Type} (le : K -> K -> bool) (key : A -> K).

Lemma insert_by_Permutation x l : insert_by le key x l ≡ₚ x :: l.
Proof.
  induction l as [|y l' IH]; simpl; [done|].
  destruct (le (key x) (key y)); [done|].
  rewrite IH. apply Permutation_swap.
Qed.

Lemma sort_by_Permutation l : sort_by le key l ≡ₚ l.
Proof.
  induction l as [|x l IH]; simpl; [done|].
  by rewrite insert_by_Permutation, IH.
Qed.

Lemma sort_by_In x l : In x (sort_by le key l) <-> In x l.
Proof.
  rewrite <- !list_elem_of_In. by rewrite sort_by_Permutation.
Qed.

Lemma sort_by_length l : length (sort_by le key l) = length l.
Proof. by rewrite sort_by_Permutation. Qed.

End SortPerm.

(** The sort is stable: the elements of any one key keep their original
    order. *)
Section SortStable.
Context {A K : Type} `{EqDecision K} (le : K -> K -> bool) (key : A -> K).
Hypothesis le_refl : forall a, le a a = true.

Lemma insert_by_filter (k : K) x l :
  filter (fun y => key y = k) (insert_by le key x l)
  = filter (fun y => key y = k) (x :: l).
Proof.
  induction l as [|y l' IH]; simpl; [done|].
  destruct (le (key x) (key y)) eqn:E; [done|].
  rewrite (filter_cons _ y), IH, !filter_cons.
  destruct (decide (key x = k)) as [Hx|Hx],
           (decide (key y = k)) as [Hy|Hy]; try done.
  rewrite Hx, Hy, le_refl in E. discriminate.
Qed.

Lemma sort_by_stable (k : K) l :
  filter (fun y => key y = k) (sort_by le key l)
  = filter (fun y => key y = k) l.
Proof.
  induction l as [|x l IH]; simpl; [done|].
  by rewrite insert_by_filter, !filter_cons, IH.
Qed.

End SortStable.

(** In a sorted list every record is below its successor. *)
Lemma Sorted_adjacent {A : Type} (R : A -> A -> Prop) (l : list A) :
  Sorted R l ->
  forall (i : nat) (a b : A), l !! i = Some a -> l !! S i = Some b -> R a b.
Proof.
  induction 1 as [|x l Hs IH Hhd]; intros i a b Ha Hb; [done|].
  destruct i as [|i]; simpl in *.
  - simplify_eq. destruct l as [|y l']; simplify_eq/=. by inversion Hhd.
  - eauto.
Qed.

#[global] Instance ltb_proper : Proper (Qeq ==> Qeq ==> eq) Num.ltb.
Proof. intros a a' Ha b b' Hb. unfold Num.ltb. by rewrite Ha, Hb. Qed.

#[global] Instance leb_proper : Proper (Qeq ==> Qeq ==> eq) Num.leb.
Proof. intros a a' Ha b b' Hb. unfold Num.leb. by rewrite Ha, Hb. Qed.

(** ** Inventory shrinkage detector *)

Module InventoryFacts.
Import Inventory.

(** The inner loop body on a pair of adjacent snapshots that both hold the
    product, the earlier one with a positive quantity. *)
Lemma shrinkage_at_pair threshold df product i rp rc prev curr :
  rows df !! (i - 1)%nat = Some rp -> rows df !! i = Some rc ->
  snap_data rp !! product = Some prev -> (0 < prev)%Z ->
  snap_data rc !! product = Some curr ->
  shrinkage_at threshold df product i =
    if Num.ltb threshold (decrease_pct prev curr) then
      [ {| se_timestamp := snap_timestamp rc;
           se_product := product;
           se_previous_qty := prev;
           se_current_qty := curr;
           se_decrease_percentage := decrease_pct prev curr;
           se_severity := if Num.ltb 10 (decrease_pct prev curr)
                          then "HIGH" else "MEDIUM" |} ]
    else [].
Proof.
  intros Hp Hc Hprev Hpos Hcurr. unfold shrinkage_at.
  rewrite Hp, Hc, Hprev, Hcurr.
  by destruct (Z.ltb_spec 0 prev); [|lia].
Qed.

(** The comparison with the threshold is strict: the pair yields an event
    exactly when the decrease exceeds the threshold. *)
Lemma shrinkage_at_emits_iff threshold df product i rp rc prev curr :
  rows df !! (i - 1)%nat = Some rp -> rows df !! i = Some rc ->
  snap_data rp !! product = Some prev -> (0 < prev)%Z ->
  snap_data rc !! product = Some curr ->
  shrinkage_at threshold df product i <> []
  <-> threshold < decrease_pct prev curr.
Proof.
  intros Hp Hc Hprev Hpos Hcurr.
  rewrite (shrinkage_at_pair _ _ _ _ _ _ _ _ Hp Hc Hprev Hpos Hcurr).
  destruct (Num.ltb threshold (decrease_pct prev curr)) eqn:E.
  - apply NumFacts.ltb_lt in E. split; [done|]. by intros _.
  - apply NumFacts.ltb_ge in E. split; [done|].
    intros H. exfalso. eapply Qlt_not_le; eauto.
Qed.

(** A product missing from either snapshot, or with no positive earlier
    quantity, yields nothing. *)
Lemma shrinkage_at_skipped threshold df product i rp rc :
  rows df !! (i - 1)%nat = Some rp -> rows df !! i = Some rc ->
  snap_data rp !! product = None \/ snap_data rc !! product = None
  \/ (exists prev, snap_data rp !! product = Some prev /\ (prev <= 0)%Z) ->
  shrinkage_at threshold df product i = [].
Proof.
  intros Hp Hc H. unfold shrinkage_at. rewrite Hp, Hc.
  destruct H as [->|[H|(prev & -> & Hle)]]; [done| |].
  - rewrite H. destruct (snap_data rp !! product); [|done].
    by destruct (0 <? _)%Z.
  - by destruct (Z.ltb_spec 0 prev); [lia|].
Qed.

Lemma shrinkage_at_severity threshold df product i e :
  In e (shrinkage_at threshold df product i) ->
  threshold < se_decrease_percentage e
  /\ (se_severity e = "HIGH" <-> 10 < se_decrease_percentage e)
  /\ (se_severity e = "MEDIUM" <-> se_decrease_percentage e <= 10).
Proof.
  unfold shrinkage_at.
  destruct (rows df !! (i - 1)%nat) as [rp|]; [|done].
  destruct (rows df !! i) as [rc|]; [|done].
  destruct (snap_data rp !! product) as [prev|]; [|done].
  destruct (0 <? prev)%Z; [|done].
  destruct (snap_data rc !! product) as [curr|]; [|done].
  destruct (Num.ltb threshold _) eqn:Et; [|done].
  intros [<-|[]]; simpl. split; [by apply NumFacts.ltb_lt|].
  destruct (Num.ltb 10 _) eqn:E10.
  - apply NumFacts.ltb_lt in E10. split; split; try done.
    intros H. exfalso. eapply Qlt_not_le; eauto.
  - apply NumFacts.ltb_ge in E10. split; split; try done.
    intros H. exfalso. eapply Qlt_not_le; eauto.
Qed.


(** C1 (the code at the boundary).  With the threshold 3.0 that the report
    generator configures, a decrease of exactly 3% (100 to 97) yields no
    event, and a decrease of exactly 10% (100 to 90) yields an event of
    severity MEDIUM: both comparisons of the detector are strict. *)
Theorem shrinkage_boundary_excluded :
  decrease_pct 100 97 == 3
  /\ detect_shrinkage_events 3 (two_snapshots "A" 100 97) = []
  /\ decrease_pct 100 90 == 10
  /\ se_severity <$> detect_shrinkage_events 3 (two_snapshots "A" 100 90)
     = ["MEDIUM"].
Proof. repeat split; vm_compute; reflexivity. Qed.

(** In binary64 arithmetic the two boundary decreases are exactly 3.0 and
    10.0, and the strict comparisons are false there as well. *)
Example boundary_in_binary64 :
  decrease_pct_binary64 100 97 = 3%float
  /\ PrimFloat.ltb 3 (decrease_pct_binary64 100 97) = false
  /\ decrease_pct_binary64 100 90 = 10%float
  /\ PrimFloat.ltb 10 (decrease_pct_binary64 100 90) = false.
Proof. repeat split; reflexivity. Qed.

(** At any threshold, a pair whose decrease equals the threshold is not
    reported. *)
Lemma shrinkage_equal_threshold_silent threshold product prev curr :
  (0 < prev)%Z -> decrease_pct prev curr == threshold ->
  product <> "timestamp" ->
  detect_shrinkage_events threshold (two_snapshots product prev curr) = [].
Proof.
  intros Hpos Heq Hne. unfold detect_shrinkage_events, two_snapshots. simpl.
  destruct (String.eqb_spec product "timestamp") as [|_]; [done|].
  rewrite !app_nil_r.
  unfold shrinkage_at. simpl. rewrite !lookup_singleton_eq.
  destruct (Z.ltb_spec 0 prev); [|lia].
  assert (Num.ltb threshold (decrease_pct prev curr) = false) as ->; [|done].
  apply NumFacts.ltb_ge. rewrite Heq. apply Qle_refl.
Qed.

End InventoryFacts.

Example shrinkage_9pct :
  se_severity
    <$> Inventory.detect_shrinkage_events 3 (Inventory.two_snapshots "A" 100 91)
  = ["MEDIUM"].
Proof. vm_compute. reflexivity. Qed.

Example shrinkage_20pct :
  se_severity
    <$> Inventory.detect_shrinkage_events 3 (Inventory.two_snapshots "A" 100 80)
  = ["HIGH"].
Proof. vm_compute. reflexivity. Qed.

(** ** POS transaction detectors *)

Module PosFacts.
Import Pos.

#[global] Instance weight_diff_pct_proper :
  Proper (Qeq ==> Qeq ==> Qeq) weight_diff_pct.
Proof.
  intros a a' Ha e e' He. unfold weight_diff_pct. by rewrite Ha, He.
Qed.

(** *** Weight discrepancies *)

Lemma weight_discrepancy_at_spec tolerance t actual expected :
  tx_actual_weight t = Some actual -> tx_expected_weight t = Some expected ->
  0 < expected ->
  weight_discrepancy_at tolerance t =
    if Num.ltb tolerance (weight_diff_pct actual expected) then
      [ {| wd_timestamp := tx_timestamp t;
           wd_customer_id := tx_customer_id t;
           wd_station_id := tx_station_id t;
           wd_sku := tx_sku t;
           wd_product_name := tx_product_name t;
           wd_expected_weight := expected;
           wd_actual_weight := actual;
           wd_weight_difference_pct := weight_diff_pct actual expected;
           wd_price := tx_price t;
           wd_severity := if Num.ltb 50 (weight_diff_pct actual expected)
                          then "HIGH" else "MEDIUM" |} ]
    else [].
Proof.
  intros Ha He Hpos. unfold weight_discrepancy_at. rewrite Ha, He.
  by apply NumFacts.ltb_lt in Hpos as ->.
Qed.

Lemma detect_weight_discrepancies_app tolerance (before after : DataFrame)
    (t : transaction) :
  detect_weight_discrepancies tolerance (before ++ t :: after)
  = detect_weight_discrepancies tolerance before
    ++ weight_discrepancy_at tolerance t
    ++ detect_weight_discrepancies tolerance after.
Proof. unfold detect_weight_discrepancies. by rewrite flat_map_app. Qed.

(** C8.  With the default tolerance of 15%, a transaction with expected
    weight 1500 contributes, wherever it stands in the frame, no event at
    actual weight 1500, exactly one event, of severity MEDIUM, at actual
    weight 2000 and exactly one event, of severity HIGH, at actual weight
    3000. *)
Theorem weight_discrepancy_1500 (before after : DataFrame) (t : transaction)
    (expected actual : Q) :
  tx_expected_weight t = Some expected ->
  tx_actual_weight t = Some actual ->
  expected == 1500 ->
  (actual == 1500 ->
   detect_weight_discrepancies default_tolerance (before ++ t :: after)
   = detect_weight_discrepancies default_tolerance before
     ++ detect_weight_discrepancies default_tolerance after)
  /\ (actual == 2000 ->
      exists e,
        detect_weight_discrepancies default_tolerance (before ++ t :: after)
        = detect_weight_discrepancies default_tolerance before
          ++ e :: detect_weight_discrepancies default_tolerance after
        /\ wd_severity e = "MEDIUM"
        /\ wd_weight_difference_pct e == 100 # 3)
  /\ (actual == 3000 ->
      exists e,
        detect_weight_discrepancies default_tolerance (before ++ t :: after)
        = detect_weight_discrepancies default_tolerance before
          ++ e :: detect_weight_discrepancies default_tolerance after
        /\ wd_severity e = "HIGH"
        /\ wd_weight_difference_pct e == 100).
Proof.
  intros He Ha Hexp.
  assert (Hpos : 0 < expected) by (rewrite Hexp; reflexivity).
  rewrite detect_weight_discrepancies_app.
  rewrite (weight_discrepancy_at_spec _ _ _ _ Ha He Hpos).
  unfold default_tolerance. repeat split; intros Hact.
  - assert (Num.ltb 15 (weight_diff_pct actual expected) = false) as ->;
      [|done].
    rewrite Hact, Hexp. reflexivity.
  - assert (Num.ltb 15 (weight_diff_pct actual expected) = true) as ->
      by (rewrite Hact, Hexp; reflexivity).
    assert (Num.ltb 50 (weight_diff_pct actual expected) = false) as ->
      by (rewrite Hact, Hexp; reflexivity).
    eexists. split; [reflexivity|]. split; [reflexivity|]. simpl.
    rewrite Hact, Hexp. reflexivity.
  - assert (Num.ltb 15 (weight_diff_pct actual expected) = true) as ->
      by (rewrite Hact, Hexp; reflexivity).
    assert (Num.ltb 50 (weight_diff_pct actual expected) = true) as ->
      by (rewrite Hact, Hexp; reflexivity).
    eexists. split; [reflexivity|]. split; [reflexivity|]. simpl.
    rewrite Hact, Hexp. reflexivity.
Qed.

Lemma weight_discrepancy_1500_witness :
  detect_weight_discrepancies default_tolerance
    [Scenario.tx "C001" "PRD_B_01" 0 250 1500 1500] = []
  /\ (exists e, detect_weight_discrepancies default_tolerance
                  [Scenario.tx "C001" "PRD_B_01" 0 250 1500 2000] = [e]
                /\ wd_severity e = "MEDIUM"
                /\ wd_weight_difference_pct e == 100 # 3)
  /\ (exists e, detect_weight_discrepancies default_tolerance
                  [Scenario.tx "C001" "PRD_B_01" 0 250 1500 3000] = [e]
                /\ wd_severity e = "HIGH"
                /\ wd_weight_difference_pct e == 100).
Proof.
  split; [|split].
  - apply (weight_discrepancy_1500 [] []
             (Scenario.tx "C001" "PRD_B_01" 0 250 1500 1500) 1500 1500);
      reflexivity.
  - apply (weight_discrepancy_1500 [] []
             (Scenario.tx "C001" "PRD_B_01" 0 250 1500 2000) 1500 2000);
      reflexivity.
  - apply (weight_discrepancy_1500 [] []
             (Scenario.tx "C001" "PRD_B_01" 0 250 1500 3000) 1500 3000);
      reflexivity.
Defined.

(** *** Barcode swapping *)

(** The [price_per_gram] dict after the first pass: under each SKU, the
    prices per gram of expected weight of its transactions with a positive
    expected weight, in frame order. *)
Lemma price_per_gram_foldl (df : DataFrame) (m : gmap string (list Q))
    (sku : string) :
  foldl price_per_gram_step m df !! sku =
    match Spec.sku_ppg tx_expected_weight df sku with
    | [] => m !! sku
    | l => Some (default [] (m !! sku) ++ l)
    end.
Proof.
  revert m. induction df as [|t df IH]; intros m; [done|].
  simpl. rewrite IH. unfold price_per_gram_step, Spec.sku_ppg. simpl.
  fold (Spec.sku_ppg tx_expected_weight df sku).
  destruct (tx_expected_weight t) as [w|] eqn:Hw; simpl.
  - destruct (Num.ltb 0 w) eqn:Hpos.
    + destruct (decide (tx_sku t = sku)) as [<-|Hne].
      * rewrite lookup_insert_eq. simpl.
        destruct (Spec.sku_ppg _ df _); simpl; [done|].
        by rewrite <- app_assoc.
      * by rewrite lookup_insert_ne.
    + by destruct (decide (tx_sku t = sku)).
  - by destruct (decide (tx_sku t = sku)).
Qed.

Lemma avg_price_per_gram_lookup (df : DataFrame) (sku : string) :
  avg_price_per_gram df !! sku =
    match Spec.sku_ppg tx_expected_weight df sku with
    | [] => None
    | l => Some (Num.mean l)
    end.
Proof.
  unfold avg_price_per_gram, price_per_gram.
  rewrite lookup_fmap, price_per_gram_foldl, lookup_empty.
  by destruct (Spec.sku_ppg _ df sku).
Qed.

Lemma detect_barcode_swapping_filter (df : DataFrame) :
  detect_barcode_swapping df =
    barcode_event_of (avg_price_per_gram df)
      <$> filter (fun t => barcode_flag (avg_price_per_gram df) t = true) df.
Proof.
  unfold detect_barcode_swapping.
  generalize (avg_price_per_gram df). intros avg.
  induction df as [|t df' IH]; [done|].
  simpl. rewrite filter_cons.
  destruct (barcode_flag avg t) eqn:E; simpl; by rewrite IH.
Qed.





(** *** Rapid transactions *)


Lemma rapid_check_customer customer_id g e :
  In e (rapid_check customer_id g) -> rc_customer_id e = customer_id.
Proof.
  unfold rapid_check. destruct (1 <? length g)%nat; [|done].
  destruct (_ && _); [|done]. by intros [<-|[]].
Qed.


Lemma customer_ids_In (df : DataFrame) (customer_id : string) :
  In customer_id (customer_ids df)
  <-> exists t, In t df /\ tx_customer_id t = customer_id.
Proof.
  unfold customer_ids. rewrite sort_by_In.
  rewrite <- list_elem_of_In, elem_of_remove_dups, list_elem_of_fmap.
  split; intros (t & H1 & H2).
  - exists t. by rewrite <- list_elem_of_In.
  - exists t. by rewrite <- list_elem_of_In in H1.
Qed.




Example slow_last_item_gaps :
  Spec.median (Spec.inter_item_times Scenario.slow_last_item "C001") == 1
  /\ Num.mean (Spec.inter_item_times Scenario.slow_last_item "C001")
     == 208 # 10
  /\ rapid_transaction_customers Scenario.slow_last_item = [].
Proof. repeat split; vm_compute; reflexivity. Qed.

End PosFacts.

(** ** Master analysis *)

Module MasterFacts.
Import Master.

(** *** Loops that may raise *)

Lemma for_each_flat_map {A B : Type} (body : A -> option (list B))
    (f : A -> list B) (l : list A) :
  Forall (fun x => body x = Some (f x)) l ->
  for_each body l = Some (flat_map f l).
Proof.
  induction 1 as [|x l Hx _ IH]; simpl; [done|]. by rewrite Hx, IH.
Qed.

Lemma for_each_is_Some {A B : Type} (body : A -> option (list B))
    (l : list A) :
  Forall (fun x => is_Some (body x)) l -> is_Some (for_each body l).
Proof.
  induction 1 as [|x l [ys Hx] _ [zs IH]]; simpl; [by eexists|].
  rewrite Hx, IH. by eexists.
Qed.

Lemma for_each_In {A B : Type} (body : A -> option (list B)) (l : list A)
    (out : list B) (y : B) :
  for_each body l = Some out ->
  In y out -> exists x ys, In x l /\ body x = Some ys /\ In y ys.
Proof.
  revert out. induction l as [|x l IH]; intros out; simpl.
  - intros [= <-] [].
  - destruct (body x) as [ys|] eqn:Hx; [|done]. simpl.
    destruct (for_each body l) as [zs|]; [|done]. simpl.
    intros [= <-] Hin. apply in_app_or in Hin as [Hin|Hin].
    + exists x, ys. auto.
    + destruct (IH zs eq_refl Hin) as (x' & ys' & ? & ? & ?).
      exists x', ys'. auto.
Qed.

Lemma for_each_nil {A B : Type} (body : A -> option (list B)) :
  for_each body [] = Some [].
Proof. done. Qed.

(** *** The time window *)

Lemma within_iff (time_window : Q) (t1 t2 : Z) :
  within time_window t1 t2 = true
  <-> Qabs (total_seconds (t1 - t2)) <= time_window.
Proof. unfold within. apply NumFacts.leb_le. Qed.

Lemma within_boundary (time_window : Q) (t1 t2 : Z) :
  Qabs (total_seconds (t1 - t2)) == time_window ->
  within time_window t1 t2 = true.
Proof. intros H. apply within_iff. rewrite H. apply Qle_refl. Qed.

Lemma within_one_past (time_window : Q) (t1 t2 : Z) :
  Qabs (total_seconds (t1 - t2)) == time_window + 1 ->
  within time_window t1 t2 = false.
Proof.
  intros H. unfold within. apply NumFacts.leb_gt. rewrite H. lra.
Qed.

(** *** The correlation engine *)

Section Correlation.
Variable fromisoformat : string -> option Z.
Variable time_window : Q.

Lemma instant_Some (s : string) (t : Z) :
  fromisoformat s = Some t -> instant fromisoformat s = t.
Proof. unfold instant. by intros ->. Qed.

Lemma correlate_pos_pairs (recog : list low_confidence_event)
    (p : weight_discrepancy string) :
  is_Some (fromisoformat (wd_timestamp p)) ->
  Forall (fun e => is_Some (fromisoformat (lc_timestamp e))) recog ->
  correlate_pos fromisoformat time_window recog p
  = Some (flat_map (Spec.pair_events fromisoformat time_window p) recog).
Proof.
  intros [tp Hp] Hrecog. unfold correlate_pos. rewrite Hp. simpl.
  apply for_each_flat_map. eapply Forall_impl; [exact Hrecog|].
  intros c [tc Hc]. unfold correlate_pos_recog, Spec.pair_events.
  rewrite Hc. simpl.
  by rewrite (instant_Some _ _ Hp), (instant_Some _ _ Hc).
Qed.

Lemma related_pos_is_Some station queue_time
    (pos : list (weight_discrepancy string)) :
  Forall (fun e => is_Some (fromisoformat (wd_timestamp e))) pos ->
  is_Some (for_each (related_pos fromisoformat time_window station queue_time)
                    pos).
Proof.
  intros H. apply for_each_is_Some. eapply Forall_impl; [exact H|].
  intros p [tp Hp]. unfold related_pos. rewrite Hp. by eexists.
Qed.

Lemma related_recog_is_Some station queue_time
    (recog : list low_confidence_event) :
  Forall (fun e => is_Some (fromisoformat (lc_timestamp e))) recog ->
  is_Some (for_each
             (related_recog fromisoformat time_window station queue_time)
             recog).
Proof.
  intros H. apply for_each_is_Some. eapply Forall_impl; [exact H|].
  intros c [tc Hc]. unfold related_recog. rewrite Hc. by eexists.
Qed.

Lemma correlate_queue_is_Some pos recog (q : dwell_anomaly) :
  Forall (fun e => is_Some (fromisoformat (wd_timestamp e))) pos ->
  Forall (fun e => is_Some (fromisoformat (lc_timestamp e))) recog ->
  is_Some (fromisoformat (da_timestamp q)) ->
  is_Some (correlate_queue fromisoformat time_window pos recog q).
Proof.
  intros Hpos Hrecog [tq Hq]. unfold correlate_queue.
  destruct (String.eqb _ _); [|by eexists]. rewrite Hq. simpl.
  destruct (related_pos_is_Some (da_station_id q) tq pos Hpos) as [rp ->].
  destruct (related_recog_is_Some (da_station_id q) tq recog Hrecog)
    as [rr ->].
  by eexists.
Qed.

(** The second pass yields [CUSTOMER_DIFFICULTY_WITH_FRAUD] events only. *)
Lemma correlate_queue_shape pos recog (q : dwell_anomaly) out e :
  correlate_queue fromisoformat time_window pos recog q = Some out ->
  In e out ->
  exists related_issues, e = customer_difficulty q related_issues.
Proof.
  unfold correlate_queue. destruct (String.eqb _ _); [|by intros [= <-] []].
  destruct (fromisoformat (da_timestamp q)) as [tq|]; [|done]. simpl.
  destruct (for_each (related_pos _ _ _ _) pos) as [rp|]; [|done]. simpl.
  destruct (for_each (related_recog _ _ _ _) recog) as [rr|]; [|done]. simpl.
  destruct (rp ++ rr) as [|x rel]; intros [= <-]; [done|].
  intros [<-|[]]. eauto.
Qed.

(** The first pass yields [CORRELATED_FRAUD_ATTEMPT] events only. *)
Lemma correlate_pos_shape recog (p : weight_discrepancy string) out e :
  correlate_pos fromisoformat time_window recog p = Some out ->
  In e out -> exists c, e = fraud_attempt p c.
Proof.
  unfold correlate_pos.
  destruct (fromisoformat (wd_timestamp p)) as [tp|]; [|done]. simpl.
  intros Hout Hin.
  destruct (for_each_In _ _ _ _ Hout Hin) as (c & ys & _ & Hc & Hy).
  unfold correlate_pos_recog in Hc.
  destruct (fromisoformat (lc_timestamp c)); [|done]. simpl in Hc.
  destruct (_ && _); simplify_eq; [|done].
  destruct Hy as [<-|[]]. eauto.
Qed.

Lemma correlate_events_shape (r : all_reports) evs e :
  correlate_events fromisoformat time_window r = Some evs -> In e evs ->
  (exists p c, e = fraud_attempt p c)
  \/ (exists q related_issues, e = customer_difficulty q related_issues).
Proof.
  unfold correlate_events.
  destruct (for_each (correlate_pos _ _ _) _) as [fraud|] eqn:Hf; [|done].
  simpl.
  destruct (for_each (correlate_queue _ _ _ _) _) as [diff|] eqn:Hd; [|done].
  simpl. intros [= <-] Hin. apply in_app_or in Hin as [Hin|Hin].
  - destruct (for_each_In _ _ _ _ Hf Hin) as (p & ys & _ & Hp & Hy).
    destruct (correlate_pos_shape _ _ _ _ Hp Hy) as [c ->]. eauto.
  - destruct (for_each_In _ _ _ _ Hd Hin) as (q & ys & _ & Hq & Hy).
    destruct (correlate_queue_shape _ _ _ _ _ Hq Hy) as [rel ->]. eauto.
Qed.

Lemma correlate_events_is_Some (r : all_reports) :
  timestamps_parse fromisoformat r ->
  is_Some (correlate_events fromisoformat time_window r).
Proof.
  intros (Hpos & Hrecog & Hqueue). unfold correlate_events.
  rewrite (for_each_flat_map _
    (fun p => flat_map (Spec.pair_events fromisoformat time_window p)
                       (recognition_events r))).
  2:{ apply Forall_forall. intros p Hp. apply correlate_pos_pairs; [|done].
      by apply (proj1 (Forall_forall _ _) Hpos). }
  simpl.
  destruct (for_each_is_Some
    (correlate_queue fromisoformat time_window (pos_events r)
                     (recognition_events r)) (queue_events r)) as [d ->].
  { eapply Forall_impl; [exact Hqueue|]. intros q Hq.
    by apply correlate_queue_is_Some. }
  by eexists.
Qed.

End Correlation.

(** C2.  When the candidate timestamps parse, the correlation engine
    returns, in front of the events of its second pass (all of type
    CUSTOMER_DIFFICULTY_WITH_FRAUD), one CORRELATED_FRAUD_ATTEMPT event of
    confidence HIGH for every pair of a POS weight discrepancy and a
    low-confidence recognition, in loop order, that share the station and
    whose timestamps are at most [time_window] seconds apart: a pair of the
    same station contributes its event exactly when the absolute time
    difference is [<= time_window], so a difference equal to the window is
    correlated and a difference of window + 1 is not. *)
Theorem correlate_events_matching_pairs
    (fromisoformat : string -> option Z) (time_window : Q)
    (r : all_reports) :
  timestamps_parse fromisoformat r ->
  (exists difficulty,
     correlate_events fromisoformat time_window r
       = Some (Spec.matching_pairs fromisoformat time_window r ++ difficulty)
     /\ Forall (fun e => ce_event_type e = "CUSTOMER_DIFFICULTY_WITH_FRAUD")
               difficulty)
  /\ (forall p c,
        ce_event_type (fraud_attempt p c) = "CORRELATED_FRAUD_ATTEMPT"
        /\ ce_confidence (fraud_attempt p c) = "HIGH")
  /\ (forall p c,
        wd_station_id p = lc_station_id c ->
        let dt := Qabs (total_seconds
                          (instant fromisoformat (wd_timestamp p)
                           - instant fromisoformat (lc_timestamp c))) in
        (Spec.pair_events fromisoformat time_window p c = [fraud_attempt p c]
         <-> dt <= time_window)
        /\ (Spec.pair_events fromisoformat time_window p c = []
            <-> time_window < dt)
        /\ (dt == time_window ->
            Spec.pair_events fromisoformat time_window p c
              = [fraud_attempt p c])
        /\ (dt == time_window + 1 ->
            Spec.pair_events fromisoformat time_window p c = []))
  /\ (forall p c,
        wd_station_id p <> lc_station_id c ->
        Spec.pair_events fromisoformat time_window p c = []).
Proof.
  intros Hparse. split; [|split; [done|split]].
  - pose proof Hparse as (Hpos & Hrecog & Hqueue).
    destruct (correlate_events_is_Some fromisoformat time_window r Hparse)
      as [evs Hevs].
    pose proof Hevs as Hevs'. unfold correlate_events in Hevs.
    rewrite (for_each_flat_map _
      (fun p => flat_map (Spec.pair_events fromisoformat time_window p)
                         (recognition_events r))) in Hevs.
    2:{ apply Forall_forall. intros p Hp. apply correlate_pos_pairs; [|done].
        by apply (proj1 (Forall_forall _ _) Hpos). }
    simpl in Hevs.
    destruct (for_each (correlate_queue _ _ _ _) _) as [d|] eqn:Hd; [|done].
    simpl in Hevs. exists d. split; [by rewrite Hevs', <- Hevs|].
    apply Forall_forall. intros e He. apply list_elem_of_In in He.
    destruct (for_each_In _ _ _ _ Hd He) as (q & ys & _ & Hq & Hy).
    by destruct (correlate_queue_shape _ _ _ _ _ _ _ Hq Hy) as [rel ->].
  - intros p c Hst dt. unfold Spec.pair_events, same_station.
    rewrite bool_decide_eq_true_2 by done. simpl.
    destruct (within _ _ _) eqn:Hw.
    + apply within_iff in Hw. fold dt in Hw.
      repeat split; try done.
      * intros Hlt. exfalso. eapply Qlt_not_le; eauto.
      * intros H1. exfalso. rewrite H1 in Hw. lra.
    + unfold within in Hw. apply NumFacts.leb_gt in Hw. fold dt in Hw.
      repeat split; try done.
      * intros Hle. exfalso. eapply Qlt_not_le; eauto.
      * intros H1. exfalso. rewrite H1 in Hw. lra.
  - intros p c Hne. unfold Spec.pair_events, same_station.
    by rewrite bool_decide_eq_false_2.
Qed.

Lemma correlate_events_matching_pairs_witness :
  (exists difficulty,
     correlate_events Iso.iso_micros default_time_window
                      Scenario.reports_boundary
       = Some (Spec.matching_pairs Iso.iso_micros default_time_window
                 Scenario.reports_boundary ++ difficulty)
     /\ Forall (fun e => ce_event_type e = "CUSTOMER_DIFFICULTY_WITH_FRAUD")
               difficulty)
  /\ Spec.matching_pairs Iso.iso_micros default_time_window
       Scenario.reports_boundary
     = [fraud_attempt Scenario.pos_1700
          (Scenario.recog_at "2025-08-13T17:05:00")].
Proof.
  split.
  - apply (correlate_events_matching_pairs Iso.iso_micros default_time_window
             Scenario.reports_boundary).
    unfold timestamps_parse. simpl.
    repeat split; repeat (apply Forall_cons; split; [by eexists|]);
      apply Forall_nil_2.
  - vm_compute. reflexivity.
Defined.

(** The run on the boundary scenario: the recognition 300 s after the
    weight discrepancy is correlated, the one 301 s after is not. *)
Example correlate_events_boundary :
  correlate_events Iso.iso_micros 300 Scenario.reports_boundary
  = Some [fraud_attempt Scenario.pos_1700
            (Scenario.recog_at "2025-08-13T17:05:00")]
  /\ total_seconds (instant Iso.iso_micros "2025-08-13T17:05:00"
                    - instant Iso.iso_micros "2025-08-13T17:00:00") == 300
  /\ total_seconds (instant Iso.iso_micros "2025-08-13T17:05:01"
                    - instant Iso.iso_micros "2025-08-13T17:00:00") == 301.
Proof. repeat split; vm_compute; reflexivity. Qed.

(** *** The severity scorer *)

#[global] Instance min_proper : Proper (Qeq ==> Qeq ==> Qeq) Num.min.
Proof.
  intros a a' Ha b b' Hb. unfold Num.min. rewrite Ha, Hb.
  by destruct (Num.ltb b' a').
Qed.

Lemma contains_dict (k : string) (d : pydict) :
  Py.contains k (PDict d) = Some (bool_decide (is_Some (Py.dict_get k d))).
Proof. done. Qed.

Lemma weight_contribution_range (evidence : pydict) :
  Spec.features_in_range evidence ->
  0 <= Spec.weight_contribution evidence
  /\ Spec.weight_contribution evidence <= 3 # 10.
Proof.
  intros [Hw _]. unfold Spec.weight_contribution.
  destruct (Py.dict_get "weight_difference_pct" evidence) as [v|];
    [|split; [apply Qle_refl|discriminate]].
  destruct (Hw v eq_refl) as (q & -> & Hq).
  assert (H0 : 0 <= Num.min (q / 100) 1).
  { apply NumFacts.min_glb; [|discriminate].
    apply Qle_shift_div_l; [reflexivity|]. lra. }
  pose proof (NumFacts.min_le_r (q / 100) 1) as H1.
  split; nra.
Qed.

Lemma confidence_contribution_range (evidence : pydict) :
  Spec.features_in_range evidence ->
  0 <= Spec.confidence_contribution evidence
  /\ Spec.confidence_contribution evidence <= 25 # 100.
Proof.
  intros [_ Hc]. unfold Spec.confidence_contribution.
  destruct (Py.dict_get "confidence" evidence) as [v|];
    [|split; [apply Qle_refl|discriminate]].
  destruct (Hc v eq_refl) as (q & -> & Hq0 & Hq1). split; lra.
Qed.

Lemma correlation_bonus_range (event : pydict) :
  0 <= Spec.correlation_bonus event /\ Spec.correlation_bonus event <= 1 # 10.
Proof.
  unfold Spec.correlation_bonus.
  destruct (is_correlated_type event); split; discriminate || apply Qle_refl.
Qed.

(** The score of an event whose evidence is a mapping (or missing) with
    numeric features: the clamped sum of the contributions. *)
Lemma score_of_mapping (event evidence : pydict) :
  Spec.evidence_of event = Some evidence ->
  Spec.features_in_range evidence ->
  exists s, calculate_severity_score event = Some s
            /\ s == Num.min (Spec.weight_contribution evidence
                             + Spec.confidence_contribution evidence
                             + Spec.correlation_bonus event) 1.
Proof.
  intros Hev [Hw Hc].
  unfold calculate_severity_score, evidence_num, Py.get,
    Spec.weight_contribution, Spec.confidence_contribution,
    Spec.correlation_bonus.
  unfold Spec.evidence_of in Hev.
  destruct (Py.dict_get "evidence" event) as [v|] eqn:He; simpl.
  - destruct v; try done. injection Hev as ->. simpl.
    destruct (Py.dict_get "weight_difference_pct" evidence) as [vw|] eqn:Ew;
      [destruct (Hw vw eq_refl) as (qw & -> & _)|];
      (destruct (Py.dict_get "confidence" evidence) as [vc|] eqn:Ec;
        [destruct (Hc vc eq_refl) as (qc & -> & _)|]); simpl;
      rewrite ?Ew, ?Ec; simpl;
      destruct (is_correlated_type event); eexists;
      (split; [reflexivity|]);
      unfold weight_discrepancy_weight, recognition_confidence_weight,
        cross_correlation_weight;
      (apply min_proper; [ring|reflexivity]).
  - injection Hev as <-. simpl.
    destruct (is_correlated_type event); eexists;
      (split; [reflexivity|]); reflexivity.
Qed.


Lemma final_severity_bucket (s : Q) :
  (final_severity s = "high" <-> 7 # 10 < s)
  /\ (final_severity s = "medium" <-> s <= 7 # 10).
Proof.
  unfold final_severity. destruct (Num.ltb (7 # 10) s) eqn:E.
  - apply NumFacts.ltb_lt in E. split; split; try done.
    intros H. exfalso. eapply Qlt_not_le; eauto.
  - apply NumFacts.ltb_ge in E. split; split; try done.
    intros H. exfalso. eapply Qlt_not_le; eauto.
Qed.



Example scored_event_score :
  exists s, calculate_severity_score Scenario.scored_event = Some s
            /\ s == 395 # 1000.
Proof. eexists. split; [vm_compute; reflexivity|]. reflexivity. Qed.

(** *** The event assembler *)

Lemma In_fmap {A B : Type} (f : A -> B) (l : list A) (y : B) :
  In y (f <$> l) <-> exists x, y = f x /\ In x l.
Proof.
  rewrite <- list_elem_of_In, list_elem_of_fmap.
  by setoid_rewrite list_elem_of_In.
Qed.

(** The per-stream blocks only build events of the five stream types. *)
Lemma stream_events_types (r : all_reports) (e : FinalEvent) :
  In e (stream_events r) ->
  In (fe_event_type e)
     ["INVENTORY_SHRINKAGE"; "WEIGHT_DISCREPANCY"; "BARCODE_SWITCHING";
      "SCANNER_AVOIDANCE"; "CHECKOUT_DIFFICULTY"].
Proof.
  unfold stream_events. rewrite !in_app_iff, !In_fmap, !in_flat_map.
  intros [(x & -> & _)|[(x & -> & _)|[(x & -> & _)|[(x & _ & H)|(x & _ & H)]]]];
    simpl; auto.
  - unfold recognition_final in H. destruct (String.eqb _ _); [|done].
    destruct H as [<-|[]]. simpl. auto.
  - unfold queue_final in H. destruct (String.eqb _ _); [|done].
    destruct H as [<-|[]]. simpl. auto 6.
Qed.

Lemma generate_events_jsonl_inv fromisoformat time_window r out :
  generate_events_jsonl fromisoformat time_window r = Some out ->
  exists correlated_events correlated,
    correlate_events fromisoformat time_window r = Some correlated_events
    /\ for_each correlated_final correlated_events = Some correlated
    /\ out = sort_by String.leb fe_timestamp (stream_events r ++ correlated).
Proof.
  unfold generate_events_jsonl.
  destruct (correlate_events _ _ _) as [ce|]; [|done]. simpl.
  destruct (for_each correlated_final ce) as [c|] eqn:Hc; [|done]. simpl.
  intros [= <-]. by exists ce, c.
Qed.

(** What the scorer sees of a correlated event built by the engine *)
Lemma fraud_attempt_score p c :
  calculate_severity_score (correlated_to_dict (fraud_attempt p c))
  = Some (1 # 10).
Proof. reflexivity. Qed.

Lemma customer_difficulty_score q related_issues :
  calculate_severity_score
    (correlated_to_dict (customer_difficulty q related_issues))
  = Some (1 # 10).
Proof. reflexivity. Qed.

(** A correlated event built by the engine: its shape, its evidence keys,
    its score and the final event assembled from it. *)
Lemma engine_event_facts (fromisoformat : string -> option Z)
    (time_window : Q) (r : all_reports) (evs : list correlated_event)
    (e : correlated_event) :
  correlate_events fromisoformat time_window r = Some evs -> In e evs ->
  ((exists p c, e = fraud_attempt p c)
   \/ (exists q related_issues, e = customer_difficulty q related_issues))
  /\ Py.dict_get "weight_difference_pct" (ce_evidence e) = None
  /\ Py.dict_get "confidence" (ce_evidence e) = None
  /\ calculate_severity_score (correlated_to_dict e) = Some (1 # 10)
  /\ exists fe, correlated_final e = Some [fe]
                /\ fe_severity fe = "medium".
Proof.
  intros Hevs He.
  pose proof (correlate_events_shape _ _ _ _ _ Hevs He) as Hshape.
  split; [exact Hshape|].
  destruct Hshape as [(p & c & ->)|(q & rel & ->)].
  - repeat split; try reflexivity.
    unfold correlated_final. rewrite fraud_attempt_score. simpl.
    eexists. split; reflexivity.
  - repeat split; try reflexivity.
    unfold correlated_final. rewrite customer_difficulty_score. simpl.
    eexists. split; reflexivity.
Qed.

(** The assembler completes whenever the candidate timestamps parse. *)
Lemma generate_events_jsonl_is_Some (fromisoformat : string -> option Z)
    (time_window : Q) (r : all_reports) :
  timestamps_parse fromisoformat r ->
  is_Some (generate_events_jsonl fromisoformat time_window r).
Proof.
  intros Hparse. unfold generate_events_jsonl.
  destruct (correlate_events_is_Some fromisoformat time_window r Hparse)
    as [evs Hevs].
  rewrite Hevs. simpl.
  destruct (for_each_is_Some correlated_final evs) as [c ->]; [|by eexists].
  apply Forall_forall. intros e He. apply list_elem_of_In in He.
  destruct (engine_event_facts _ _ _ _ _ Hevs He)
    as (_ & _ & _ & _ & fe & -> & _).
  by eexists.
Qed.

(** C5.  Every correlated event the engine returns is built by one of its
    two literals, whose evidence mapping has neither a
    'weight_difference_pct' nor a 'confidence' key at the top level (the
    values sit inside 'pos_issue' / 'recognition_issue' or
    'related_issues'); its severity score is exactly 0.1, the
    cross-correlation bonus, and the final event assembled from it has
    severity 'medium'.  Hence every final event of a correlated type in the
    output of the assembler has severity 'medium'. *)
Theorem correlated_events_score_bonus_only
    (fromisoformat : string -> option Z) (time_window : Q)
    (r : all_reports) (evs : list correlated_event) :
  correlate_events fromisoformat time_window r = Some evs ->
  (forall e, In e evs ->
     ((exists p c, e = fraud_attempt p c)
      \/ (exists q related_issues, e = customer_difficulty q related_issues))
     /\ Py.dict_get "weight_difference_pct" (ce_evidence e) = None
     /\ Py.dict_get "confidence" (ce_evidence e) = None
     /\ calculate_severity_score (correlated_to_dict e) = Some (1 # 10)
     /\ exists fe, correlated_final e = Some [fe]
                   /\ fe_severity fe = "medium")
  /\ (forall out fe,
        generate_events_jsonl fromisoformat time_window r = Some out ->
        In fe out ->
        fe_event_type fe = "CORRELATED_FRAUD_ATTEMPT"
        \/ fe_event_type fe = "CUSTOMER_DIFFICULTY_WITH_FRAUD" ->
        fe_severity fe = "medium").
Proof.
  intros Hevs.
  assert (Hall := fun e => engine_event_facts _ _ _ _ e Hevs).
  split; [exact Hall|].
  intros out fe Hout Hfe Htype.
  apply generate_events_jsonl_inv in Hout as (ce & c & Hce & Hc & ->).
  rewrite Hevs in Hce. injection Hce as <-.
  apply sort_by_In, in_app_or in Hfe as [Hfe|Hfe].
  - apply stream_events_types in Hfe. simpl in Hfe.
    destruct Htype as [Ht|Ht]; rewrite Ht in Hfe;
      repeat (destruct Hfe as [Hfe|Hfe]; [discriminate|]); done.
  - destruct (for_each_In _ _ _ _ Hc Hfe) as (e & ys & He & Hys & Hin).
    destruct (Hall e He) as (_ & _ & _ & _ & fe' & Hfe' & Hsev).
    rewrite Hfe' in Hys. injection Hys as <-.
    by destruct Hin as [<-|[]].
Qed.

Lemma correlated_events_score_bonus_only_witness :
  exists evs,
    correlate_events Iso.iso_micros default_time_window Scenario.reports_full
      = Some evs
    /\ length evs = 3%nat
    /\ forall e, In e evs ->
         calculate_severity_score (correlated_to_dict e) = Some (1 # 10).
Proof.
  eexists. split; [vm_compute; reflexivity|]. split; [reflexivity|].
  intros e He.
  apply (proj1 (correlated_events_score_bonus_only Iso.iso_micros
                  default_time_window Scenario.reports_full _ eq_refl) e He).
Defined.

(** C4.  For every set of reports, the list the assembler returns is
    sorted ascending by timestamp under the lexicographic order of the
    timestamp strings: every record is at most its successor.  The
    assembler returns whenever the candidate timestamps parse. *)
Theorem final_events_sorted (fromisoformat : string -> option Z)
    (time_window : Q) (r : all_reports) :
  (forall out,
     generate_events_jsonl fromisoformat time_window r = Some out ->
     Sorted (key_le String.leb fe_timestamp) out
     /\ forall (i : nat) (a b : FinalEvent),
          out !! i = Some a -> out !! S i = Some b ->
          String.leb (fe_timestamp a) (fe_timestamp b) = true)
  /\ (timestamps_parse fromisoformat r ->
      exists out,
        generate_events_jsonl fromisoformat time_window r = Some out).
Proof.
  split; [|apply generate_events_jsonl_is_Some].
  intros out Hout.
  apply generate_events_jsonl_inv in Hout as (ce & c & _ & _ & ->).
  assert (Hs : Sorted (key_le String.leb fe_timestamp)
                 (sort_by String.leb fe_timestamp (stream_events r ++ c)))
    by apply sort_by_Sorted, String.leb_total.
  split; [exact Hs|]. intros i a b Ha Hb.
  exact (Sorted_adjacent _ _ Hs i a b Ha Hb).
Qed.

Lemma final_events_sorted_witness :
  exists out,
    generate_events_jsonl Iso.iso_micros default_time_window
                          Scenario.reports_full = Some out
    /\ fe_timestamp <$> out
       = ["2025-08-13T16:58:20"; "2025-08-13T17:00:00";
          "2025-08-13T17:00:00"; "2025-08-13T17:00:00";
          "2025-08-13T17:02:00"; "2025-08-13T17:02:00";
          "2025-08-13T17:05:00"; "2025-08-13T17:10:00"]
    /\ Sorted (key_le String.leb fe_timestamp) out.
Proof.
  eexists. split; [vm_compute; reflexivity|]. split; [reflexivity|].
  apply (proj1 (final_events_sorted Iso.iso_micros default_time_window
                  Scenario.reports_full) _ eq_refl).
Defined.

(** *** End to end: inventory shrinkage *)



Example shrinkage_scenario_output :
  generate_events_jsonl Iso.iso_micros default_time_window
    Scenario.reports_inventory_only
  = Some [ {| fe_timestamp := "2025-08-13T17:10:00";
              fe_event_type := "INVENTORY_SHRINKAGE";
              fe_location := Some "STORE_FLOOR";
              fe_severity := "medium";
              fe_confidence := 8 # 10;
              fe_description := "Inventory decrease of 8.6% for PRD_T_04";
              fe_metadata :=
                [ ("product_sku", PStr "PRD_T_04");
                  ("quantity_change", PNum (-3));
                  ("percentage_decrease", PNum (300 # 35)) ] |} ].
Proof. vm_compute. reflexivity. Qed.

(** *** Partial input *)

Lemma restrict_blank_events (keep : stream -> bool) (r : all_reports) :
  inventory_events (restrict keep r) = inventory_events (blank keep r)
  /\ pos_events (restrict keep r) = pos_events (blank keep r)
  /\ barcode_events (restrict keep r) = barcode_events (blank keep r)
  /\ recognition_events (restrict keep r) = recognition_events (blank keep r)
  /\ queue_events (restrict keep r) = queue_events (blank keep r).
Proof.
  unfold inventory_events, pos_events, barcode_events, recognition_events,
    queue_events, restrict, blank. simpl.
  destruct (keep SInventory), (keep SPos), (keep SRecognition),
    (keep SQueue); done.
Qed.

Lemma restrict_events (keep : stream -> bool) (r : all_reports) :
  inventory_events (restrict keep r)
    = (if keep SInventory then inventory_events r else [])
  /\ pos_events (restrict keep r)
     = (if keep SPos then pos_events r else [])
  /\ barcode_events (restrict keep r)
     = (if keep SPos then barcode_events r else [])
  /\ recognition_events (restrict keep r)
     = (if keep SRecognition then recognition_events r else [])
  /\ queue_events (restrict keep r)
     = (if keep SQueue then queue_events r else []).
Proof.
  unfold inventory_events, pos_events, barcode_events, recognition_events,
    queue_events, restrict. simpl.
  destruct (keep SInventory), (keep SPos), (keep SRecognition),
    (keep SQueue); done.
Qed.

Lemma restrict_timestamps_parse fromisoformat keep r :
  timestamps_parse fromisoformat r ->
  timestamps_parse fromisoformat (restrict keep r).
Proof.
  unfold timestamps_parse.
  destruct (restrict_events keep r) as (_ & -> & _ & -> & ->).
  intros (Hp & Hr & Hq).
  destruct (keep SPos), (keep SRecognition), (keep SQueue);
    repeat split; done || apply Forall_nil_2.
Qed.

(** C10.  For every subset [keep] of the five streams: dropping the
    reports of the other streams gives the same correlated events, the
    same per-stream events and the same assembled output as a run in which
    those streams are present with empty candidate lists; a dropped stream
    contributes no candidate events and a kept stream contributes the ones
    it had; the run completes whenever the candidate timestamps parse, and
    with no report at all it returns the empty list. *)
Theorem partial_input_tolerance (fromisoformat : string -> option Z)
    (time_window : Q) (keep : stream -> bool) (r : all_reports) :
  correlate_events fromisoformat time_window (restrict keep r)
    = correlate_events fromisoformat time_window (blank keep r)
  /\ stream_events (restrict keep r) = stream_events (blank keep r)
  /\ generate_events_jsonl fromisoformat time_window (restrict keep r)
     = generate_events_jsonl fromisoformat time_window (blank keep r)
  /\ (inventory_events (restrict keep r)
        = (if keep SInventory then inventory_events r else [])
      /\ pos_events (restrict keep r)
         = (if keep SPos then pos_events r else [])
      /\ barcode_events (restrict keep r)
         = (if keep SPos then barcode_events r else [])
      /\ recognition_events (restrict keep r)
         = (if keep SRecognition then recognition_events r else [])
      /\ queue_events (restrict keep r)
         = (if keep SQueue then queue_events r else []))
  /\ (timestamps_parse fromisoformat r ->
      is_Some (generate_events_jsonl fromisoformat time_window
                 (restrict keep r)))
  /\ generate_events_jsonl fromisoformat time_window
       (restrict (fun _ => false) r) = Some [].
Proof.
  destruct (restrict_blank_events keep r) as (Hi & Hp & Hb & Hr & Hq).
  assert (Hc : correlate_events fromisoformat time_window (restrict keep r)
               = correlate_events fromisoformat time_window (blank keep r)).
  { unfold correlate_events. by rewrite Hp, Hr, Hq. }
  assert (Hs : stream_events (restrict keep r) = stream_events (blank keep r)).
  { unfold stream_events. by rewrite Hi, Hp, Hb, Hr, Hq. }
  repeat split; try done.
  - unfold generate_events_jsonl. by rewrite Hc, Hs.
  - apply restrict_events.
  - apply restrict_events.
  - apply restrict_events.
  - apply restrict_events.
  - apply restrict_events.
  - intros Hparse. apply generate_events_jsonl_is_Some.
    by apply restrict_timestamps_parse.
Qed.

Lemma partial_input_tolerance_witness :
  is_Some (generate_events_jsonl Iso.iso_micros default_time_window
             (restrict (fun s => match s with SPos => false | _ => true end)
                       Scenario.reports_full)).
Proof.
  apply (partial_input_tolerance Iso.iso_micros default_time_window
           (fun s => match s with SPos => false | _ => true end)
           Scenario.reports_full).
  unfold timestamps_parse. simpl.
  repeat split; repeat (apply Forall_cons; split; [by eexists|]);
    apply Forall_nil_2.
Defined.

Example partial_input_without_pos :
  (fun e => (fe_timestamp e, fe_event_type e))
    <$> default [] (generate_events_jsonl Iso.iso_micros default_time_window
          (restrict (fun s => match s with SPos => false | _ => true end)
                    Scenario.reports_full))
  = [ ("2025-08-13T16:58:20", "SCANNER_AVOIDANCE");
      ("2025-08-13T17:02:00", "CHECKOUT_DIFFICULTY");
      ("2025-08-13T17:02:00", "CUSTOMER_DIFFICULTY_WITH_FRAUD");
      ("2025-08-13T17:05:00", "SCANNER_AVOIDANCE");
      ("2025-08-13T17:10:00", "INVENTORY_SHRINKAGE") ].
Proof. vm_compute. reflexivity. Qed.

End MasterFacts.

(** * Part III: further properties of the code *)

(** ** The shrinkage detector and the report frame *)

Module InventoryMore.
Import Inventory.




(** *** The frame the report generator hands to the detector *)



Lemma flat_map_ext_In {A B : Type} (f g : A -> list B) (l : list A) :
  (forall x, In x l -> f x = g x) -> flat_map f l = flat_map g l.
Proof.
  induction l as [|x l IH]; intros H; simpl; [done|].
  rewrite (H x) by (by left). rewrite IH; [done|].
  intros y Hy. apply H. by right.
Qed.




End InventoryMore.

(** ** The POS detectors and the customer-behaviour analyzer *)

Module PosMore.
Import Pos Behavior.

Lemma weight_diff_pct_same (x : Q) : weight_diff_pct x x == 0.
Proof.
  unfold weight_diff_pct.
  assert (H : (x - x) / x == 0) by (unfold Qdiv; ring).
  rewrite H. reflexivity.
Qed.

Lemma weight_discrepancy_at_In tolerance t e :
  In e (weight_discrepancy_at tolerance t) <->
  exists actual expected,
    tx_actual_weight t = Some actual /\ tx_expected_weight t = Some expected
    /\ 0 < expected /\ tolerance < weight_diff_pct actual expected
    /\ e = {| wd_timestamp := tx_timestamp t;
              wd_customer_id := tx_customer_id t;
              wd_station_id := tx_station_id t;
              wd_sku := tx_sku t;
              wd_product_name := tx_product_name t;
              wd_expected_weight := expected;
              wd_actual_weight := actual;
              wd_weight_difference_pct := weight_diff_pct actual expected;
              wd_price := tx_price t;
              wd_severity := if Num.ltb 50 (weight_diff_pct actual expected)
                             then "HIGH" else "MEDIUM" |}.
Proof.
  unfold weight_discrepancy_at. split.
  - destruct (tx_actual_weight t) as [actual|]; [|done].
    destruct (tx_expected_weight t) as [expected|]; [|done].
    destruct (Num.ltb 0 expected) eqn:Hpos; [|done].
    destruct (Num.ltb tolerance _) eqn:Htol; [|done].
    intros [<-|[]]. exists actual, expected.
    apply NumFacts.ltb_lt in Hpos, Htol. done.
  - intros (actual & expected & -> & -> & Hpos & Htol & ->).
    apply NumFacts.ltb_lt in Hpos, Htol. rewrite Hpos, Htol. by left.
Qed.




(** *** Frames loaded from a feed without measured weights *)

Lemma flatten_no_actual_weight record instant :
  pr_actual_weight_g record = None ->
  tx_actual_weight (flatten_record record instant)
  = tx_expected_weight (flatten_record record instant).
Proof. intros H. unfold flatten_record. simpl. by rewrite H. Qed.

Lemma weight_diff_above_same threshold t :
  0 <= threshold -> tx_actual_weight t = tx_expected_weight t ->
  weight_diff_above threshold t = false.
Proof.
  intros Hth Heq. unfold weight_diff_above. rewrite Heq.
  destruct (tx_expected_weight t) as [x|]; [|done].
  rewrite weight_diff_pct_same.
  apply NumFacts.ltb_ge in Hth. rewrite Hth. apply andb_false_r.
Qed.

Lemma weight_discrepancy_at_same tolerance t :
  0 <= tolerance -> tx_actual_weight t = tx_expected_weight t ->
  weight_discrepancy_at tolerance t = [].
Proof.
  intros Hth Heq. unfold weight_discrepancy_at. rewrite Heq.
  destruct (tx_expected_weight t) as [x|]; [|done].
  destruct (Num.ltb 0 x); [|done].
  rewrite weight_diff_pct_same.
  apply NumFacts.ltb_ge in Hth. by rewrite Hth.
Qed.

Lemma high_value_at_same customer_id t :
  tx_actual_weight t = tx_expected_weight t -> high_value_at customer_id t = [].
Proof.
  intros Heq. unfold high_value_at. rewrite Heq.
  destruct (Num.ltb 500 (tx_price t)); [|done].
  destruct (tx_expected_weight t) as [x|]; [|done].
  destruct (Num.ltb 0 x); [|done].
  by rewrite weight_diff_pct_same.
Qed.

Lemma sorted_group_In df customer_id t :
  In t (sorted_group df customer_id)
  <-> In t df /\ tx_customer_id t = customer_id.
Proof.
  unfold sorted_group, customer_group.
  rewrite sort_by_In, <- list_elem_of_In, list_elem_of_filter.
  rewrite list_elem_of_In. tauto.
Qed.

Lemma flat_map_nil {A B : Type} (f : A -> list B) (l : list A) :
  (forall x, In x l -> f x = []) -> flat_map f l = [].
Proof.
  induction l as [|x l IH]; intros H; simpl; [done|].
  rewrite (H x) by (by left). apply IH. intros y Hy. apply H. by right.
Qed.

Lemma filter_none {A : Type} (P : A -> Prop) `{forall x, Decision (P x)}
    (l : list A) :
  (forall x, In x l -> ~ P x) -> filter P l = [].
Proof.
  induction l as [|x l IH]; intros Hl; [done|].
  rewrite filter_cons, decide_False by (apply Hl; by left).
  apply IH. intros y Hy. apply Hl. by right.
Qed.

(** X4.  [load_pos_transactions] copies [weight_g] into both weight
    columns of a record that has no ['actual_weight_g'] key.  On a frame
    made of such rows only, the weight detector is silent at every
    tolerance [>= 0], and the customer analyzer lists no
    frequent-discrepancy customer and no high-value suspicious
    transaction. *)
Theorem no_measured_weight_no_weight_event (df : DataFrame) :
  Forall (fun t => exists record instant,
                     t = flatten_record record instant
                     /\ pr_actual_weight_g record = None) df ->
  (forall tolerance, 0 <= tolerance ->
                     detect_weight_discrepancies tolerance df = [])
  /\ frequent_discrepancy_customers df = []
  /\ high_value_suspicious_transactions df = [].
Proof.
  intros Hdf.
  assert (Hsame : forall t, In t df ->
                            tx_actual_weight t = tx_expected_weight t).
  { intros t Ht. rewrite Forall_forall in Hdf.
    apply list_elem_of_In, Hdf in Ht as (record & instant & -> & Hnone).
    by apply flatten_no_actual_weight. }
  split; [|split].
  - intros tolerance Hth. apply flat_map_nil. intros t Ht.
    apply weight_discrepancy_at_same; [done|]. by apply Hsame.
  - apply flat_map_nil. intros customer_id _. unfold frequent_check.
    replace (filter _ (sorted_group df customer_id)) with (@nil transaction).
    + simpl. destruct (3 <? _)%nat; [|done]. simpl.
      destruct (length (sorted_group df customer_id)); done.
    + symmetry. apply filter_none. intros t Ht.
      rewrite weight_diff_above_same; [done|discriminate|].
      apply Hsame. by apply sorted_group_In in Ht as [Ht _].
  - apply flat_map_nil. intros customer_id _. apply flat_map_nil.
    intros t Ht. apply high_value_at_same, Hsame.
    by apply sorted_group_In in Ht as [Ht _].
Qed.

Lemma no_measured_weight_no_weight_event_witness :
  detect_weight_discrepancies 15
    [flatten_record Sample.plain_record 0;
     flatten_record Sample.plain_record 1] = [].
Proof.
  apply (proj1 (no_measured_weight_no_weight_event
                  [flatten_record Sample.plain_record 0;
                   flatten_record Sample.plain_record 1]
                  ltac:(repeat constructor; by eexists _, _))).
  discriminate.
Defined.

(** *** The barcode-swap detector *)

Lemma sku_ppg_nil_iff (df : DataFrame) (sku : string) :
  Spec.sku_ppg tx_expected_weight df sku = []
  <-> forall t x, In t df -> tx_sku t = sku ->
                  tx_expected_weight t = Some x -> x <= 0.
Proof.
  unfold Spec.sku_ppg. induction df as [|t df IH]; simpl.
  - split; [intros _ ? ? []|done].
  - destruct (decide (tx_sku t = sku)) as [Hs|Hs].
    + destruct (tx_expected_weight t) as [w|] eqn:Hw; simpl.
      * destruct (Num.ltb 0 w) eqn:Hpos; simpl.
        -- split; [done|]. intros H. exfalso.
           apply NumFacts.ltb_lt in Hpos.
           specialize (H t w (or_introl eq_refl) Hs Hw). lra.
        -- rewrite IH. apply NumFacts.ltb_ge in Hpos. split.
           ++ intros H t' x [<-|Ht'] Hs' Hx; [congruence|by eapply H].
           ++ intros H t' x Ht'. apply H. by right.
      * rewrite IH. split.
        -- intros H t' x [<-|Ht'] Hs' Hx; [congruence|by eapply H].
        -- intros H t' x Ht'. apply H. by right.
    + rewrite IH. split.
      * intros H t' x [<-|Ht'] Hs' Hx; [done|by eapply H].
      * intros H t' x Ht'. apply H. by right.
Qed.

Lemma barcode_flag_true avg t :
  barcode_flag avg t = true ->
  exists actual,
    tx_actual_weight t = Some actual /\ ~ actual == 0
    /\ 0 < expected_ppg avg t actual
    /\ current_ppg t actual < expected_ppg avg t actual * (1 # 2).
Proof.
  unfold barcode_flag. destruct (tx_actual_weight t) as [actual|]; [|done].
  destruct (Qeq_bool actual 0) eqn:Hz; [done|].
  intros H. apply andb_prop in H as [H1 H2].
  apply NumFacts.ltb_lt in H1, H2. exists actual.
  repeat split; try done. by apply Qeq_bool_neq.
Qed.

(** X5.  Every barcode-swap event has a non-zero measured weight, a
    positive expected price per gram and a price per gram below half of
    it, so its [price_ratio] is below 0.5; its SKU has an average in the
    first pass.  A transaction whose SKU has no row with a positive
    expected weight in the frame is compared with its own price per gram
    and is never flagged. *)
Theorem barcode_events_below_half (df : DataFrame) :
  (forall e, In e (detect_barcode_swapping df) ->
     ~ bs_actual_weight e == 0
     /\ 0 < bs_expected_price_per_gram e
     /\ bs_current_price_per_gram e < bs_expected_price_per_gram e * (1 # 2)
     /\ bs_price_ratio e < 1 # 2
     /\ is_Some (avg_price_per_gram df !! bs_sku e)
     /\ exists t, In t df
                  /\ tx_actual_weight t = Some (bs_actual_weight e)
                  /\ bs_sku e = tx_sku t
                  /\ bs_timestamp e = tx_timestamp t
                  /\ bs_current_price_per_gram e
                     = tx_price t / bs_actual_weight e)
  /\ (forall t,
        (forall t' x, In t' df -> tx_sku t' = tx_sku t ->
                      tx_expected_weight t' = Some x -> x <= 0) ->
        avg_price_per_gram df !! tx_sku t = None
        /\ barcode_flag (avg_price_per_gram df) t = false).
Proof.
  assert (Hunknown : forall t,
            avg_price_per_gram df !! tx_sku t = None ->
            barcode_flag (avg_price_per_gram df) t = false).
  { intros t Hnone.
    destruct (barcode_flag _ t) eqn:Hflag; [exfalso|done].
    apply barcode_flag_true in Hflag as (actual & _ & _ & Hpos & Hlt).
    unfold expected_ppg in Hpos, Hlt. rewrite Hnone in Hpos, Hlt.
    simpl in Hpos, Hlt. lra. }
  split.
  - intros e He. rewrite PosFacts.detect_barcode_swapping_filter in He.
    apply MasterFacts.In_fmap in He as (t & -> & Ht).
    apply list_elem_of_In, list_elem_of_filter in Ht as [Hflag Ht].
    apply list_elem_of_In in Ht.
    pose proof Hflag as Hflag'.
    apply barcode_flag_true in Hflag as (actual & Ha & Hnz & Hpos & Hlt).
    unfold barcode_event_of. simpl. rewrite Ha. simpl.
    repeat split; try done.
    + apply Qlt_shift_div_r; [done|]. lra.
    + destruct (avg_price_per_gram df !! tx_sku t) eqn:Havg; [done|].
      apply Hunknown in Havg. congruence.
    + by exists t.
  - intros t Hno. apply sku_ppg_nil_iff in Hno.
    assert (Hnone : avg_price_per_gram df !! tx_sku t = None)
      by (by rewrite PosFacts.avg_price_per_gram_lookup, Hno).
    split; [done|]. by apply Hunknown.
Qed.

Lemma barcode_events_below_half_witness :
  length (detect_barcode_swapping Scenario.heavy_item) = 1%nat
  /\ List.Forall (fun e => bs_price_ratio e < 1 # 2)
                 (detect_barcode_swapping Scenario.heavy_item).
Proof.
  split; [vm_compute; reflexivity|].
  apply List.Forall_forall. intros e He.
  apply (proj1 (barcode_events_below_half _) e He).
Defined.

(** *** The customer-behaviour analyzer *)

Lemma weight_diff_above_detect threshold (g : DataFrame) :
  length (filter (fun t => weight_diff_above threshold t = true) g)
  = length (detect_weight_discrepancies threshold g).
Proof.
  unfold detect_weight_discrepancies.
  induction g as [|t g IH]; simpl; [done|].
  rewrite filter_cons, length_app, <- IH.
  unfold weight_diff_above, weight_discrepancy_at.
  destruct (tx_actual_weight t) as [actual|]; simpl.
  - destruct (tx_expected_weight t) as [expected|]; simpl.
    + destruct (Num.ltb 0 expected); simpl.
      * destruct (Num.ltb threshold _); by simpl.
      * done.
    + done.
  - done.
Qed.

Lemma sorted_group_count (P : transaction -> Prop)
    `{forall t, Decision (P t)} df customer_id :
  length (filter P (sorted_group df customer_id))
  = length (filter P (customer_group df customer_id)).
Proof.
  unfold sorted_group. apply Permutation_length.
  by rewrite sort_by_Permutation.
Qed.

Lemma sorted_group_length df customer_id :
  length (sorted_group df customer_id)
  = length (customer_group df customer_id).
Proof. apply sort_by_length. Qed.

Lemma rate_above_half (count total : nat) :
  (0 < total)%nat ->
  (Num.ltb (1 # 2) (rate count total) = true <-> (total < 2 * count)%nat).
Proof.
  intros Hpos. rewrite NumFacts.ltb_lt. unfold rate.
  assert (Ht : 0 < inject_Z (Z.of_nat total))
    by (change (inject_Z 0 < inject_Z (Z.of_nat total));
        rewrite <- Zlt_Qlt; lia).
  split.
  - intros H. destruct (Nat.lt_ge_cases total (2 * count)) as [|Hge]; [done|].
    exfalso. apply (Qlt_not_le _ _ H). apply Qle_shift_div_r; [done|].
    unfold Qle, Qmult, inject_Z. simpl. lia.
  - intros H. apply Qlt_shift_div_l; [done|].
    unfold Qlt, Qmult, inject_Z. simpl. lia.
Qed.

Lemma frequent_check_In customer_id g e :
  In e (frequent_check customer_id g) <->
  (4 <= length g)%nat
  /\ (length g < 2 * length (detect_weight_discrepancies 15 g))%nat
  /\ e = {| fc_customer_id := customer_id;
            fc_total_transactions := length g;
            fc_discrepancy_count :=
              length (detect_weight_discrepancies 15 g);
            fc_discrepancy_rate :=
              rate (length (detect_weight_discrepancies 15 g)) (length g);
            fc_total_value := Num.sum (tx_price <$> g) |}.
Proof.
  unfold frequent_check. rewrite weight_diff_above_detect.
  destruct (3 <? length g)%nat eqn:Hlen; simpl.
  - apply Nat.ltb_lt in Hlen.
    destruct (Num.ltb (1 # 2) _) eqn:Hrate.
    + apply rate_above_half in Hrate; [|lia]. simpl. split.
      * intros [<-|[]]. repeat split; [lia|done].
      * intros (_ & _ & ->). by left.
    + split; [done|]. intros (_ & H & _).
      apply rate_above_half in H; [|lia]. congruence.
  - apply Nat.ltb_ge in Hlen. split; [done|]. lia.
Qed.

Lemma customer_group_nonempty_id df customer_id :
  customer_group df customer_id <> [] -> In customer_id (customer_ids df).
Proof.
  intros Hne. apply PosFacts.customer_ids_In.
  destruct (customer_group df customer_id) as [|t g] eqn:Hg; [done|].
  assert (Ht : t ∈ customer_group df customer_id)
    by (rewrite Hg; apply list_elem_of_here).
  unfold customer_group in Ht. apply list_elem_of_filter in Ht as [Hid Ht].
  exists t. by rewrite <- list_elem_of_In.
Qed.

Lemma detect_weight_sorted_group_length threshold df customer_id :
  length (detect_weight_discrepancies threshold (sorted_group df customer_id))
  = length (detect_weight_discrepancies threshold
              (customer_group df customer_id)).
Proof.
  rewrite <- !weight_diff_above_detect. apply sorted_group_count.
Qed.

(** X6.  A customer is listed among the frequent-discrepancy customers
    exactly when the frame holds at least 4 of the customer's
    transactions and more than half of them are events of the weight
    detector at tolerance 15; the entry carries these two counts. *)
Theorem frequent_customer_iff (df : DataFrame) :
  (forall e, In e (frequent_discrepancy_customers df) ->
     fc_total_transactions e
       = length (customer_group df (fc_customer_id e))
     /\ fc_discrepancy_count e
        = length (detect_weight_discrepancies 15
                    (customer_group df (fc_customer_id e)))
     /\ (4 <= fc_total_transactions e)%nat
     /\ (fc_total_transactions e < 2 * fc_discrepancy_count e)%nat)
  /\ (forall customer_id,
        (exists e, In e (frequent_discrepancy_customers df)
                   /\ fc_customer_id e = customer_id)
        <-> (4 <= length (customer_group df customer_id))%nat
            /\ (length (customer_group df customer_id)
                < 2 * length (detect_weight_discrepancies 15
                                (customer_group df customer_id)))%nat).
Proof.
  assert (Hin : forall e, In e (frequent_discrepancy_customers df) ->
     fc_total_transactions e
       = length (customer_group df (fc_customer_id e))
     /\ fc_discrepancy_count e
        = length (detect_weight_discrepancies 15
                    (customer_group df (fc_customer_id e)))
     /\ (4 <= fc_total_transactions e)%nat
     /\ (fc_total_transactions e < 2 * fc_discrepancy_count e)%nat).
  { intros e He. apply in_flat_map in He as (customer_id & _ & He).
    apply frequent_check_In in He as (H4 & Hhalf & ->). simpl.
    rewrite detect_weight_sorted_group_length, sorted_group_length in *.
    done. }
  split; [exact Hin|].
  intros customer_id. split.
  - intros (e & He & <-). destruct (Hin e He) as (<- & <- & H4 & Hhalf).
    done.
  - intros [H4 Hhalf]. eexists. split.
    + apply in_flat_map. exists customer_id. split.
      * apply customer_group_nonempty_id.
        destruct (customer_group df customer_id); [simpl in H4; lia|done].
      * apply frequent_check_In.
        rewrite detect_weight_sorted_group_length, sorted_group_length.
        done.
    + done.
Qed.

Lemma frequent_customer_iff_witness :
  exists e, In e (frequent_discrepancy_customers Sample.four_heavy)
            /\ fc_customer_id e = "C001".
Proof.
  apply (proj2 (proj2 (frequent_customer_iff Sample.four_heavy) "C001")).
  vm_compute. split; lia.
Defined.

(** X7.  Every high-value suspicious transaction is a transaction of the
    frame priced above 500 whose weight difference is above 25%, and the
    weight detector at its default tolerance reports the same transaction;
    conversely every weight-detector event with a price above 500 and a
    difference above 25% is listed. *)
Theorem high_value_are_weight_events (df : DataFrame) :
  (forall e, In e (high_value_suspicious_transactions df) ->
     500 < hv_price e
     /\ 25 < hv_weight_discrepancy_pct e
     /\ exists w,
          In w (detect_weight_discrepancies default_tolerance df)
          /\ wd_timestamp w = hv_timestamp e
          /\ wd_customer_id w = hv_customer_id e
          /\ wd_station_id w = hv_station_id e
          /\ wd_sku w = hv_sku e
          /\ wd_price w = hv_price e
          /\ wd_weight_difference_pct w = hv_weight_discrepancy_pct e)
  /\ (forall w, In w (detect_weight_discrepancies default_tolerance df) ->
        500 < wd_price w -> 25 < wd_weight_difference_pct w ->
        exists e,
          In e (high_value_suspicious_transactions df)
          /\ hv_timestamp e = wd_timestamp w
          /\ hv_customer_id e = wd_customer_id w
          /\ hv_sku e = wd_sku w
          /\ hv_weight_discrepancy_pct e = wd_weight_difference_pct w).
Proof.
  split.
  - intros e He. apply in_flat_map in He as (customer_id & _ & He).
    apply in_flat_map in He as (t & Ht & He).
    apply sorted_group_In in Ht as [Ht Hid].
    unfold high_value_at in He.
    destruct (Num.ltb 500 (tx_price t)) eqn:Hprice; [|done].
    destruct (tx_actual_weight t) as [actual|] eqn:Ha; [|done].
    destruct (tx_expected_weight t) as [expected|] eqn:Hx; [|done].
    destruct (Num.ltb 0 expected) eqn:Hpos; [|done].
    destruct (Num.ltb 25 _) eqn:Hpct; [|done].
    destruct He as [<-|[]]. simpl.
    apply NumFacts.ltb_lt in Hprice, Hpos, Hpct.
    repeat split; try done.
    eexists. split.
    + apply in_flat_map. exists t. split; [done|].
      apply weight_discrepancy_at_In. exists actual, expected.
      repeat split; try done. unfold default_tolerance. lra.
    + by simpl.
  - intros w Hw Hprice Hpct. apply in_flat_map in Hw as (t & Ht & Hw).
    apply weight_discrepancy_at_In in Hw
      as (actual & expected & Ha & Hx & Hpos & Htol & ->).
    simpl in *. eexists. split.
    + apply in_flat_map. exists (tx_customer_id t). split.
      * apply PosFacts.customer_ids_In. by exists t.
      * apply in_flat_map. exists t. split; [by apply sorted_group_In|].
        unfold high_value_at. rewrite Ha, Hx.
        apply NumFacts.ltb_lt in Hprice, Hpos, Hpct.
        rewrite Hprice, Hpos, Hpct. by left.
    + by simpl.
Qed.

Lemma high_value_are_weight_events_witness :
  length (high_value_suspicious_transactions Sample.four_heavy) = 4%nat
  /\ List.Forall (fun e => 500 < hv_price e)
                 (high_value_suspicious_transactions Sample.four_heavy).
Proof.
  split; [vm_compute; reflexivity|].
  apply List.Forall_forall. intros e He.
  apply (proj1 (high_value_are_weight_events Sample.four_heavy) e He).
Defined.

(** *** Rapid sessions *)














(** *** One entry per customer *)

Lemma flat_map_keyed_sublist {A B : Type} (key : B -> A) (f : A -> list B)
    (ids : list A) :
  (forall a b, In b (f a) -> key b = a) ->
  (forall a, (length (f a) <= 1)%nat) ->
  sublist (key <$> flat_map f ids) ids.
Proof.
  intros Hkey Hone. induction ids as [|a ids IH]; simpl; [done|].
  rewrite fmap_app. specialize (Hkey a). specialize (Hone a).
  destruct (f a) as [|b [|b' rest]]; simpl in *.
  - by apply sublist_cons.
  - rewrite (Hkey b) by (by left). by apply sublist_skip.
  - lia.
Qed.

Lemma customer_ids_NoDup (df : DataFrame) : NoDup (customer_ids df).
Proof.
  unfold customer_ids. rewrite sort_by_Permutation. apply NoDup_remove_dups.
Qed.

Lemma frequent_check_length customer_id g :
  (length (frequent_check customer_id g) <= 1)%nat.
Proof.
  unfold frequent_check. destruct (_ && _); simpl; lia.
Qed.

Lemma rapid_check_length customer_id g :
  (length (rapid_check customer_id g) <= 1)%nat.
Proof.
  unfold rapid_check. destruct (1 <? length g)%nat; [|simpl; lia].
  destruct (_ && _); simpl; lia.
Qed.

(** X9.  The analyzer walks the customers in ascending order of their id
    and lists a customer at most once among the frequent-discrepancy
    customers and at most once among the rapid-transaction customers:
    the ids of both lists are sub-sequences of the sorted, duplicate-free
    list of the frame's customer ids. *)
Theorem one_entry_per_customer (df : DataFrame) :
  Sorted (key_le String.leb id) (customer_ids df)
  /\ NoDup (customer_ids df)
  /\ sublist (fc_customer_id <$> frequent_discrepancy_customers df)
             (customer_ids df)
  /\ sublist (rc_customer_id <$> rapid_transaction_customers df)
             (customer_ids df)
  /\ NoDup (fc_customer_id <$> frequent_discrepancy_customers df)
  /\ NoDup (rc_customer_id <$> rapid_transaction_customers df).
Proof.
  assert (Hf : sublist (fc_customer_id <$> frequent_discrepancy_customers df)
                       (customer_ids df)).
  { apply flat_map_keyed_sublist.
    - intros a b Hb. by apply frequent_check_In in Hb as (_ & _ & ->).
    - intros a. apply frequent_check_length. }
  assert (Hr : sublist (rc_customer_id <$> rapid_transaction_customers df)
                       (customer_ids df)).
  { apply flat_map_keyed_sublist.
    - intros a b Hb. by apply PosFacts.rapid_check_customer in Hb.
    - intros a. apply rapid_check_length. }
  pose proof (customer_ids_NoDup df) as Hnd.
  repeat split; try done.
  - apply sort_by_Sorted, String.leb_total.
  - by eapply sublist_NoDup.
  - by eapply sublist_NoDup.
Qed.

(** *** The order of the rows *)








End PosMore.

(** ** Recognition and queue detectors, and what the assembler keeps of them *)

Module DetectorFacts.
Import Recognition Queue.

Lemma recognition_final_low_confidence_at threshold record :
  flat_map Master.recognition_final (low_confidence_at threshold record)
  = if Num.ltb (re_accuracy record) threshold
       && Num.ltb (re_accuracy record) (1 # 2)
    then [Pipeline.scanner_avoidance_of record] else [].
Proof.
  unfold low_confidence_at.
  destruct (Num.ltb (re_accuracy record) threshold); [|done].
  simpl. unfold Master.recognition_final. simpl.
  by destruct (Num.ltb (re_accuracy record) (1 # 2)).
Qed.

Lemma flat_map_flat_map {A B C : Type} (f : A -> list B) (g : B -> list C)
    (l : list A) :
  flat_map g (flat_map f l) = flat_map (fun x => flat_map g (f x)) l.
Proof.
  induction l as [|x l IH]; simpl; [done|]. by rewrite flat_map_app, IH.
Qed.

Lemma flat_map_if_filter {A B : Type} (c : A -> bool) (f : A -> B)
    (l : list A) :
  flat_map (fun x => if c x then [f x] else []) l
  = f <$> filter (fun x => c x = true) l.
Proof.
  induction l as [|x l IH]; simpl; [done|].
  rewrite filter_cons, IH. destruct (c x) eqn:E.
  - by rewrite decide_True.
  - by rewrite decide_False by (by intros ?).
Qed.

(** X10.  Composition of the low-confidence detector with the assembler:
    the SCANNER_AVOIDANCE events of the final output are exactly the
    recognition records whose accuracy is below the detector's threshold
    and below 0.5, in input order; with a threshold of at least 0.5 (the
    report generator uses 0.7) these are the records below 0.5, so a
    record between 0.5 and the threshold yields no final event of its
    own. *)
Theorem scanner_avoidance_finals (threshold : Q)
    (recognition_data : list recognition_event) :
  flat_map Master.recognition_final
    (detect_low_confidence_predictions threshold recognition_data)
  = Pipeline.scanner_avoidance_of
      <$> filter (fun r => Num.ltb (re_accuracy r) threshold
                           && Num.ltb (re_accuracy r) (1 # 2) = true)
                 recognition_data
  /\ (1 # 2 <= threshold ->
      flat_map Master.recognition_final
        (detect_low_confidence_predictions threshold recognition_data)
      = Pipeline.scanner_avoidance_of
          <$> filter (fun r => Num.ltb (re_accuracy r) (1 # 2) = true)
                     recognition_data)
  /\ (forall r : all_reports,
        recognition r
        = Some (Pipeline.recognition_report_of recognition_data) ->
        flat_map Master.recognition_final (Master.recognition_events r)
        = Pipeline.scanner_avoidance_of
            <$> filter (fun r => Num.ltb (re_accuracy r) (1 # 2) = true)
                       recognition_data).
Proof.
  assert (Heq : forall th,
    flat_map Master.recognition_final
      (detect_low_confidence_predictions th recognition_data)
    = Pipeline.scanner_avoidance_of
        <$> filter (fun r => Num.ltb (re_accuracy r) th
                             && Num.ltb (re_accuracy r) (1 # 2) = true)
                   recognition_data).
  { intros th. unfold detect_low_confidence_predictions.
    rewrite flat_map_flat_map, <- flat_map_if_filter.
    apply InventoryMore.flat_map_ext_In. intros record _.
    apply recognition_final_low_confidence_at. }
  assert (Hhalf : forall th, 1 # 2 <= th ->
    flat_map Master.recognition_final
      (detect_low_confidence_predictions th recognition_data)
    = Pipeline.scanner_avoidance_of
        <$> filter (fun r => Num.ltb (re_accuracy r) (1 # 2) = true)
                   recognition_data).
  { intros th Hth. rewrite Heq. f_equal. apply list_filter_iff.
    intros record. split.
    - intros H. by apply andb_prop in H as [_ H].
    - intros H. rewrite H, andb_true_r.
      apply NumFacts.ltb_lt in H. apply NumFacts.ltb_lt. lra. }
  split; [apply Heq|]. split; [apply Hhalf|].
  intros r Hr. unfold Master.recognition_events. rewrite Hr. simpl.
  apply Hhalf. discriminate.
Qed.

Lemma scanner_avoidance_finals_witness :
  fe_timestamp
    <$> flat_map Master.recognition_final
          (detect_low_confidence_predictions (7 # 10) Sample.recognition_data)
  = ["2025-08-13T16:00:00"].
Proof.
  rewrite (proj1 (proj2 (scanner_avoidance_finals (7 # 10)
                           Sample.recognition_data))
             ltac:(discriminate)).
  vm_compute. reflexivity.
Defined.

Lemma queue_final_dwell_anomaly_at high low record :
  flat_map Master.queue_final (dwell_anomaly_at high low record)
  = if negb (qo_customer_count record =? 0)%Z
       && Num.ltb high (qo_average_dwell_time record)
       && Num.ltb 600 (qo_average_dwell_time record)
    then [Pipeline.checkout_difficulty_of record] else [].
Proof.
  unfold dwell_anomaly_at.
  destruct (qo_customer_count record =? 0)%Z; [done|].
  destruct (Num.ltb high (qo_average_dwell_time record)); simpl.
  - unfold Master.queue_final. simpl.
    by destruct (Num.ltb 600 (qo_average_dwell_time record)).
  - by destruct (_ && _).
Qed.

(** X11.  Composition of the dwell-time detector with the assembler: the
    CHECKOUT_DIFFICULTY events of the final output are exactly the queue
    observations with a non-zero customer count whose average dwell time
    is above the high threshold and above 600 seconds, in input order,
    described as "Unusually high dwell time: ...s"; an observation of an
    empty station, a dwell time of at most 600 seconds and every
    LOW_DWELL_TIME anomaly yield no final event of their own. *)
Theorem checkout_difficulty_finals (high low : Q)
    (queue_data : list queue_observation) :
  flat_map Master.queue_final (detect_dwell_anomalies high low queue_data)
  = Pipeline.checkout_difficulty_of
      <$> filter (fun r => negb (qo_customer_count r =? 0)%Z
                           && Num.ltb high (qo_average_dwell_time r)
                           && Num.ltb 600 (qo_average_dwell_time r) = true)
                 queue_data
  /\ (high <= 600 ->
      flat_map Master.queue_final (detect_dwell_anomalies high low queue_data)
      = Pipeline.checkout_difficulty_of
          <$> filter (fun r => negb (qo_customer_count r =? 0)%Z
                               && Num.ltb 600 (qo_average_dwell_time r)
                               = true)
                     queue_data)
  /\ (forall a, In a (detect_dwell_anomalies high low queue_data) ->
        da_anomaly_type a = "LOW_DWELL_TIME" -> Master.queue_final a = [])
  /\ (forall r : all_reports,
        queue r = Some (Pipeline.queue_report_of queue_data) ->
        flat_map Master.queue_final (Master.queue_events r)
        = Pipeline.checkout_difficulty_of
            <$> filter (fun r => negb (qo_customer_count r =? 0)%Z
                                 && Num.ltb 600 (qo_average_dwell_time r)
                                 = true)
                       queue_data).
Proof.
  assert (Heq : forall high low,
    flat_map Master.queue_final (detect_dwell_anomalies high low queue_data)
    = Pipeline.checkout_difficulty_of
        <$> filter (fun r => negb (qo_customer_count r =? 0)%Z
                             && Num.ltb high (qo_average_dwell_time r)
                             && Num.ltb 600 (qo_average_dwell_time r) = true)
                   queue_data).
  { intros h l. unfold detect_dwell_anomalies.
    rewrite flat_map_flat_map, <- flat_map_if_filter.
    apply InventoryMore.flat_map_ext_In. intros record _.
    apply queue_final_dwell_anomaly_at. }
  assert (H600 : forall high low, high <= 600 ->
    flat_map Master.queue_final (detect_dwell_anomalies high low queue_data)
    = Pipeline.checkout_difficulty_of
        <$> filter (fun r => negb (qo_customer_count r =? 0)%Z
                             && Num.ltb 600 (qo_average_dwell_time r)
                             = true)
                   queue_data).
  { intros h l Hh. rewrite Heq. f_equal. apply list_filter_iff.
    intros record. split.
    - intros H. apply andb_prop in H as [H H6]. apply andb_prop in H as [H _].
      by rewrite H, H6.
    - intros H. apply andb_prop in H as [H H6]. rewrite H, H6, andb_true_r.
      simpl. apply NumFacts.ltb_lt in H6. apply NumFacts.ltb_lt. lra. }
  split; [apply Heq|]. split; [apply H600|]. split.
  - intros a Ha Hty. apply in_flat_map in Ha as (record & _ & Ha).
    unfold dwell_anomaly_at in Ha.
    destruct (qo_customer_count record =? 0)%Z; [done|].
    destruct (Num.ltb high _).
    + destruct Ha as [<-|[]]. done.
    + destruct (_ && _); [|done]. by destruct Ha as [<-|[]].
  - intros r Hr. unfold Master.queue_events. rewrite Hr. simpl.
    apply H600. discriminate.
Qed.

Lemma checkout_difficulty_finals_witness :
  (fun e => (fe_timestamp e, fe_description e))
    <$> flat_map Master.queue_final
          (detect_dwell_anomalies 300 10 Sample.queue_data)
  = [("2025-08-13T16:00:00", "Unusually high dwell time: 700.0s")].
Proof.
  rewrite (proj1 (proj2 (checkout_difficulty_finals 300 10
                           Sample.queue_data))
             ltac:(discriminate)).
  vm_compute. reflexivity.
Defined.

(** *** The scanner-avoidance detector *)










End DetectorFacts.

(** ** The correlation engine and the assembler, continued *)

Module MasterMore.
Import Master.

Section SecondPass.
Variable fromisoformat : string -> option Z.
Variable time_window : Q.

Lemma related_pos_issues (r : all_reports) (q : dwell_anomaly) (tq : Z) :
  fromisoformat (da_timestamp q) = Some tq ->
  Forall (fun e => is_Some (fromisoformat (wd_timestamp e))) (pos_events r) ->
  Forall (fun e => is_Some (fromisoformat (lc_timestamp e)))
         (recognition_events r) ->
  (rel_pos ← for_each
     (related_pos fromisoformat time_window (da_station_id q) tq)
     (pos_events r);
   rel_recog ← for_each
     (related_recog fromisoformat time_window (da_station_id q) tq)
     (recognition_events r);
   Some (rel_pos ++ rel_recog))
  = Some (Related.related_issues fromisoformat time_window r q).
Proof.
  intros Hq Hpos Hrecog. unfold Related.related_issues.
  rewrite (MasterFacts.instant_Some _ _ _ Hq).
  match goal with
  | |- _ = Some (?A ++ ?B) =>
    assert (H1 : for_each
              (related_pos fromisoformat time_window (da_station_id q) tq)
              (pos_events r) = Some A);
    [|assert (H2 : for_each
                (related_recog fromisoformat time_window (da_station_id q) tq)
                (recognition_events r) = Some B)]
  end.
  - apply MasterFacts.for_each_flat_map.
    eapply Forall_impl; [exact Hpos|]. intros p [tp Hp].
    unfold related_pos. rewrite Hp. simpl.
    by rewrite (MasterFacts.instant_Some _ _ _ Hp).
  - apply MasterFacts.for_each_flat_map.
    eapply Forall_impl; [exact Hrecog|]. intros c [tc Hc].
    unfold related_recog. rewrite Hc. simpl.
    by rewrite (MasterFacts.instant_Some _ _ _ Hc).
  - by rewrite H1, H2.
Qed.

Lemma correlate_queue_difficulty (r : all_reports) (q : dwell_anomaly) :
  is_Some (fromisoformat (da_timestamp q)) ->
  Forall (fun e => is_Some (fromisoformat (wd_timestamp e))) (pos_events r) ->
  Forall (fun e => is_Some (fromisoformat (lc_timestamp e)))
         (recognition_events r) ->
  correlate_queue fromisoformat time_window (pos_events r)
                  (recognition_events r) q
  = Some (Related.difficulty_of fromisoformat time_window r q).
Proof.
  intros [tq Hq] Hpos Hrecog.
  pose proof (related_pos_issues r q tq Hq Hpos Hrecog) as Hrel.
  unfold correlate_queue, Related.difficulty_of.
  destruct (String.eqb (da_anomaly_type q) "HIGH_DWELL_TIME"); [|done].
  rewrite Hq. simpl.
  destruct (for_each (related_pos _ _ _ _) _) as [rel_pos|]; [|done].
  simpl in *.
  destruct (for_each (related_recog _ _ _ _) _) as [rel_recog|]; [|done].
  simpl in *. injection Hrel as ->. done.
Qed.

Lemma correlate_events_comprehension (r : all_reports) :
  timestamps_parse fromisoformat r ->
  correlate_events fromisoformat time_window r
  = Some (Spec.matching_pairs fromisoformat time_window r
          ++ Related.difficulty_events fromisoformat time_window r).
Proof.
  intros (Hpos & Hrecog & Hqueue). unfold correlate_events.
  assert (H1 : for_each
            (correlate_pos fromisoformat time_window (recognition_events r))
            (pos_events r)
          = Some (Spec.matching_pairs fromisoformat time_window r)).
  { apply MasterFacts.for_each_flat_map.
    eapply Forall_impl; [exact Hpos|]. intros p Hp.
    by apply MasterFacts.correlate_pos_pairs. }
  assert (H2 : for_each
            (correlate_queue fromisoformat time_window (pos_events r)
                             (recognition_events r))
            (queue_events r)
          = Some (Related.difficulty_events fromisoformat time_window r)).
  { apply MasterFacts.for_each_flat_map.
    eapply Forall_impl; [exact Hqueue|]. intros q Hq.
    by apply correlate_queue_difficulty. }
  by rewrite H1, H2.
Qed.

End SecondPass.

(** X13.  When the candidate timestamps parse, the engine returns the
    fraud events of the first pass followed by the events of the second
    pass: one CUSTOMER_DIFFICULTY_WITH_FRAUD event for each
    HIGH_DWELL_TIME anomaly that has a weight discrepancy or a
    low-confidence recognition at the same station within the window,
    with all of them collected in its ['related_issues'] (weight
    discrepancies first); a queue anomaly yields at most one event however
    many issues relate to it. *)
Theorem correlate_events_two_passes (fromisoformat : string -> option Z)
    (time_window : Q) (r : all_reports) :
  timestamps_parse fromisoformat r ->
  correlate_events fromisoformat time_window r
  = Some (Spec.matching_pairs fromisoformat time_window r
          ++ Related.difficulty_events fromisoformat time_window r)
  /\ (forall e,
        In e (Related.difficulty_events fromisoformat time_window r)
        <-> exists q,
              In q (queue_events r)
              /\ da_anomaly_type q = "HIGH_DWELL_TIME"
              /\ Related.related_issues fromisoformat time_window r q <> []
              /\ e = customer_difficulty q
                       (Related.related_issues fromisoformat time_window r q))
  /\ (length (Related.difficulty_events fromisoformat time_window r)
      <= length (queue_events r))%nat.
Proof.
  intros Hparse. split; [by apply correlate_events_comprehension|]. split.
  - intros e. unfold Related.difficulty_events. rewrite in_flat_map.
    split.
    + intros (q & Hq & He). exists q. unfold Related.difficulty_of in He.
      destruct (String.eqb_spec (da_anomaly_type q) "HIGH_DWELL_TIME")
        as [Hty|]; [|done].
      destruct (Related.related_issues _ _ r q) as [|i issues]; [done|].
      destruct He as [<-|[]]. done.
    + intros (q & Hq & Hty & Hne & ->). exists q. split; [done|].
      unfold Related.difficulty_of. rewrite Hty. simpl.
      destruct (Related.related_issues _ _ r q); [done|by left].
  - unfold Related.difficulty_events.
    induction (queue_events r) as [|q qs IH]; simpl; [done|].
    rewrite length_app.
    assert (length (Related.difficulty_of fromisoformat time_window r q)
            <= 1)%nat; [|lia].
    unfold Related.difficulty_of.
    destruct (String.eqb _ _); [|simpl; lia].
    destruct (Related.related_issues _ _ r q); simpl; lia.
Qed.

Lemma correlate_events_two_passes_witness :
  (ce_event_type <$> Related.difficulty_events Iso.iso_micros
                       default_time_window Scenario.reports_full)
  = ["CUSTOMER_DIFFICULTY_WITH_FRAUD"]
  /\ correlate_events Iso.iso_micros default_time_window Scenario.reports_full
     = Some (Spec.matching_pairs Iso.iso_micros default_time_window
               Scenario.reports_full
             ++ Related.difficulty_events Iso.iso_micros default_time_window
                  Scenario.reports_full).
Proof.
  split; [vm_compute; reflexivity|].
  apply (proj1 (correlate_events_two_passes Iso.iso_micros
                  default_time_window Scenario.reports_full
                  ltac:(repeat split; repeat constructor;
                        vm_compute; by eexists))).
Defined.

(** *** The time window *)

Lemma within_mono (w w' : Q) (t1 t2 : Z) :
  w <= w' -> within w t1 t2 = true -> within w' t1 t2 = true.
Proof.
  intros Hle H. apply MasterFacts.within_iff in H.
  apply MasterFacts.within_iff. lra.
Qed.

Lemma within_negative (w : Q) (t1 t2 : Z) : w < 0 -> within w t1 t2 = false.
Proof.
  intros Hneg. destruct (within w t1 t2) eqn:H; [exfalso|done].
  apply MasterFacts.within_iff in H.
  pose proof (Qabs_nonneg (total_seconds (t1 - t2))). lra.
Qed.

Lemma flat_map_sublist {A B : Type} (f g : A -> list B) (l : list A) :
  (forall x, sublist (f x) (g x)) -> sublist (flat_map f l) (flat_map g l).
Proof.
  intros H. induction l as [|x l IH]; simpl; [done|]. by apply sublist_app.
Qed.

(** X14.  The window only admits: with a negative window nothing
    correlates and the engine returns the empty list, and enlarging the
    window keeps every fraud event of the first pass, in order. *)
Theorem time_window_monotone (fromisoformat : string -> option Z)
    (r : all_reports) :
  (forall time_window,
     time_window < 0 -> timestamps_parse fromisoformat r ->
     correlate_events fromisoformat time_window r = Some [])
  /\ (forall w w',
        w <= w' ->
        sublist (Spec.matching_pairs fromisoformat w r)
                (Spec.matching_pairs fromisoformat w' r)).
Proof.
  split.
  - intros time_window Hneg Hparse.
    rewrite correlate_events_comprehension by done.
    replace (Spec.matching_pairs fromisoformat time_window r)
      with (@nil correlated_event).
    + replace (Related.difficulty_events fromisoformat time_window r)
        with (@nil correlated_event); [done|].
      symmetry. apply PosMore.flat_map_nil. intros q _.
      unfold Related.difficulty_of.
      destruct (String.eqb _ _); [|done].
      replace (Related.related_issues fromisoformat time_window r q)
        with (@nil pyval); [done|].
      symmetry. unfold Related.related_issues.
      rewrite !PosMore.flat_map_nil; [done| |].
      * intros c _. by rewrite within_negative, andb_false_r.
      * intros p _. by rewrite within_negative, andb_false_r.
    + symmetry. apply PosMore.flat_map_nil. intros p _.
      apply PosMore.flat_map_nil. intros c _. unfold Spec.pair_events.
      by rewrite within_negative, andb_false_r.
  - intros w w' Hle. apply flat_map_sublist. intros p.
    apply flat_map_sublist. intros c. unfold Spec.pair_events.
    destruct (same_station _ _); simpl; [|done].
    destruct (within w _ _) eqn:Hw; [|apply sublist_nil_l].
    by rewrite (within_mono w w' _ _ Hle Hw).
Qed.

Lemma time_window_monotone_witness :
  correlate_events Iso.iso_micros (-1) Scenario.reports_full = Some []
  /\ sublist (Spec.matching_pairs Iso.iso_micros 60 Scenario.reports_full)
             (Spec.matching_pairs Iso.iso_micros 300 Scenario.reports_full).
Proof.
  split.
  - apply (proj1 (time_window_monotone Iso.iso_micros Scenario.reports_full)
             (-1) ltac:(reflexivity)
             ltac:(repeat split; repeat constructor; vm_compute; by eexists)).
  - apply (proj2 (time_window_monotone Iso.iso_micros Scenario.reports_full)
             60 300 ltac:(discriminate)).
Defined.

(** *** What the assembler does with the events *)

Lemma correlated_final_singleton evs finals :
  for_each correlated_final evs = Some finals ->
  Forall2 (fun ce fe => correlated_final ce = Some [fe]) evs finals.
Proof.
  revert finals. induction evs as [|ce evs IH]; intros finals H.
  - simpl in H. injection H as <-. constructor.
  - simpl in H. destruct (correlated_final ce) as [ys|] eqn:Hce; [|done].
    simpl in H. destruct (for_each correlated_final evs) as [zs|]; [|done].
    simpl in H. injection H as <-.
    unfold correlated_final in Hce.
    destruct (calculate_severity_score _) as [s|] eqn:Hs; [|done].
    simpl in Hce. injection Hce as <-. simpl.
    constructor; [|by apply IH].
    unfold correlated_final. by rewrite Hs.
Qed.

Lemma leb_refl_string (s : string) : String.leb s s = true.
Proof. by destruct (String.leb_total s s). Qed.

Lemma length_flat_map_if {A B : Type} (c : A -> bool) (f : A -> list B)
    (l : list A) :
  (forall x, length (f x) = if c x then 1%nat else 0%nat) ->
  length (flat_map f l) = length (filter (fun x => c x = true) l).
Proof.
  intros H. induction l as [|x l IH]; simpl; [done|].
  rewrite length_app, IH, filter_cons, H. destruct (c x) eqn:E.
  - by rewrite decide_True.
  - by rewrite decide_False by (by intros ?).
Qed.

(** X15.  The assembler neither drops nor duplicates: its output is a
    permutation of the stream events followed by exactly one final event
    per correlated event, so its length is the number of shrinkage,
    weight and barcode candidates, plus the HIGH low-confidence and HIGH
    dwell candidates, plus the correlated events. *)
Theorem final_events_account (fromisoformat : string -> option Z)
    (time_window : Q) (r : all_reports) (out : list FinalEvent) :
  generate_events_jsonl fromisoformat time_window r = Some out ->
  exists evs finals,
    correlate_events fromisoformat time_window r = Some evs
    /\ Forall2 (fun ce fe => correlated_final ce = Some [fe]) evs finals
    /\ out ≡ₚ stream_events r ++ finals
    /\ length out
       = (length (inventory_events r) + length (pos_events r)
          + length (barcode_events r)
          + length (filter (fun c => String.eqb (lc_severity c) "HIGH" = true)
                           (recognition_events r))
          + length (filter (fun q => String.eqb (da_severity q) "HIGH" = true)
                           (queue_events r))
          + length evs)%nat.
Proof.
  intros Hout.
  apply MasterFacts.generate_events_jsonl_inv in Hout
    as (evs & finals & Hevs & Hfinals & ->).
  apply correlated_final_singleton in Hfinals.
  exists evs, finals. repeat split; try done.
  - apply sort_by_Permutation.
  - rewrite sort_by_length, length_app, (Forall2_length _ _ _ Hfinals).
    unfold stream_events. rewrite !length_app, !length_fmap.
    rewrite (length_flat_map_if
               (fun c => String.eqb (lc_severity c) "HIGH")).
    + rewrite (length_flat_map_if
                 (fun q => String.eqb (da_severity q) "HIGH")); [lia|].
      intros q. unfold queue_final. by destruct (String.eqb _ _).
    + intros c. unfold recognition_final. by destruct (String.eqb _ _).
Qed.

Lemma final_events_account_witness :
  exists out,
    generate_events_jsonl Iso.iso_micros default_time_window
                          Scenario.reports_full = Some out
    /\ length out = 8%nat
    /\ exists evs finals,
         correlate_events Iso.iso_micros default_time_window
                          Scenario.reports_full = Some evs
         /\ Forall2 (fun ce fe => correlated_final ce = Some [fe]) evs finals
         /\ out ≡ₚ stream_events Scenario.reports_full ++ finals.
Proof.
  eexists. split; [vm_compute; reflexivity|]. split; [reflexivity|].
  destruct (final_events_account Iso.iso_micros default_time_window
              Scenario.reports_full _ eq_refl)
    as (evs & finals & H1 & H2 & H3 & _).
  by exists evs, finals.
Defined.

(** X16.  Events with equal timestamps keep the order in which the
    assembler appended them: for every timestamp, the output restricted
    to it is the append list restricted to it (inventory, weight,
    barcode, recognition and queue events in this order, correlated
    events last). *)
Theorem final_events_stable (fromisoformat : string -> option Z)
    (time_window : Q) (r : all_reports) (out : list FinalEvent) :
  generate_events_jsonl fromisoformat time_window r = Some out ->
  exists finals,
    (exists evs,
       correlate_events fromisoformat time_window r = Some evs
       /\ for_each correlated_final evs = Some finals)
    /\ forall timestamp,
         filter (fun e => fe_timestamp e = timestamp) out
         = filter (fun e => fe_timestamp e = timestamp)
                  (stream_events r ++ finals).
Proof.
  intros Hout.
  apply MasterFacts.generate_events_jsonl_inv in Hout
    as (evs & finals & Hevs & Hfinals & ->).
  exists finals. split; [by exists evs|].
  intros timestamp. apply sort_by_stable. apply leb_refl_string.
Qed.

Lemma final_events_stable_witness :
  exists out finals,
    generate_events_jsonl Iso.iso_micros default_time_window
                          Scenario.reports_full = Some out
    /\ forall timestamp,
         filter (fun e => fe_timestamp e = timestamp) out
         = filter (fun e => fe_timestamp e = timestamp)
                  (stream_events Scenario.reports_full ++ finals).
Proof.
  destruct (generate_events_jsonl Iso.iso_micros default_time_window
              Scenario.reports_full) as [out|] eqn:Hout;
    [|by vm_compute in Hout].
  destruct (final_events_stable _ _ _ _ Hout) as (finals & _ & Hst).
  by exists out, finals.
Defined.

(** *** Confidence and severity by event type *)

(** X17.  In the assembler's output the confidence of an event is a
    constant of its event type, one of seven, and lies between 0.5 and
    0.9; inventory events are located at STORE_FLOOR, barcode events are
    always 'high', and scanner-avoidance, checkout-difficulty and both
    kinds of correlated events are always 'medium'. *)
Theorem final_event_table (fromisoformat : string -> option Z)
    (time_window : Q) (r : all_reports) (out : list FinalEvent)
    (e : FinalEvent) :
  generate_events_jsonl fromisoformat time_window r = Some out ->
  In e out ->
  In (fe_event_type e, fe_confidence e) Pipeline.confidence_table
  /\ 1 # 2 <= fe_confidence e <= 9 # 10
  /\ (fe_event_type e = "INVENTORY_SHRINKAGE" ->
      fe_location e = Some "STORE_FLOOR")
  /\ (fe_event_type e = "BARCODE_SWITCHING" -> fe_severity e = "high")
  /\ (In (fe_event_type e)
         ["SCANNER_AVOIDANCE"; "CHECKOUT_DIFFICULTY";
          "CORRELATED_FRAUD_ATTEMPT"; "CUSTOMER_DIFFICULTY_WITH_FRAUD"] ->
      fe_severity e = "medium").
Proof.
  intros Hout He.
  apply MasterFacts.generate_events_jsonl_inv in Hout
    as (evs & finals & Hevs & Hfinals & ->).
  apply sort_by_In, in_app_or in He.
  assert (Hcases :
    (exists s, e = inventory_final s) \/ (exists w, e = weight_final w)
    \/ (exists b, e = barcode_final b)
    \/ (exists c, recognition_final c = [e])
    \/ (exists q, queue_final q = [e])
    \/ (exists p c, correlated_final (fraud_attempt p c) = Some [e]
                    /\ fe_severity e = "medium")
    \/ (exists q issues,
          correlated_final (customer_difficulty q issues) = Some [e]
          /\ fe_severity e = "medium")).
  { destruct He as [He|He].
    - unfold stream_events in He.
      repeat (apply in_app_or in He as [He|He]).
      + apply MasterFacts.In_fmap in He as (s & -> & _). left. by exists s.
      + apply MasterFacts.In_fmap in He as (w & -> & _).
        right; left. by exists w.
      + apply MasterFacts.In_fmap in He as (b & -> & _).
        right; right; left. by exists b.
      + apply in_flat_map in He as (c & _ & He).
        right; right; right; left. exists c.
        unfold recognition_final in *.
        destruct (String.eqb _ _); [|done]. by destruct He as [<-|[]].
      + apply in_flat_map in He as (q & _ & He).
        right; right; right; right; left. exists q.
        unfold queue_final in *.
        destruct (String.eqb _ _); [|done]. by destruct He as [<-|[]].
    - destruct (MasterFacts.for_each_In _ _ _ _ Hfinals He)
        as (ce & ys & Hce & Hys & Hin).
      destruct (MasterFacts.engine_event_facts _ _ _ _ _ Hevs Hce)
        as (Hshape & _ & _ & _ & fe & Hfe & Hsev).
      rewrite Hfe in Hys. injection Hys as <-. destruct Hin as [<-|[]].
      right; right; right; right; right.
      destruct Hshape as [(p & c & ->)|(q & issues & ->)].
      + left. by exists p, c.
      + right. by exists q, issues. }
  destruct Hcases
    as [(s & ->)|[(w & ->)|[(b & ->)|[(c & Hc)|[(q & Hq)|
        [(p & c & Hc & Hsev)|(q & issues & Hq & Hsev)]]]]]].
  - simpl. repeat split; try done; try (by intros [|[|[|[|[]]]]]).
    by left.
  - simpl. repeat split; try done; try (by intros [|[|[|[|[]]]]]).
    by right; left.
  - simpl. repeat split; try done; try (by intros [|[|[|[|[]]]]]).
    by right; right; left.
  - unfold recognition_final in Hc. destruct (String.eqb _ _); [|done].
    injection Hc as <-. simpl. repeat split; try done.
    by right; right; right; left.
  - unfold queue_final in Hq. destruct (String.eqb _ _); [|done].
    injection Hq as <-. simpl. repeat split; try done.
    by right; right; right; right; left.
  - unfold correlated_final in Hc.
    destruct (calculate_severity_score _); [|done].
    simpl in Hc. injection Hc as <-. simpl in *. repeat split; try done.
    by right; right; right; right; right; left.
  - unfold correlated_final in Hq.
    destruct (calculate_severity_score _); [|done].
    simpl in Hq. injection Hq as <-. simpl in *. repeat split; try done.
    by right; right; right; right; right; right; left.
Qed.

Lemma final_event_table_witness :
  exists out,
    generate_events_jsonl Iso.iso_micros default_time_window
                          Scenario.reports_full = Some out
    /\ length out = 8%nat
    /\ List.Forall (fun e => In (fe_event_type e, fe_confidence e)
                                Pipeline.confidence_table) out.
Proof.
  destruct (generate_events_jsonl Iso.iso_micros default_time_window
              Scenario.reports_full) as [out|] eqn:Hout;
    [|by vm_compute in Hout].
  exists out. split; [done|]. split.
  - vm_compute in Hout. by injection Hout as <-.
  - apply List.Forall_forall. intros e He.
    apply (proj1 (final_event_table _ _ _ _ e Hout He)).
Defined.

(** *** The severity scale *)

(** X18.  For an event whose evidence features are in range the score is
    at most 0.3 + 0.25 + 0.1 = 0.65, below the 0.7 that the assembler
    requires for 'high': a correlated event can only be 'medium'. *)
Theorem severity_high_unreachable (event evidence : pydict) :
  Spec.evidence_of event = Some evidence ->
  Spec.features_in_range evidence ->
  exists s,
    calculate_severity_score event = Some s
    /\ 0 <= s /\ s <= 65 # 100
    /\ final_severity s = "medium".
Proof.
  intros Hev Hrange.
  destruct (MasterFacts.score_of_mapping event evidence Hev Hrange)
    as (s & Hs & Heq).
  pose proof (MasterFacts.weight_contribution_range evidence Hrange)
    as [Hw0 Hw1].
  pose proof (MasterFacts.confidence_contribution_range evidence Hrange)
    as [Hc0 Hc1].
  pose proof (MasterFacts.correlation_bonus_range event) as [Hb0 Hb1].
  set (total := Spec.weight_contribution evidence
                + Spec.confidence_contribution evidence
                + Spec.correlation_bonus event) in *.
  assert (Hmin : Num.min total 1 = total)
    by (apply NumFacts.min_l; unfold total; lra).
  rewrite Hmin in Heq.
  assert (Hle : s <= 65 # 100) by (rewrite Heq; unfold total; lra).
  exists s. repeat split; try done.
  - rewrite Heq. unfold total. lra.
  - apply MasterFacts.final_severity_bucket. lra.
Qed.

Lemma severity_high_unreachable_witness :
  exists s, calculate_severity_score (Pipeline.flat_event "X" 1000 0)
            = Some s
            /\ s <= 65 # 100 /\ final_severity s = "medium".
Proof.
  destruct (severity_high_unreachable (Pipeline.flat_event "X" 1000 0)
              [ ("weight_difference_pct", PNum 1000);
                ("confidence", PNum 0) ] eq_refl)
    as (s & Hs & _ & Hle & Hsev).
  - split; intros v Hv; vm_compute in Hv; injection Hv as <-.
    + exists 1000. by split.
    + exists 0. by repeat split.
  - by exists s.
Defined.

(** *** When the engine raises *)



Section Raises.
Variable fromisoformat : string -> option Z.
Variable time_window : Q.





End Raises.



(** *** Shrinkage events in the output *)



End MasterMore.

(** ** RFID coverage *)

Module RfidFacts.
Import Rfid.

Lemma inject_nat_pos (n : nat) : (0 < n)%nat -> 0 < inject_Z (Z.of_nat n).
Proof.
  intros H. change 0 with (inject_Z 0). rewrite <- Zlt_Qlt. lia.
Qed.

Lemma ratio_range (a b : nat) : (a <= b)%nat -> 0 <= ratio a b <= 1.
Proof.
  intros Hle. unfold ratio. destruct (0 <? b)%nat eqn:Hb; [|by split].
  apply Nat.ltb_lt in Hb. pose proof (inject_nat_pos b Hb) as Hpos.
  split.
  - apply Qle_shift_div_l; [done|]. rewrite Qmult_0_l.
    change 0 with (inject_Z 0). rewrite <- Zle_Qle. lia.
  - apply Qle_shift_div_r; [done|]. rewrite Qmult_1_l.
    rewrite <- Zle_Qle. lia.
Qed.

Lemma ratio_complement (n t : nat) :
  (n <= t)%nat -> (0 < t)%nat -> ratio (t - n) t + ratio n t == 1.
Proof.
  intros Hle Hpos. unfold ratio.
  apply Nat.ltb_lt in Hpos as Hb. rewrite Hb.
  pose proof (inject_nat_pos t Hpos) as Ht.
  rewrite Nat2Z.inj_sub by done. unfold Z.sub.
  rewrite inject_Z_plus, inject_Z_opp. field. lra.
Qed.

(** X19.  The coverage statistics are consistent: valid and null
    readings add up to the total, both rates lie in [[0,1]], they add up
    to 1 for non-empty data and are both 0 for empty data. *)
Theorem coverage_statistics_consistent (rfid_data : list rfid_reading) :
  let stats := statistics_of rfid_data in
  cs_total_rfid_readings stats = length rfid_data
  /\ (cs_valid_tag_readings stats + cs_null_readings stats
      = cs_total_rfid_readings stats)%nat
  /\ cs_valid_tag_readings stats
     = length (filter (fun r => is_null r = false) rfid_data)
  /\ 0 <= cs_coverage_rate stats <= 1
  /\ 0 <= cs_missing_tag_rate stats <= 1
  /\ (rfid_data <> [] ->
      cs_coverage_rate stats + cs_missing_tag_rate stats == 1)
  /\ (rfid_data = [] ->
      cs_coverage_rate stats = 0 /\ cs_missing_tag_rate stats = 0).
Proof.
  simpl.
  pose proof (length_filter (fun r => is_null r = true) rfid_data) as Hle.
  repeat split; try (apply ratio_range; lia).
  - lia.
  - induction rfid_data as [|r l IH]; [done|].
    rewrite !filter_cons. simpl in *.
    pose proof (length_filter (fun r => is_null r = true) l) as Hl.
    destruct (is_null r) eqn:Hr.
    + rewrite decide_True, decide_False by done. simpl. rewrite <- IH; lia.
    + rewrite decide_False, decide_True by done. simpl.
      rewrite <- IH by lia. lia.
  - intros Hne. apply ratio_complement; [done|].
    destruct rfid_data; [done|simpl; lia].
  - by subst.
  - by subst.
Qed.

Lemma coverage_statistics_consistent_witness :
  cs_coverage_rate (statistics_of Sample.rfid_data)
  + cs_missing_tag_rate (statistics_of Sample.rfid_data) == 1.
Proof.
  apply (proj1 (proj2 (proj2 (proj2 (proj2 (proj2
           (coverage_statistics_consistent Sample.rfid_data))))))).
  discriminate.
Defined.

(** *** Per-station counters *)

Lemma count_fold (rfid_data : list rfid_reading) :
  forall (m : gmap (option string) station_counts) (st : option string),
    let zero := {| sc_total := 0; sc_valid := 0; sc_null := 0 |} in
    let c0 := default zero (m !! st) in
    let c := default zero (foldl count_step m rfid_data !! st) in
    let rs := filter (fun r => rf_station_id r = st) rfid_data in
    sc_total c = (sc_total c0 + length rs)%nat
    /\ sc_null c
       = (sc_null c0 + length (filter (fun r => is_null r = true) rs))%nat
    /\ sc_valid c
       = (sc_valid c0 + length (filter (fun r => is_null r = false) rs))%nat
    /\ (is_Some (foldl count_step m rfid_data !! st)
        <-> is_Some (m !! st) \/ rs <> []).
Proof.
  induction rfid_data as [|r l IH]; intros m st; simpl.
  - split; [lia|]. split; [lia|]. split; [lia|].
    split; [by left|]. by intros [H|H].
  - destruct (IH (count_step m r) st) as (Ht & Hn & Hv & Hs).
    rewrite Ht, Hn, Hv, Hs. clear IH Ht Hn Hv Hs.
    rewrite filter_cons. unfold count_step.
    destruct (decide (rf_station_id r = st)) as [->|Hne].
    + rewrite lookup_insert_eq. rewrite !filter_cons.
      destruct (is_null r) eqn:Hr; simpl.
      * split; [lia|]. split; [lia|]. split; [lia|].
        split; intros _; [by right|by left].
      * split; [lia|]. split; [lia|]. split; [lia|].
        split; intros _; [by right|by left].
    + rewrite lookup_insert_ne by done. done.
Qed.

Lemma filter_null_split (rs : list rfid_reading) :
  (length (filter (fun r => is_null r = false) rs)
   + length (filter (fun r => is_null r = true) rs))%nat = length rs.
Proof.
  induction rs as [|r rs IH]; [done|]. rewrite !filter_cons.
  destruct (is_null r) eqn:Hr.
  - rewrite decide_False, decide_True by done. simpl. lia.
  - rewrite decide_True, decide_False by done. simpl. lia.
Qed.

(** X20.  The ['station_coverage'] entry of a station counts exactly the
    readings of that station: the total, the null and the valid ones,
    which add up; its rate is valid over total and lies in [[0,1]]; a
    station without a reading has no entry. *)
Theorem station_coverage_counts (rfid_data : list rfid_reading)
    (station : option string) :
  let rs := filter (fun r => rf_station_id r = station) rfid_data in
  (rs = [] ->
   ca_station_coverage (analyze_rfid_coverage rfid_data) !! station = None)
  /\ (rs <> [] ->
      exists entry,
        ca_station_coverage (analyze_rfid_coverage rfid_data) !! station
          = Some entry
        /\ sce_total_readings entry = length rs
        /\ sce_null_readings entry
           = length (filter (fun r => is_null r = true) rs)
        /\ sce_valid_readings entry
           = length (filter (fun r => is_null r = false) rs)
        /\ (sce_valid_readings entry + sce_null_readings entry
            = sce_total_readings entry)%nat
        /\ sce_coverage_rate entry
           = inject_Z (Z.of_nat (sce_valid_readings entry))
             / inject_Z (Z.of_nat (sce_total_readings entry))
        /\ 0 <= sce_coverage_rate entry <= 1).
Proof.
  intros rs. unfold analyze_rfid_coverage, station_data. simpl.
  rewrite lookup_fmap.
  destruct (count_fold rfid_data ∅ station) as (Ht & Hn & Hv & Hs).
  rewrite lookup_empty in *. simpl in *. fold rs in Ht, Hn, Hv, Hs.
  pose proof (filter_null_split rs) as Hsplit.
  split.
  - intros Hrs.
    destruct (foldl count_step ∅ rfid_data !! station) eqn:E; [|done].
    exfalso. assert (is_Some (Some s)) as H by done.
    apply Hs in H as [[? H]|H]; done.
  - intros Hrs.
    destruct (foldl count_step ∅ rfid_data !! station) as [c|] eqn:E.
    + simpl in *. eexists. split; [done|]. unfold entry_of. simpl.
      assert (0 < length rs)%nat by (destruct rs; [done|simpl; lia]).
      assert (Hpos : (0 <? sc_total c)%nat = true)
        by (apply Nat.ltb_lt; lia).
      repeat split; try done; try lia.
      * unfold ratio. by rewrite Hpos.
      * apply ratio_range. lia.
      * apply ratio_range. lia.
    + exfalso. assert (is_Some (@None station_counts)) as [? H]; [|done].
      apply Hs. by right.
Qed.

Lemma station_coverage_counts_witness :
  exists entry,
    ca_station_coverage (analyze_rfid_coverage Sample.rfid_data)
      !! Some "SCC1" = Some entry
    /\ sce_total_readings entry = 7%nat
    /\ sce_null_readings entry = 6%nat.
Proof.
  destruct (proj2 (station_coverage_counts Sample.rfid_data (Some "SCC1"))
              ltac:(vm_compute; discriminate))
    as (entry & He & Ht & Hn & _).
  exists entry. split; [done|]. split.
  - rewrite Ht. vm_compute. reflexivity.
  - rewrite Hn. vm_compute. reflexivity.
Defined.

(** *** Runs of null readings *)

Lemma close_streak_inv (current : option null_streak)
    (events : list null_streak) (n : nat) :
  Forall (fun s => (10 <= ns_count s)%nat /\ is_Some (ns_end_time s))
         events ->
  (sum_list (ns_count <$> events)
   + from_option ns_count 0%nat current <= n)%nat ->
  from_option (fun s => (2 <= ns_count s)%nat -> is_Some (ns_end_time s))
              True current ->
  Forall (fun s => (10 <= ns_count s)%nat /\ is_Some (ns_end_time s))
         (close_streak current events)
  /\ (sum_list (ns_count <$> close_streak current events) <= n)%nat.
Proof.
  intros Hall Hsum Hend. unfold close_streak.
  destruct current as [s|]; [|simpl in *; split; [done|lia]].
  simpl in Hsum, Hend.
  destruct (10 <=? ns_count s)%nat eqn:H10; [|split; [done|lia]].
  apply Nat.leb_le in H10. split.
  - apply Forall_app. split; [done|]. constructor; [|done].
    split; [done|]. apply Hend. lia.
  - rewrite fmap_app, sum_list_with_app. simpl. lia.
Qed.

Lemma streak_fold (l : list rfid_reading) :
  forall (current : option null_streak) (events : list null_streak)
         (n : nat),
    Forall (fun s => (10 <= ns_count s)%nat /\ is_Some (ns_end_time s))
           events ->
    (sum_list (ns_count <$> events)
     + from_option ns_count 0%nat current <= n)%nat ->
    from_option (fun s => (2 <= ns_count s)%nat -> is_Some (ns_end_time s))
                True current ->
    let st := foldl streak_step (current, events) l in
    Forall (fun s => (10 <= ns_count s)%nat /\ is_Some (ns_end_time s))
           (st.2)
    /\ (sum_list (ns_count <$> st.2) + from_option ns_count 0%nat (st.1)
        <= n + length (filter (fun r => is_null r = true) l))%nat
    /\ from_option (fun s => (2 <= ns_count s)%nat
                             -> is_Some (ns_end_time s))
                   True (st.1).
Proof.
  induction l as [|r l IH]; intros current events n Hall Hsum Hend.
  - cbv zeta. simpl. repeat split; try done. lia.
  - cbv zeta.
    change (foldl streak_step (current, events) (r :: l))
      with (foldl streak_step (streak_step (current, events) r) l).
    rewrite filter_cons. destruct (is_null r) eqn:Hr.
    + rewrite decide_True by done. simpl length.
      destruct current as [s|].
      * assert (Hstep : streak_step (Some s, events) r
                = (Some {| ns_start_time := ns_start_time s;
                           ns_station_id := ns_station_id s;
                           ns_count := S (ns_count s);
                           ns_end_time := Some (rf_timestamp r) |}, events))
          by (unfold streak_step; by rewrite Hr).
        rewrite Hstep. simpl in Hsum.
        match goal with
        | |- context [foldl streak_step (?c, events) l] =>
          assert (Hs' : (sum_list (ns_count <$> events)
                         + from_option ns_count 0%nat c <= S n)%nat)
            by (simpl; lia);
          assert (He' : from_option
                          (fun s => (2 <= ns_count s)%nat
                                    -> is_Some (ns_end_time s)) True c)
            by (by simpl);
          destruct (IH c events (S n) Hall Hs' He') as (H1 & H2 & H3)
        end.
        split; [exact H1|split; [lia|exact H3]].
      * assert (Hstep : streak_step (None, events) r
                = (Some {| ns_start_time := rf_timestamp r;
                           ns_station_id := rf_station_id r;
                           ns_count := 1;
                           ns_end_time := None |}, events))
          by (unfold streak_step; by rewrite Hr).
        rewrite Hstep. simpl in Hsum.
        match goal with
        | |- context [foldl streak_step (?c, events) l] =>
          assert (Hs' : (sum_list (ns_count <$> events)
                         + from_option ns_count 0%nat c <= S n)%nat)
            by (simpl; lia);
          assert (He' : from_option
                          (fun s => (2 <= ns_count s)%nat
                                    -> is_Some (ns_end_time s)) True c)
            by (simpl; lia);
          destruct (IH c events (S n) Hall Hs' He') as (H1 & H2 & H3)
        end.
        split; [exact H1|split; [lia|exact H3]].
    + rewrite decide_False by done.
      assert (Hstep : streak_step (current, events) r
                      = (None, close_streak current events))
        by (unfold streak_step; by rewrite Hr).
      rewrite Hstep.
      destruct (close_streak_inv current events n Hall Hsum Hend)
        as [Hall' Hsum'].
      apply (IH None (close_streak current events) n);
        [done|simpl; lia|done].
Qed.

(** X21.  Every missing-tag event is a run of at least 10 consecutive
    null readings in timestamp order and has its ['end_time'] set; the
    runs are disjoint, so their counts add up to at most the number of
    null readings; with fewer than 10 null readings there is no event. *)
Theorem missing_tag_events_streaks (rfid_data : list rfid_reading) :
  Forall (fun s => (10 <= ns_count s)%nat /\ is_Some (ns_end_time s))
         (missing_tag_events rfid_data)
  /\ (sum_list (ns_count <$> missing_tag_events rfid_data)
      <= cs_null_readings (statistics_of rfid_data))%nat
  /\ (10 * length (missing_tag_events rfid_data)
      <= cs_null_readings (statistics_of rfid_data))%nat
  /\ ((cs_null_readings (statistics_of rfid_data) < 10)%nat ->
      missing_tag_events rfid_data = []).
Proof.
  assert (Hmain :
    Forall (fun s => (10 <= ns_count s)%nat /\ is_Some (ns_end_time s))
           (missing_tag_events rfid_data)
    /\ (sum_list (ns_count <$> missing_tag_events rfid_data)
        <= cs_null_readings (statistics_of rfid_data))%nat).
  { unfold missing_tag_events. simpl.
    pose proof (streak_fold (sort_by String.leb rf_timestamp rfid_data)
                  None [] 0 ltac:(constructor) ltac:(simpl; lia) I)
      as (H1 & H2 & H3).
    destruct (foldl streak_step (None, [])
                (sort_by String.leb rf_timestamp rfid_data))
      as [current events]. simpl in *.
    assert (Hperm : length (filter (fun r => is_null r = true)
                      (sort_by String.leb rf_timestamp rfid_data))
                    = length (filter (fun r => is_null r = true) rfid_data)).
    { apply Permutation_length. by rewrite sort_by_Permutation. }
    rewrite Hperm in H2. by apply close_streak_inv. }
  destruct Hmain as [Hall Hsum].
  assert (Hlen : (10 * length (missing_tag_events rfid_data)
                  <= sum_list (ns_count <$> missing_tag_events rfid_data))%nat).
  { clear Hsum. induction Hall as [|s l [Hs _] _ IH]; [simpl; lia|].
    rewrite fmap_cons.
    change (sum_list (ns_count s :: (ns_count <$> l)))
      with (ns_count s + sum_list (ns_count <$> l))%nat.
    simpl length. lia. }
  repeat split; try done; try lia.
  intros Hlt. destruct (missing_tag_events rfid_data); [done|].
  simpl length in Hlen. lia.
Qed.

Lemma missing_tag_events_streaks_witness :
  (fun s => (ns_start_time s, ns_station_id s, ns_count s))
    <$> missing_tag_events Sample.rfid_data
  = [("2025-08-13T16:00:01", Some "SCC1", 11%nat)]
  /\ missing_tag_events (take 9 Sample.rfid_data) = [].
Proof.
  split; [vm_compute; reflexivity|].
  apply (proj2 (proj2 (proj2 (missing_tag_events_streaks
                                (take 9 Sample.rfid_data))))).
  vm_compute. lia.
Defined.

(** *** A run spans the stations *)

Lemma streak_all_null (l : list rfid_reading) :
  Forall (fun r => is_null r = true) l ->
  forall (s : null_streak) (events : list null_streak),
    foldl streak_step (Some s, events) l
    = (Some {| ns_start_time := ns_start_time s;
               ns_station_id := ns_station_id s;
               ns_count := ns_count s + length l;
               ns_end_time :=
                 match last l with
                 | Some r => Some (rf_timestamp r)
                 | None => ns_end_time s
                 end |}, events).
Proof.
  induction 1 as [|r l Hr _ IH]; intros s events.
  - simpl. rewrite Nat.add_0_r. by destruct s.
  - change (foldl streak_step (Some s, events) (r :: l))
      with (foldl streak_step (streak_step (Some s, events) r) l).
    assert (Hstep : streak_step (Some s, events) r
              = (Some {| ns_start_time := ns_start_time s;
                         ns_station_id := ns_station_id s;
                         ns_count := S (ns_count s);
                         ns_end_time := Some (rf_timestamp r) |}, events))
      by (unfold streak_step; by rewrite Hr).
    rewrite Hstep, IH. simpl.
    rewrite Nat.add_succ_r. do 2 f_equal.
    rewrite last_cons. by destruct (last l).
Qed.

(** X23.  A run of null readings is not kept per station: when every
    reading is null and there are at least 10, the analyzer reports one
    event that counts all readings of all stations, labelled with the
    station and timestamp of the earliest reading and ending at the
    latest one. *)
Theorem missing_tag_run_spans_stations (rfid_data : list rfid_reading)
    (first : rfid_reading) (rest : list rfid_reading) :
  Forall (fun r => is_null r = true) rfid_data ->
  (10 <= length rfid_data)%nat ->
  sort_by String.leb rf_timestamp rfid_data = first :: rest ->
  exists latest,
    last rest = Some latest
    /\ missing_tag_events rfid_data
       = [ {| ns_start_time := rf_timestamp first;
              ns_station_id := rf_station_id first;
              ns_count := length rfid_data;
              ns_end_time := Some (rf_timestamp latest) |} ].
Proof.
  intros Hnull Hlen Hsort.
  assert (Hnull' : Forall (fun r => is_null r = true) (first :: rest)).
  { rewrite <- Hsort. apply Forall_forall. intros r Hr.
    rewrite Forall_forall in Hnull. apply Hnull.
    by apply list_elem_of_In, sort_by_In, list_elem_of_In in Hr. }
  assert (Hn : length rfid_data = S (length rest)).
  { rewrite <- (sort_by_length String.leb rf_timestamp), Hsort. done. }
  apply Forall_cons in Hnull' as [Hfirst Hrest].
  destruct (last rest) as [latest|] eqn:Hlast.
  - exists latest. split; [done|].
    unfold missing_tag_events. rewrite Hsort.
    change (foldl streak_step (None, []) (first :: rest))
      with (foldl streak_step (streak_step (None, []) first) rest).
    assert (Hstep : streak_step (None, []) first
              = (Some {| ns_start_time := rf_timestamp first;
                         ns_station_id := rf_station_id first;
                         ns_count := 1;
                         ns_end_time := None |}, []))
      by (unfold streak_step; by rewrite Hfirst).
    rewrite Hstep, (streak_all_null rest Hrest), Hlast.
    unfold close_streak. cbn [ns_count Nat.add]. rewrite Hn.
    assert (H10 : (10 <=? S (length rest))%nat = true)
      by (apply Nat.leb_le; lia).
    by rewrite H10.
  - apply last_None in Hlast. subst rest. simpl in Hn. lia.
Qed.

Lemma missing_tag_run_spans_stations_witness :
  exists latest,
    missing_tag_events (drop 1 Sample.rfid_data)
    = [ {| ns_start_time := "2025-08-13T16:00:01";
           ns_station_id := Some "SCC1";
           ns_count := 11;
           ns_end_time := Some (rf_timestamp latest) |} ].
Proof.
  destruct (missing_tag_run_spans_stations (drop 1 Sample.rfid_data)
              (Sample.reading "2025-08-13T16:00:01" "SCC1" None)
              (drop 2 Sample.rfid_data))
    as (latest & _ & Heq).
  - vm_compute. repeat constructor.
  - vm_compute. lia.
  - vm_compute. reflexivity.
  - exists latest. exact Heq.
Defined.

End RfidFacts.
